(** * memory-vasa-backend: the Storage Gateway, the Context Aggregation Tool,
      the HTTP route layer and the webhook receiver.

    The JavaScript sources are embedded shallowly:
    - JSON-like JavaScript values are the inductive type [Js.value];
    - an [async] function is a finite tree of awaited calls ([Eff.prog]):
      every call into a collaborator (the document-store client, the
      gateway seen from a route, the clock) is a node whose continuation
      receives either the value the call returned or the exception it threw;
    - [try { .. } catch (error) { .. }] is [Eff.try_catch].
    Running a tree against a handler (the environment answering the calls)
    gives the result, the final environment state and the trace of calls. *)

From Stdlib Require Import String Ascii List ZArith Bool Lia Sorted Permutation.
From Stdlib Require Import DecimalString.
Import ListNotations.
Set Warnings "-register-all".
Local Open Scope string_scope.
Local Open Scope list_scope.

(* ===================================================================== *)
(** ** JavaScript values *)
(* ===================================================================== *)

Module Js.

(** Numbers are the integers (no fractional numbers, no NaN); a string is a
    sequence of characters standing for the code units of the JavaScript
    string; an object is the list of its own enumerable properties. *)
Inductive value : Type :=
| VUndefined
| VNull
| VBool (b : bool)
| VNum (n : Z)
| VStr (s : string)
| VArr (elems : list value)
| VObj (fields : list (string * value)).

(** An exception object: [new Error(message)], [TypeError], FirestoreError. *)
Record JsError : Type := mkError { err_name : string; err_message : string }.

(** The message of a TypeError is the engine's wording; the model fixes one
    wording per place where the program can raise it. *)
Definition TypeError (msg : string) : JsError := mkError "TypeError" msg.

(** Decimal rendering of an integer, as [String(n)] gives it. *)
Definition dec (n : Z) : string := NilZero.string_of_int (Z.to_int n).

Definition dec_nat (n : nat) : string := dec (Z.of_nat n).

(** ToBoolean. *)
Definition truthy (v : value) : bool :=
  match v with
  | VUndefined | VNull => false
  | VBool b => b
  | VNum n => negb (Z.eqb n 0)
  | VStr s => negb (String.eqb s "")
  | VArr _ | VObj _ => true
  end.

Definition nullish (v : value) : bool :=
  match v with
  | VUndefined | VNull => true
  | _ => false
  end.

(** A default [x = d] of a parameter or of a destructuring pattern. *)
Definition default_arg (x d : value) : value :=
  match x with
  | VUndefined => d
  | _ => x
  end.

(** [a || b] on already evaluated operands. *)
Definition or_else (a b : value) : value := if truthy a then a else b.

(** The properties of an object are listed as in an object literal: when a
    name occurs twice the later occurrence is the property. *)
Fixpoint lookup (k : string) (fs : list (string * value)) : option value :=
  match fs with
  | [] => None
  | (k', v) :: rest =>
      match lookup k rest with
      | Some x => Some x
      | None => if String.eqb k k' then Some v else None
      end
  end.

Definition has_key (k : string) (fs : list (string * value)) : bool :=
  match lookup k fs with
  | Some _ => true
  | None => false
  end.

(** Property read [v.k] of a value that is not null or undefined, for the
    property names the program uses: own properties of an object, [length]
    of arrays and strings, and [undefined] for everything else (none of the
    names read by the program lives on a prototype). *)
Definition get (v : value) (k : string) : value :=
  match v with
  | VObj fs => match lookup k fs with Some x => x | None => VUndefined end
  | VArr l => if String.eqb k "length" then VNum (Z.of_nat (List.length l)) else VUndefined
  | VStr s => if String.eqb k "length" then VNum (Z.of_nat (String.length s)) else VUndefined
  | _ => VUndefined
  end.

(** Property read [v.k]: reading from null or undefined throws. *)
Definition member (v : value) (k : string) : option value :=
  if nullish v then None else Some (get v k).

(** Optional chaining [v?.k]. *)
Definition opt_member (v : value) (k : string) : value :=
  if nullish v then VUndefined else get v k.

(** Writing property [k]: an existing property keeps its place, a new one
    goes last. *)
Definition set (fs : list (string * value)) (k : string) (v : value)
  : list (string * value) :=
  if has_key k fs
  then map (fun kv => if String.eqb (fst kv) k then (k, v) else kv) fs
  else fs ++ [(k, v)].

Fixpoint chars (s : string) : list string :=
  match s with
  | EmptyString => []
  | String c rest => String c EmptyString :: chars rest
  end.

Fixpoint indexed {A : Type} (i : nat) (l : list A) : list (string * A) :=
  match l with
  | [] => []
  | x :: rest => (dec_nat i, x) :: indexed (S i) rest
  end.

(** The own enumerable properties copied by a spread [...v] inside an
    object literal, and by a rest pattern. *)
Definition own_props (v : value) : list (string * value) :=
  match v with
  | VObj fs => fs
  | VArr l => indexed 0 l
  | VStr s => indexed 0 (map VStr (chars s))
  | _ => []
  end.

(** One item of an object literal: [k: v] or [...v]. *)
Inductive item : Type :=
| Field (k : string) (v : value)
| Spread (v : value).

Definition add_item (fs : list (string * value)) (it : item)
  : list (string * value) :=
  match it with
  | Field k v => set fs k v
  | Spread v => fold_left (fun acc kv => set acc (fst kv) (snd kv)) (own_props v) fs
  end.

(** The object literal [{ item, item, ... }], evaluated left to right. *)
Definition object (items : list item) : value :=
  VObj (fold_left add_item items []).

(** The rest pattern [const { k, ...rest } = v]: the own properties of [v]
    other than [k]. *)
Definition without (k : string) (v : value) : value :=
  VObj (filter (fun kv => negb (String.eqb (fst kv) k)) (own_props v)).

(** ToString; inside [Array.prototype.join] (and so inside the string of an
    array) null and undefined are rendered as the empty string. *)
Fixpoint to_string (v : value) : string :=
  match v with
  | VUndefined => "undefined"
  | VNull => "null"
  | VBool true => "true"
  | VBool false => "false"
  | VNum n => dec n
  | VStr s => s
  | VArr l =>
      String.concat ","
        ((fix strs (l : list value) : list string :=
            match l with
            | [] => []
            | x :: rest =>
                match x with
                | VUndefined | VNull => ""
                | _ => to_string x
                end :: strs rest
            end) l)
  | VObj _ => "[object Object]"
  end.

Definition join_elem (v : value) : string :=
  if nullish v then "" else to_string v.

(** [l.join(sep)]. *)
Definition join (sep : string) (l : list value) : string :=
  String.concat sep (map join_elem l).

(** [a === s] against a string literal. *)
Definition is_str (v : value) (s : string) : bool :=
  match v with
  | VStr s' => String.eqb s' s
  | _ => false
  end.

(** SameValueZero, the equality of [Set]: primitives by value; two arrays or
    objects read from different documents are never the same reference. *)
Definition same_value_zero (a b : value) : bool :=
  match a, b with
  | VUndefined, VUndefined => true
  | VNull, VNull => true
  | VBool x, VBool y => Bool.eqb x y
  | VNum x, VNum y => Z.eqb x y
  | VStr x, VStr y => String.eqb x y
  | _, _ => false
  end.

(** [[...new Set(l)]]: first occurrences, in order. *)
Fixpoint dedupe_from (seen l : list value) : list value :=
  match l with
  | [] => []
  | x :: rest =>
      if existsb (same_value_zero x) seen then dedupe_from seen rest
      else x :: dedupe_from (x :: seen) rest
  end.

Definition dedupe (l : list value) : list value := dedupe_from [] l.

(** [s.substring(0, n)]. *)
Definition take_chars (n : nat) (s : string) : string := String.substring 0 n s.

(** [s.includes(p)]: [p] occurs in [s] as a substring. *)
Fixpoint includes (s p : string) : bool :=
  String.prefix p s ||
  match s with
  | EmptyString => false
  | String _ rest => includes rest p
  end.

Definition lower_char (c : ascii) : ascii :=
  let n := nat_of_ascii c in
  if (Nat.leb 65 n && Nat.leb n 90)%bool then ascii_of_nat (n + 32) else c.

(** [s.toLowerCase()] on the ASCII letters (the program only searches the
    result for lower-case ASCII words). *)
Fixpoint to_lower (s : string) : string :=
  match s with
  | EmptyString => ""
  | String c rest => String (lower_char c) (to_lower rest)
  end.

(** [s.split(sep)[0]] for a one-character separator. *)
Fixpoint before_char (sep : ascii) (s : string) : string :=
  match s with
  | EmptyString => ""
  | String c rest => if Ascii.eqb c sep then "" else String c (before_char sep rest)
  end.

Definition is_space (c : ascii) : bool :=
  let n := nat_of_ascii c in
  (Nat.eqb n 32 || Nat.eqb n 9 || Nat.eqb n 10 || Nat.eqb n 13)%bool.

Fixpoint drop_spaces (l : list ascii) : list ascii :=
  match l with
  | [] => []
  | c :: rest => if is_space c then drop_spaces rest else l
  end.

Definition trim (l : list ascii) : list ascii :=
  rev (drop_spaces (rev (drop_spaces l))).

Definition digit (c : ascii) : option Z :=
  let n := nat_of_ascii c in
  if (Nat.leb 48 n && Nat.leb n 57)%bool then Some (Z.of_nat (n - 48)) else None.

Fixpoint digits (acc : Z) (l : list ascii) : option Z :=
  match l with
  | [] => Some acc
  | c :: rest =>
      match digit c with
      | Some d => digits (10 * acc + d) rest
      | None => None
      end
  end.

(** The number a string converts to, for decimal integer numerals; [None] is
    NaN (fractional, exponent and hexadecimal numerals are outside the
    integers of this model). *)
Definition parse_number (s : string) : option Z :=
  match trim (list_ascii_of_string s) with
  | [] => Some 0%Z
  | c :: rest =>
      if Ascii.eqb c "-" then
        match rest with [] => None | _ => option_map Z.opp (digits 0 rest) end
      else if Ascii.eqb c "+" then
        match rest with [] => None | _ => digits 0 rest end
      else digits 0 (c :: rest)
  end.

(** ToNumber; [None] is NaN. *)
Definition to_number (v : value) : option Z :=
  match v with
  | VUndefined => None
  | VNull => Some 0%Z
  | VBool b => Some (if b then 1 else 0)%Z
  | VNum n => Some n
  | VStr s => parse_number s
  | VArr _ | VObj _ => parse_number (to_string v)
  end.

(** [v > n] against a number literal. *)
Definition gt (v : value) (n : Z) : bool :=
  match to_number v with
  | Some x => Z.ltb n x
  | None => false
  end.

(** [l.slice(-n)]. *)
Definition last_n {A : Type} (n : nat) (l : list A) : list A :=
  skipn (List.length l - n) l.

(** [l.map(f)] for a callback that may throw. *)
Fixpoint map_opt {A B : Type} (f : A -> option B) (l : list A) : option (list B) :=
  match l with
  | [] => Some []
  | x :: rest =>
      match f x with
      | Some y =>
          match map_opt f rest with
          | Some ys => Some (y :: ys)
          | None => None
          end
      | None => None
      end
  end.

End Js.

(* ===================================================================== *)
(** ** Awaited calls, exceptions and try/catch *)
(* ===================================================================== *)

Module Eff.

Import Js.

(** What an awaited call gives back: the value, or the exception thrown. *)
Inductive outcome (A : Type) : Type :=
| Ok (a : A)
| Err (e : JsError).
Arguments Ok {A} a.
Arguments Err {A} e.

(** A function body over the calls [E]: it returns, throws, or makes a call
    and continues with what the call gave. *)
Inductive prog (E : Type -> Type) (R : Type) : Type :=
| Ret (r : R)
| Throw (e : JsError)
| Vis (X : Type) (ev : E X) (k : outcome X -> prog E R).
Arguments Ret {E R} r.
Arguments Throw {E R} e.
Arguments Vis {E R X} ev k.

(** [await ev]: an exception of the call propagates. *)
Definition call {E : Type -> Type} {X : Type} (ev : E X) : prog E X :=
  Vis ev (fun o => match o with Ok x => Ret x | Err e => Throw e end).

Fixpoint bind {E : Type -> Type} {A B : Type}
  (p : prog E A) (f : A -> prog E B) : prog E B :=
  match p with
  | Ret a => f a
  | Throw e => Throw e
  | Vis ev k => Vis ev (fun o => bind (k o) f)
  end.

(** [try { p } catch (error) { h error }]. *)
Fixpoint try_catch {E : Type -> Type} {A : Type}
  (p : prog E A) (h : JsError -> prog E A) : prog E A :=
  match p with
  | Ret a => Ret a
  | Throw e => h e
  | Vis ev k => Vis ev (fun o => try_catch (k o) h)
  end.

(** A synchronous step that throws a TypeError when it has no value. *)
Definition lift {E : Type -> Type} {A : Type} (msg : string) (o : option A)
  : prog E A :=
  match o with
  | Some a => Ret a
  | None => Throw (TypeError msg)
  end.

(** The environment: it answers each call and moves to its next state. *)
Definition handler (E : Type -> Type) (S : Type) : Type :=
  forall X : Type, E X -> S -> outcome X * S.

(** One call of the trace, with the answer it got. *)
Record entry (E : Type -> Type) : Type :=
  Entry { ent_type : Type; ent_call : E ent_type; ent_answer : outcome ent_type }.
Arguments Entry {E ent_type} ent_call ent_answer.
Arguments ent_call {E} e.
Arguments ent_answer {E} e.

Record run_result (R S : Type) (E : Type -> Type) : Type :=
  Run { result : outcome R; final : S; trace : list (entry E) }.
Arguments Run {R S E} result final trace.
Arguments result {R S E} r.
Arguments final {R S E} r.
Arguments trace {R S E} r.

Fixpoint run {E : Type -> Type} {R S : Type}
  (h : handler E S) (p : prog E R) (s : S) : run_result R S E :=
  match p with
  | Ret r => Run (Ok r) s []
  | Throw e => Run (Err e) s []
  | Vis ev k =>
      let (o, s') := h _ ev s in
      let r := run h (k o) s' in
      Run (result r) (final r) (Entry ev o :: trace r)
  end.

Definition answer_failed {E : Type -> Type} (e : entry E) : bool :=
  match ent_answer e with
  | Ok _ => false
  | Err _ => true
  end.

(** Some call of the trace threw. *)
Definition some_call_failed {E : Type -> Type} (t : list (entry E)) : bool :=
  existsb answer_failed t.

(** A body without a try/catch of its own: the exception of any of its calls
    is its own exception. *)
Inductive strict {E : Type -> Type} {R : Type} : prog E R -> Prop :=
| strict_ret (r : R) : strict (Ret r)
| strict_throw (e : JsError) : strict (Throw e)
| strict_vis (X : Type) (ev : E X) (k : outcome X -> prog E R) :
    (forall e, k (Err e) = Throw e) ->
    (forall x, strict (k (Ok x))) ->
    strict (Vis ev k).

(** Every call the body can make, whatever the answers, satisfies [P]. *)
Inductive all_calls {E : Type -> Type} {R : Type}
  (P : forall X : Type, E X -> Prop) : prog E R -> Prop :=
| all_ret (r : R) : all_calls P (Ret r)
| all_throw (e : JsError) : all_calls P (Throw e)
| all_vis (X : Type) (ev : E X) (k : outcome X -> prog E R) :
    P X ev -> (forall o, all_calls P (k o)) -> all_calls P (Vis ev k).

(** Every value the body can return, whatever the answers, satisfies [P]. *)
Inductive returns {E : Type -> Type} {R : Type} (P : R -> Prop) : prog E R -> Prop :=
| returns_ret (r : R) : P r -> returns P (Ret r)
| returns_throw (e : JsError) : returns P (Throw e)
| returns_vis (X : Type) (ev : E X) (k : outcome X -> prog E R) :
    (forall o, returns P (k o)) -> returns P (Vis ev k).

(** Every value the body can return when each of its calls is answered
    within [A] satisfies [P]. *)
Inductive returns_when {E : Type -> Type} {R : Type}
  (A : forall X : Type, E X -> outcome X -> Prop) (P : R -> Prop) : prog E R -> Prop :=
| when_ret (r : R) : P r -> returns_when A P (Ret r)
| when_throw (e : JsError) : returns_when A P (Throw e)
| when_vis (X : Type) (ev : E X) (k : outcome X -> prog E R) :
    (forall o, A X ev o -> returns_when A P (k o)) -> returns_when A P (Vis ev k).

End Eff.

Declare Scope prog_scope.
Delimit Scope prog_scope with prog.
Notation "x <- c1 ;; c2" := (Eff.bind c1 (fun x => c2))
  (at level 61, c1 at next level, right associativity) : prog_scope.
Notation "' pat <- c1 ;; c2" := (Eff.bind c1 (fun x => match x with pat => c2 end))
  (at level 61, pat pattern, c1 at next level, right associativity) : prog_scope.
Notation "c1 ;;; c2" := (Eff.bind c1 (fun _ => c2))
  (at level 61, right associativity) : prog_scope.

(* ===================================================================== *)
(** ** The document-store client, as the gateway sees it *)
(* ===================================================================== *)

Module Firestore.

Import Js Eff.

Record collref : Type := CollRef { coll_path : list string }.

Record docref : Type := DocRef { doc_parent : list string; doc_id : string }.

(** A document snapshot of a query: [doc.ref], [doc.id], [doc.data()]. *)
Record docsnap : Type := Snap { snap_ref : docref; snap_fields : list (string * value) }.

Inductive direction : Type := Asc | Desc.

(** [query(coll, orderBy(field, dir), limit(n))]; a bare collection reference
    given to [getDocs] is the query without order and limit. *)
Record query : Type :=
  Query { q_coll : collref;
          q_order : option (string * direction);
          q_limit : option value }.

Definition plain (c : collref) : query := Query c None None.

(** The calls of the gateway into its environment: the clock and the
    document-store client. *)
Inductive op : Type -> Type :=
| NowISO : op string                                 (* new Date().toISOString() *)
| DateNow : op Z                                     (* Date.now() *)
| Collection (segments : list value) : op collref    (* collection(db, ...segments) *)
| Doc (segments : list value) : op docref            (* doc(db, ...segments) *)
| NewDoc (c : collref) : op docref                   (* doc(c): a fresh document id *)
| SetDoc (r : docref) (data : value) (merge : bool) : op unit
| GetDoc (r : docref) : op (option (list (string * value)))
                                                     (* None: the snapshot does not exist *)
| GetDocs (q : query) : op (list docsnap)
| Commit (deletes : list docref) : op unit.          (* writeBatch + delete.. + commit *)

(** The records given to [setDoc], the clock readings and the queries of a
    trace. *)
Definition written_by (e : entry op) : list (docref * value) :=
  match ent_call e with
  | SetDoc r data _ => [(r, data)]
  | _ => []
  end.

Definition written (t : list (entry op)) : list (docref * value) :=
  flat_map written_by t.

Definition clock_read_by (e : entry op) : list string :=
  match ent_call e in op X return outcome X -> list string with
  | NowISO => fun o => match o with Ok now => [now] | Err _ => [] end
  | _ => fun _ => []
  end (ent_answer e).

Definition clock_reads (t : list (entry op)) : list string :=
  flat_map clock_read_by t.

Definition query_of (e : entry op) : list query :=
  match ent_call e with
  | GetDocs q => [q]
  | _ => []
  end.

Definition queries (t : list (entry op)) : list query := flat_map query_of t.

(** The query asks for the most recent documents first, at most [limit]. *)
Definition recent_first (limit : value) (X : Type) (ev : op X) : Prop :=
  match ev with
  | GetDocs q => q_order q = Some ("timestamp", Desc) /\ q_limit q = Some limit
  | _ => True
  end.

(** The query has neither an order nor a limit. *)
Definition unordered (X : Type) (ev : op X) : Prop :=
  match ev with
  | GetDocs q => q_order q = None /\ q_limit q = None
  | _ => True
  end.

(** The call does not write to the store. *)
Definition reads_only (X : Type) (ev : op X) : Prop :=
  match ev with
  | SetDoc _ _ _ | Commit _ => False
  | _ => True
  end.

(** The merge flags of the writes of a trace, and the batches committed. *)
Definition merge_of (e : entry op) : list bool :=
  match ent_call e with
  | SetDoc _ _ merge => [merge]
  | _ => []
  end.

Definition merges (t : list (entry op)) : list bool := flat_map merge_of t.

(** The write sets its merge option to [b]. *)
Definition merges_as (b : bool) (X : Type) (ev : op X) : Prop :=
  match ev with
  | SetDoc _ _ merge => merge = b
  | _ => True
  end.

End Firestore.

(* ===================================================================== *)
(** ** The Storage Gateway: class FirebaseMemoryService *)
(* ===================================================================== *)

Module FirebaseMemoryService.

Import Js Eff Firestore.
Local Open Scope string_scope.
Local Open Scope prog_scope.

(** [catch (error) { return { success: false, error: error.message } }] *)
Definition failure (error : JsError) : prog op value :=
  Ret (object [Field "success" (VBool false);
               Field "error" (VStr (err_message error))]).

(** [data.timestamp || new Date().toISOString()] *)
Definition timestamp_or_now (data : value) : prog op value :=
  given <- lift "Cannot read properties of undefined (reading 'timestamp')"
                (member data "timestamp") ;;
  if truthy given then Ret given
  else (now <- call NowISO ;; Ret (VStr now)).

(** [{ ...data, <extra>, timestamp: data.timestamp || now, createdAt: now }] *)
Definition stamped (data : value) (extra : list item) : prog op value :=
  timestamp <- timestamp_or_now data ;;
  createdAt <- call NowISO ;;
  Ret (object (Spread data :: extra ++
               [Field "timestamp" timestamp; Field "createdAt" (VStr createdAt)])%list).

Definition stored (r : docref) : value :=
  object [Field "success" (VBool true); Field "id" (VStr (doc_id r))].

Definition storeConversation (userUUID conversationData : value) : prog op value :=
  try_catch
    (c <- call (Collection [VStr "users"; userUUID; VStr "conversations"]) ;;
     conversationRef <- call (NewDoc c) ;;
     record <- stamped conversationData [] ;;
     call (SetDoc conversationRef record false) ;;;
     Ret (stored conversationRef))
    failure.

(** [{ id: doc.id, ...doc.data() }] *)
Definition entry_of (d : docsnap) : value :=
  object [Field "id" (VStr (doc_id (snap_ref d))); Spread (VObj (snap_fields d))].

(** [query(c, orderBy('timestamp', 'desc'), limit(limitCount))]; a limit the
    client refuses makes the call with this query throw, inside the same
    try block. *)
Definition recent (c : collref) (limitCount : value) : query :=
  Query c (Some ("timestamp", Desc)) (Some limitCount).

Definition getConversationHistory (userUUID limitCount : value) : prog op value :=
  let limitCount := default_arg limitCount (VNum 50) in
  try_catch
    (conversationsRef <- call (Collection [VStr "users"; userUUID; VStr "conversations"]) ;;
     querySnapshot <- call (GetDocs (recent conversationsRef limitCount)) ;;
     Ret (VArr (map entry_of querySnapshot)))
    (fun _ => Ret (VArr [])).

Definition storeStageProgression (userUUID stageData : value) : prog op value :=
  try_catch
    (c <- call (Collection [VStr "users"; userUUID; VStr "stages"]) ;;
     stageRef <- call (NewDoc c) ;;
     record <- stamped stageData [] ;;
     call (SetDoc stageRef record false) ;;;
     Ret (stored stageRef))
    failure.

Definition storeUserProfile (userUUID profileData : value) : prog op value :=
  try_catch
    (profileRef <- call (Doc [VStr "users"; userUUID]) ;;
     lastUpdated <- call NowISO ;;
     call (SetDoc profileRef
             (object [Spread profileData; Field "lastUpdated" (VStr lastUpdated)])
             true) ;;;
     Ret (object [Field "success" (VBool true)]))
    failure.

Definition getUserProfile (userUUID : value) : prog op value :=
  try_catch
    (profileRef <- call (Doc [VStr "users"; userUUID]) ;;
     profileSnap <- call (GetDoc profileRef) ;;
     match profileSnap with
     | Some data => Ret (VObj data)
     | None => Ret VNull
     end)
    (fun _ => Ret VNull).

Definition clearUserData (userUUID : value) : prog op value :=
  try_catch
    (userRef <- call (Doc [VStr "users"; userUUID]) ;;
     let batch := [userRef] in
     conversationsRef <- call (Collection [VStr "users"; userUUID; VStr "conversations"]) ;;
     conversationsSnapshot <- call (GetDocs (plain conversationsRef)) ;;
     let batch := (batch ++ map snap_ref conversationsSnapshot)%list in
     stagesRef <- call (Collection [VStr "users"; userUUID; VStr "stages"]) ;;
     stagesSnapshot <- call (GetDocs (plain stagesRef)) ;;
     let batch := (batch ++ map snap_ref stagesSnapshot)%list in
     call (Commit batch) ;;;
     Ret (object [Field "success" (VBool true)]))
    failure.

Definition storeUserContext (userUUID contextData : value) : prog op value :=
  try_catch
    (c <- call (Collection [VStr "users"; userUUID; VStr "context"]) ;;
     contextRef <- call (NewDoc c) ;;
     record <- stamped contextData [] ;;
     call (SetDoc contextRef record false) ;;;
     Ret (stored contextRef))
    failure.

Definition getUserStageProgressions (userUUID limitCount : value) : prog op value :=
  let limitCount := default_arg limitCount (VNum 50) in
  try_catch
    (stagesRef <- call (Collection [VStr "users"; userUUID; VStr "stages"]) ;;
     querySnapshot <- call (GetDocs (recent stagesRef limitCount)) ;;
     Ret (VArr (map entry_of querySnapshot)))
    (fun _ => Ret (VArr [])).

Definition getUserContext (userUUID limitCount : value) : prog op value :=
  let limitCount := default_arg limitCount (VNum 20) in
  try_catch
    (contextRef <- call (Collection [VStr "users"; userUUID; VStr "context"]) ;;
     querySnapshot <- call (GetDocs (recent contextRef limitCount)) ;;
     Ret (VArr (map entry_of querySnapshot)))
    (fun _ => Ret (VArr [])).

(** The four session writes differ in the sub-collection only. *)
Definition store_in_session (sub : string) (userUUID sessionId data : value)
  : prog op value :=
  try_catch
    (c <- call (Collection [VStr "users"; userUUID; VStr "sessions"; sessionId; VStr sub]) ;;
     sessionRef <- call (NewDoc c) ;;
     record <- stamped data [Field "sessionId" sessionId] ;;
     call (SetDoc sessionRef record false) ;;;
     Ret (stored sessionRef))
    failure.

Definition storeSessionStageProgression := store_in_session "stages".
Definition storeSessionUserContext := store_in_session "context".
Definition storeBreakthroughMoment := store_in_session "breakthroughs".
Definition storeTherapeuticTheme := store_in_session "themes".

(** One block of [getSessionData]:
    [if (dataType === 'all' || dataType === sub) { sessionData[sub] = [...] }] *)
Definition session_part (sub : string) (userUUID sessionId dataType : value)
  (sessionData : list (string * value)) : prog op (list (string * value)) :=
  if (is_str dataType "all" || is_str dataType sub)%bool then
    c <- call (Collection [VStr "users"; userUUID; VStr "sessions"; sessionId; VStr sub]) ;;
    snapshot <- call (GetDocs (plain c)) ;;
    Ret (set sessionData sub (VArr (map entry_of snapshot)))
  else Ret sessionData.

Definition getSessionData (userUUID sessionId dataType : value) : prog op value :=
  let dataType := default_arg dataType (VStr "all") in
  try_catch
    (sessionData <- session_part "stages" userUUID sessionId dataType [] ;;
     sessionData <- session_part "context" userUUID sessionId dataType sessionData ;;
     sessionData <- session_part "breakthroughs" userUUID sessionId dataType sessionData ;;
     sessionData <- session_part "themes" userUUID sessionId dataType sessionData ;;
     Ret (VObj sessionData))
    (fun _ => Ret (VObj [])).

Definition getCurrentSessionId (userUUID : value) : prog op value :=
  try_catch
    (now <- call NowISO ;;
     let today := before_char "T"%char now in
     ms <- call DateNow ;;
     Ret (VStr ("session_" ++ today ++ "_" ++ dec ms)))
    (fun _ => ms <- call DateNow ;; Ret (VStr ("session_" ++ dec ms))).

(** The shape shared by the seven methods that write a stamped record:
    a new document in the collection at [segments]. *)
Definition store_body (segments : list value) (data : value) (extra : list item)
  : prog op value :=
  try_catch
    (c <- call (Collection segments) ;;
     r <- call (NewDoc c) ;;
     record <- stamped data extra ;;
     call (SetDoc r record false) ;;;
     Ret (stored r))
    failure.

(** [healthCheck()] *)
Definition healthCheck : prog op value :=
  try_catch
    (testDoc <- call (Doc [VStr "health"; VStr "test"]) ;;
     call (GetDoc testDoc) ;;;
     Ret (object [Field "status" (VStr "healthy"); Field "service" (VStr "firebase")]))
    (fun error =>
       Ret (object [Field "status" (VStr "unhealthy");
                    Field "service" (VStr "firebase");
                    Field "error" (VStr (err_message error))])).

(** [dataType === 'all' || dataType === sub], with the default of
    [getSessionData] for a data type that is not given. *)
Definition selects (dataType : value) (sub : string) : bool :=
  let dataType := default_arg dataType (VStr "all") in
  (is_str dataType "all" || is_str dataType sub)%bool.

(** The sub-collections of a session. *)
Definition session_parts : list string := ["stages"; "context"; "breakthroughs"; "themes"].

End FirebaseMemoryService.

(* ===================================================================== *)
(** ** The gateway as its callers see it *)
(* ===================================================================== *)

Module Gateway.

Import Js Eff.

(** The methods of the memory service object. *)
Inductive method : Type :=
| StoreConversation
| GetConversationHistory
| StoreStageProgression
| StoreUserProfile
| GetUserProfile
| ClearUserData
| StoreUserContext
| GetUserStageProgressions
| GetUserContext
| StoreSessionStageProgression
| StoreSessionUserContext
| StoreBreakthroughMoment
| StoreTherapeuticTheme
| GetSessionData
| GetCurrentSessionId.

(** The calls of a route or of the context tool into its environment. *)
Inductive op : Type -> Type :=
| Invoke (m : method) (args : list value) : op value   (* await memoryService.m(...args) *)
| NowISO : op string.                                  (* new Date().toISOString() *)

Definition arg (i : nat) (args : list value) : value := nth i args VUndefined.

(** [memoryService.m(...args)] when [memoryService] is the
    FirebaseMemoryService instance; an argument that is not given is
    undefined. *)
Definition firebase (m : method) (args : list value) : prog Firestore.op value :=
  let a := fun i => arg i args in
  match m with
  | StoreConversation => FirebaseMemoryService.storeConversation (a 0%nat) (a 1%nat)
  | GetConversationHistory => FirebaseMemoryService.getConversationHistory (a 0%nat) (a 1%nat)
  | StoreStageProgression => FirebaseMemoryService.storeStageProgression (a 0%nat) (a 1%nat)
  | StoreUserProfile => FirebaseMemoryService.storeUserProfile (a 0%nat) (a 1%nat)
  | GetUserProfile => FirebaseMemoryService.getUserProfile (a 0%nat)
  | ClearUserData => FirebaseMemoryService.clearUserData (a 0%nat)
  | StoreUserContext => FirebaseMemoryService.storeUserContext (a 0%nat) (a 1%nat)
  | GetUserStageProgressions => FirebaseMemoryService.getUserStageProgressions (a 0%nat) (a 1%nat)
  | GetUserContext => FirebaseMemoryService.getUserContext (a 0%nat) (a 1%nat)
  | StoreSessionStageProgression =>
      FirebaseMemoryService.storeSessionStageProgression (a 0%nat) (a 1%nat) (a 2%nat)
  | StoreSessionUserContext =>
      FirebaseMemoryService.storeSessionUserContext (a 0%nat) (a 1%nat) (a 2%nat)
  | StoreBreakthroughMoment =>
      FirebaseMemoryService.storeBreakthroughMoment (a 0%nat) (a 1%nat) (a 2%nat)
  | StoreTherapeuticTheme =>
      FirebaseMemoryService.storeTherapeuticTheme (a 0%nat) (a 1%nat) (a 2%nat)
  | GetSessionData => FirebaseMemoryService.getSessionData (a 0%nat) (a 1%nat) (a 2%nat)
  | GetCurrentSessionId => FirebaseMemoryService.getCurrentSessionId (a 0%nat)
  end.

(** The methods of which the specification says what they return on a
    failure (all but [getCurrentSessionId]). *)
Inductive kind : Type := Write | ReadList | ReadNullable | ReadObject | Other.

Definition kind_of (m : method) : kind :=
  match m with
  | StoreConversation | StoreStageProgression | StoreUserProfile | ClearUserData
  | StoreUserContext | StoreSessionStageProgression | StoreSessionUserContext
  | StoreBreakthroughMoment | StoreTherapeuticTheme => Write
  | GetConversationHistory | GetUserStageProgressions | GetUserContext => ReadList
  | GetUserProfile => ReadNullable
  | GetSessionData => ReadObject
  | GetCurrentSessionId => Other
  end.

(** The methods that write a new record with [timestamp] and [createdAt],
    and the argument that is the data of the record. *)
Definition stamping (m : method) : bool :=
  match m with
  | StoreConversation | StoreStageProgression | StoreUserContext
  | StoreSessionStageProgression | StoreSessionUserContext
  | StoreBreakthroughMoment | StoreTherapeuticTheme => true
  | _ => false
  end.

Definition data_arg (m : method) (args : list value) : value :=
  match m with
  | StoreSessionStageProgression | StoreSessionUserContext
  | StoreBreakthroughMoment | StoreTherapeuticTheme => arg 2 args
  | _ => arg 1 args
  end.

(** The reads that take a limit, and the limit they use. *)
Definition limited_read (m : method) : bool :=
  match m with
  | GetConversationHistory | GetUserStageProgressions | GetUserContext => true
  | _ => false
  end.

Definition limit_used (m : method) (args : list value) : value :=
  default_arg (arg 1 args) (match m with GetUserContext => VNum 20 | _ => VNum 50 end).

(** What a method returns when it failed. *)
Definition failure_value (m : method) (v : value) : Prop :=
  match kind_of m with
  | Write => exists msg, v = VObj [("success", VBool false); ("error", VStr msg)]
  | ReadList => v = VArr []
  | ReadNullable => v = VNull
  | ReadObject => v = VObj []
  | Other => True
  end.

(** The call gives [limit] as its limit argument, when it is one of the two
    calls that take a limit. *)
Definition carries_limit (limit : value) (X : Type) (ev : op X) : Prop :=
  match ev with
  | Invoke m args =>
      m = GetConversationHistory \/ m = GetUserStageProgressions ->
      arg 1 args = limit
  | NowISO => True
  end.

(** A memory service object in an environment with states [S]: what each
    method does when called, and the clock (which does not throw). *)
Record memory_service (S : Type) : Type :=
  MemoryService { answer : method -> list value -> S -> outcome value * S;
                  clock : S -> string * S }.
Arguments MemoryService {S} answer clock.
Arguments answer {S} _ _ _ _.
Arguments clock {S} _ _.

Definition serve {S : Type} (svc : memory_service S) : handler op S :=
  fun X ev s =>
    match ev in op X return outcome X * S with
    | Invoke m args => answer svc m args s
    | NowISO => let (now, s') := clock svc s in (Ok now, s')
    end.

(** The gateway calls of a trace, in order. *)
Definition invocation_of (e : entry op) : list (method * list value) :=
  match ent_call e with
  | Invoke m args => [(m, args)]
  | NowISO => []
  end.

Definition invocations (t : list (entry op)) : list (method * list value) :=
  flat_map invocation_of t.

(** A result object with a [success] flag. *)
Definition has_success (v : value) : Prop :=
  exists fields b, v = VObj fields /\ has_key "success" fields = true /\
                   get v "success" = VBool b.

(** The methods that only read, and the gateway calls to them. *)
Definition reading (m : method) : bool :=
  match kind_of m with
  | Write => false
  | _ => true
  end.

Definition reads_gateway (X : Type) (ev : op X) : Prop :=
  match ev with
  | Invoke m _ => reading m = true
  | NowISO => True
  end.

(** The four session writes, the extra field of a stamped record, and the
    write that merges. *)
Definition session_write (m : method) : bool :=
  match m with
  | StoreSessionStageProgression | StoreSessionUserContext
  | StoreBreakthroughMoment | StoreTherapeuticTheme => true
  | _ => false
  end.

Definition stamping_extra (m : method) (args : list value) : list item :=
  if session_write m then [Field "sessionId" (arg 1 args)] else [].

Definition merging (m : method) : bool :=
  match m with
  | StoreUserProfile => true
  | _ => false
  end.

(** The keys of a session-data object are names of session
    sub-collections. *)
Definition session_keys (fields : list (string * value)) : Prop :=
  forall k, has_key k fields = true -> In k FirebaseMemoryService.session_parts.

(** [getSessionData] answers, and with an object of such keys. *)
Definition session_data_shaped (X : Type) (ev : op X) : outcome X -> Prop :=
  match ev in op X return outcome X -> Prop with
  | Invoke GetSessionData _ =>
      fun o => exists fields, o = Ok (VObj fields) /\ session_keys fields
  | Invoke _ _ => fun _ => True
  | NowISO => fun _ => True
  end.

End Gateway.

(* ===================================================================== *)
(** ** The Context Aggregation Tool: class ContextTool *)
(* ===================================================================== *)

Module ContextTool.

Import Js Eff Gateway.
Local Open Scope string_scope.
Local Open Scope prog_scope.

Definition invoke (m : method) (args : list value) : prog op value :=
  call (Invoke m args).

(** A synchronous computation inside a try block; [None] is a TypeError. *)
Definition checked {A : Type} (o : option A) : prog op A :=
  lift "not a function or property of undefined" o.

(** [generateConversationSummary(conversations)] *)
Definition generateConversationSummary (conversations : value) : option string :=
  if (negb (truthy conversations) || same_value_zero (get conversations "length") (VNum 0))%bool
  then Some "No previous conversation history found."
  else
    match conversations with
    | VArr l =>
        if existsb nullish l then None
        else
          let userMessages := List.length (filter (fun c => is_str (get c "type") "user") l) in
          let assistantMessages :=
            List.length (filter (fun c => is_str (get c "type") "assistant") l) in
          let stages :=
            dedupe (map (fun c => get c "stage")
                        (filter (fun c => truthy (get c "stage")) l)) in
          let summary :=
            "Previous sessions: " ++ dec_nat userMessages ++ " user messages, "
              ++ dec_nat assistantMessages ++ " VASA responses." in
          let summary :=
            if Nat.ltb 0 (List.length stages)
            then summary ++ " CSS stages explored: " ++ join ", " stages ++ "."
            else summary in
          let allContent :=
            to_lower (join " " (map (fun c => or_else (get c "content") (VStr "")) l)) in
          let themes :=
            ((if includes allContent "contradiction" then ["contradictions/tensions"] else [])
             ++ (if includes allContent "completion" then ["completion work"] else [])
             ++ (if includes allContent "fragment" then ["fragmentation"] else [])
             ++ (if includes allContent "integration" then ["integration"] else []))%list in
          Some (if Nat.ltb 0 (List.length themes)
                then summary ++ " Recurring themes: " ++ String.concat ", " themes ++ "."
                else summary)
    | _ => None
    end.

(** The callback of [recent_messages]:
    [msg => ({ type, content: msg.content?.substring(0, 200)
                       + (msg.content?.length > 200 ? '...' : ''), stage, timestamp })] *)
Definition recent_message (msg : value) : option value :=
  if nullish msg then None
  else
    match
      match get msg "content" with
      | VUndefined | VNull => Some "undefined"
      | VStr s =>
          Some (take_chars 200 s ++ (if Nat.ltb 200 (String.length s) then "..." else ""))
      | _ => None
      end
    with
    | Some content =>
        Some (object [Field "type" (get msg "type");
                      Field "content" (VStr content);
                      Field "stage" (get msg "stage");
                      Field "timestamp" (get msg "timestamp")])
    | None => None
    end.

(** The [conversations] section, from what [getConversationHistory] gave. *)
Definition conversation_section (conversations : value) : option value :=
  match conversations with
  | VArr l =>
      match map_opt recent_message (last_n 5 l) with
      | Some recent_messages =>
          match generateConversationSummary conversations with
          | Some summary =>
              Some (object [Field "total" (VNum (Z.of_nat (List.length l)));
                            Field "recent_messages" (VArr recent_messages);
                            Field "summary" (VStr summary)])
          | None => None
          end
      | None => None
      end
  | _ => None
  end.

(** The [profile] section of a profile that is there. *)
Definition profile_section (profile : value) : value :=
  object [Field "symbolic_name" (or_else (get profile "symbolicName") (get profile "name"));
          Field "current_stage" (or_else (get profile "currentStage") (get profile "lastStage"));
          Field "registration_date"
                (or_else (get profile "registrationDate") (get profile "createdAt"));
          Field "session_count" (or_else (get profile "sessionCount") (VNum 0));
          Field "themes" (or_else (get profile "recurring_themes") (VArr []))].

(** The [stages] section; [context] is [result.context] so far. *)
Definition stages_section (context : list (string * value)) (stages : value)
  : option value :=
  match member stages "length" with
  | Some total =>
      Some (object [Field "current_stage"
                          (or_else (opt_member (get (VObj context) "profile") "current_stage")
                                   (VStr "⊙"));
                    Field "progression_notes" (VStr "Stage progression tracking active");
                    Field "total_progressions" total])
  | None => None
  end.

(** [l.map(f).join(', ')] for a property that must be an array. *)
Definition mapped_join (f : value -> value) (v : value) : option string :=
  match v with
  | VArr l => if existsb nullish l then None else Some (join ", " (map f l))
  | _ => None
  end.

(** [generateSessionSummary(sessionData)] *)
Definition generateSessionSummary (sessionData : value) : option string :=
  if nullish sessionData then None
  else
    let field_len k := opt_member (get sessionData k) "length" in
    match
      (if gt (field_len "stage_progressions") 0
       then option_map (fun stages => ["CSS stages in this session: " ++ stages])
              (mapped_join (fun s => get s "stage") (get sessionData "stage_progressions"))
       else Some [])
    with
    | None => None
    | Some part1 =>
        let part2 :=
          if gt (field_len "breakthrough_moments") 0
          then [to_string (get (get sessionData "breakthrough_moments") "length")
                  ++ " breakthrough moment(s) identified"]
          else [] in
        match
          (if gt (field_len "therapeutic_themes") 0
           then option_map (fun themes => ["Therapeutic themes: " ++ themes])
                  (mapped_join (fun t => or_else (get t "theme") (get t "name"))
                               (get sessionData "therapeutic_themes"))
           else Some [])
        with
        | None => None
        | Some part3 =>
            let part4 :=
              if gt (field_len "user_context") 0
              then [to_string (get (get sessionData "user_context") "length")
                      ++ " context entries recorded"]
              else [] in
            let joined := String.concat ". " (part1 ++ part2 ++ part3 ++ part4)%list in
            Some (if String.eqb joined "" then "New session, no data recorded yet."
                  else joined)
        end
    end.

(** The [session] section, from what [getSessionData] gave. *)
Definition session_section (currentSessionId sessionData : value) : option value :=
  if nullish sessionData then None
  else
    match generateSessionSummary sessionData with
    | Some summary =>
        Some (object
                [Field "session_id" currentSessionId;
                 Field "stage_progressions"
                       (or_else (get sessionData "stage_progressions") (VArr []));
                 Field "user_context" (or_else (get sessionData "user_context") (VArr []));
                 Field "breakthrough_moments"
                       (or_else (get sessionData "breakthrough_moments") (VArr []));
                 Field "therapeutic_themes"
                       (or_else (get sessionData "therapeutic_themes") (VArr []));
                 Field "summary" (VStr summary)])
    | None => None
    end.

(** The sentences of [generateInstructions], from [contextData.context]. *)
Definition instructions_from (context : value) : string :=
  let profile := get context "profile" in
  String.concat " "
    ((if gt (opt_member (get context "conversations") "total") 0
      then ["Reference previous conversation when relevant.";
            "Build upon established symbolic themes and patterns."]
      else [])
     ++ (if truthy (opt_member profile "symbolic_name")
         then [("Address user by their symbolic name: "
                  ++ to_string (get profile "symbolic_name") ++ ".")%string]
         else [])
     ++ (if truthy (opt_member profile "current_stage")
         then [("Continue from CSS stage: "
                  ++ to_string (get profile "current_stage") ++ ".")%string]
         else [])
     ++ ["Acknowledge conversation continuity naturally in your response."])%list.

(** [generateInstructions(contextData)]; reading
    [contextData.context.conversations] throws when [contextData] or its
    [context] is null or undefined ([None]). *)
Definition generateInstructions (contextData : value) : option string :=
  match member contextData "context" with
  | Some context => if nullish context then None else Some (instructions_from context)
  | None => None
  end.

(** [{ error: msg }], what a category is when its lookup failed. *)
Definition marker (msg : string) : value := object [Field "error" (VStr msg)].

Definition wants (context_type : value) (category : string) : bool :=
  (is_str context_type category || is_str context_type "all")%bool.

(** One category block of [execute]: [try { result.context[key] = .. }
    catch (error) { result.context[key] = { error: failed } }]; a section
    that is [None] leaves [result.context] as it is. *)
Definition category (key failed : string) (context : list (string * value))
  (lookup : prog op value) (section : value -> option (option value))
  : prog op (list (string * value)) :=
  try_catch
    (found <- lookup ;;
     computed <- checked (section found) ;;
     match computed with
     | Some s => Ret (set context key s)
     | None => Ret context
     end)
    (fun _ => Ret (set context key (marker failed))).

(** [execute(parameters)]; [firebaseService] tells whether the tool was
    constructed with a service. *)
Definition execute (firebaseService : bool) (parameters : value) : prog op value :=
  try_catch
    (user_id <- checked (member parameters "user_id") ;;
     let context_type := default_arg (get parameters "context_type") (VStr "all") in
     let session_id := get parameters "session_id" in
     let limit := default_arg (get parameters "limit") (VNum 10) in
     if negb (truthy user_id) then
       Ret (object [Field "success" (VBool false);
                    Field "error" (VStr "User ID is required")])
     else if negb firebaseService then
       Ret (object [Field "success" (VBool false);
                    Field "error" (VStr "Firebase service not available")])
     else
       currentSessionId <-
         (if truthy session_id then Ret session_id
          else invoke GetCurrentSessionId [user_id]) ;;
       timestamp <- call NowISO ;;
       let context := [] in
       context <-
         (if wants context_type "conversation" then
            category "conversations" "Failed to retrieve conversations" context
              (invoke GetConversationHistory [user_id; limit])
              (fun conversations => option_map Some (conversation_section conversations))
          else Ret context) ;;
       context <-
         (if wants context_type "profile" then
            category "profile" "Failed to retrieve profile" context
              (invoke GetUserProfile [user_id])
              (fun profile =>
                 Some (if truthy profile then Some (profile_section profile) else None))
          else Ret context) ;;
       context <-
         (if wants context_type "stages" then
            category "stages" "Failed to retrieve stage data" context
              (invoke GetUserStageProgressions [user_id; limit])
              (fun stages => option_map Some (stages_section context stages))
          else Ret context) ;;
       context <-
         (if (wants context_type "session" && truthy currentSessionId)%bool then
            category "session" "Failed to retrieve session data" context
              (invoke GetSessionData [user_id; currentSessionId])
              (fun sessionData =>
                 option_map Some (session_section currentSessionId sessionData))
          else Ret context) ;;
       let result :=
         object [Field "user_id" user_id;
                 Field "session_id" currentSessionId;
                 Field "timestamp" (VStr timestamp);
                 Field "context" (VObj context)] in
       instructions <- checked (generateInstructions result) ;;
       Ret (object [Field "success" (VBool true);
                    Field "data" result;
                    Field "instructions" (VStr instructions)]))
    (fun error =>
       Ret (object [Field "success" (VBool false);
                    Field "error"
                          (VStr ("Context retrieval failed: " ++ err_message error))])).

(** What a category block leaves in [result.context], from the outcome of
    its gateway call. *)
Definition slot (key failed : string) (context : list (string * value))
  (found : outcome value) (section : value -> option (option value))
  : list (string * value) :=
  match found with
  | Err _ => set context key (marker failed)
  | Ok v =>
      match section v with
      | Some (Some s) => set context key s
      | Some None => context
      | None => set context key (marker failed)
      end
  end.

Definition filled (wanted : bool) (key failed : string) (context : list (string * value))
  (found : outcome value) (section : value -> option (option value))
  : list (string * value) :=
  if wanted then slot key failed context found section else context.


(** [session_id || await getCurrentSessionId(user_id)], when the gateway
    answers by the table [answers]. *)
Definition resolved_session (answers : method -> list value -> outcome value)
  (session_id user_id : value) : outcome value :=
  if truthy session_id then Ok session_id
  else answers GetCurrentSessionId [user_id].

(** [result.context] after the four category blocks, when the gateway
    answers by the table [answers]. *)
Definition gathered (answers : method -> list value -> outcome value)
  (context_type user_id limit currentSessionId : value) : list (string * value) :=
  let context := [] in
  let context :=
    filled (wants context_type "conversation")
      "conversations" "Failed to retrieve conversations" context
      (answers GetConversationHistory [user_id; limit])
      (fun conversations => option_map Some (conversation_section conversations)) in
  let context :=
    filled (wants context_type "profile")
      "profile" "Failed to retrieve profile" context
      (answers GetUserProfile [user_id])
      (fun profile =>
         Some (if truthy profile then Some (profile_section profile) else None)) in
  let context :=
    filled (wants context_type "stages")
      "stages" "Failed to retrieve stage data" context
      (answers GetUserStageProgressions [user_id; limit])
      (fun stages => option_map Some (stages_section context stages)) in
  filled (wants context_type "session" && truthy currentSessionId)%bool
    "session" "Failed to retrieve session data" context
    (answers GetSessionData [user_id; currentSessionId])
    (fun sessionData => option_map Some (session_section currentSessionId sessionData)).

(** The [data] object of a successful call. *)
Definition data_of (user_id currentSessionId : value) (timestamp : string)
  (context : list (string * value)) : value :=
  object [Field "user_id" user_id;
          Field "session_id" currentSessionId;
          Field "timestamp" (VStr timestamp);
          Field "context" (VObj context)].

Definition succeeded (data : value) : value :=
  object [Field "success" (VBool true);
          Field "data" data;
          Field "instructions" (VStr (instructions_from (get data "context")))].

Definition failed_with (msg : string) : value :=
  object [Field "success" (VBool false); Field "error" (VStr msg)].

(** What [execute] returns when the gateway answers by the table [answers]
    and the clock reads [now]. *)
Definition reply (answers : method -> list value -> outcome value) (now : string)
  (firebaseService : bool) (parameters : value) : value :=
  match member parameters "user_id" with
  | None =>
      failed_with ("Context retrieval failed: "
                     ++ "not a function or property of undefined")
  | Some user_id =>
      let context_type := default_arg (get parameters "context_type") (VStr "all") in
      let limit := default_arg (get parameters "limit") (VNum 10) in
      if negb (truthy user_id) then failed_with "User ID is required"
      else if negb firebaseService then failed_with "Firebase service not available"
      else
        match resolved_session answers (get parameters "session_id") user_id with
        | Err error => failed_with ("Context retrieval failed: " ++ err_message error)
        | Ok currentSessionId =>
            succeeded (data_of user_id currentSessionId now
                         (gathered answers context_type user_id limit currentSessionId))
        end
  end.

(** The call is one the parameters ask for: the lookup of a category that
    [context_type] names, or of the session identifier when the parameters
    name no session, made for the [user_id] of the parameters; or a reading
    of the clock. *)
Definition asked_for (parameters : value) (X : Type) (ev : op X) : Prop :=
  match ev with
  | Invoke m args =>
      let context_type := default_arg (get parameters "context_type") (VStr "all") in
      arg 0 args = get parameters "user_id" /\
      match m with
      | GetCurrentSessionId => truthy (get parameters "session_id") = false
      | GetConversationHistory => wants context_type "conversation" = true
      | GetUserProfile => wants context_type "profile" = true
      | GetUserStageProgressions => wants context_type "stages" = true
      | GetSessionData => wants context_type "session" = true
      | _ => False
      end
  | NowISO => True
  end.






(** The [session] section of a session in which the tool finds no record. *)
Definition empty_session (currentSessionId : value) : value :=
  object [Field "session_id" currentSessionId;
          Field "stage_progressions" (VArr []);
          Field "user_context" (VArr []);
          Field "breakthrough_moments" (VArr []);
          Field "therapeutic_themes" (VArr []);
          Field "summary" (VStr "New session, no data recorded yet.")].

End ContextTool.

(* ===================================================================== *)
(** ** The HTTP route layer and the webhook receiver *)
(* ===================================================================== *)

Module Server.

Import Js Eff Gateway.
Local Open Scope string_scope.
Local Open Scope prog_scope.

(** A request after the JSON body parser: header names are lower case and
    header values are strings; [body] is the parsed body. *)
Record request : Type :=
  Request { headers : list (string * string);
            params : list (string * string);
            body : value }.

(** [res.status(code).json(payload)]; [res.json(payload)] has status 200. *)
Record response : Type := Response { status : Z; json : value }.

(** [process.env] *)
Record environment : Type :=
  Environment { NODE_ENV : option string;
                ELEVENLABS_WEBHOOK_SECRET : option string }.

Fixpoint assoc (k : string) (l : list (string * string)) : option string :=
  match l with
  | [] => None
  | (k', v) :: rest => if String.eqb k k' then Some v else assoc k rest
  end.

Definition of_option (o : option string) : value :=
  match o with
  | Some s => VStr s
  | None => VUndefined
  end.

Definition header (req : request) (name : string) : value :=
  of_option (assoc name (headers req)).

Definition param (req : request) (name : string) : value :=
  of_option (assoc name (params req)).

Definition respond (code : Z) (payload : value) : prog op response :=
  Ret (Response code payload).

Definition invoke (m : method) (args : list value) : prog op value :=
  call (Invoke m args).

Definition checked {A : Type} (o : option A) : prog op A :=
  lift "Cannot destructure a property of undefined" o.

(** The middleware [verifyToken]; [next] is the route behind it. *)
Definition verifyToken (env : environment) (req : request)
  (next : prog op response) : prog op response :=
  if is_str (of_option (NODE_ENV env)) "development" then next
  else
    match header req "authorization" with
    | VStr authHeader =>
        if String.prefix "Bearer " authHeader then next
        else respond 401 (object [Field "error" (VStr "No auth token provided")])
    | _ => respond 401 (object [Field "error" (VStr "No auth token provided")])
    end.

(** The body shared by the POST write routes:
    [const { userUUID, ...data } = req.body;
     if (!userUUID) return res.status(400).json({ error: 'userUUID is required' });
     res.json(await store(userUUID, data))], inside the route's try/catch. *)
Definition write_body (req : request) (failed : string)
  (store : value -> value -> prog op value) : prog op response :=
  try_catch
    (userUUID <- checked (member (body req) "userUUID") ;;
     let data := without "userUUID" (body req) in
     if negb (truthy userUUID) then
       respond 400 (object [Field "error" (VStr "userUUID is required")])
     else
       result <- store userUUID data ;;
       respond 200 result)
    (fun error =>
       respond 500 (object [Field "error" (VStr failed);
                            Field "details" (VStr (err_message error))])).

(** app.post('/api/memory/conversation', verifyToken, ...) *)
Definition post_memory_conversation (env : environment) (req : request)
  : prog op response :=
  verifyToken env req
    (write_body req "Failed to store conversation"
       (fun userUUID conversationData =>
          invoke StoreConversation [userUUID; conversationData])).

(** app.post('/api/memory/stage', ...) *)
Definition post_memory_stage (req : request) : prog op response :=
  write_body req "Failed to store stage"
    (fun userUUID stageData => invoke StoreStageProgression [userUUID; stageData]).

(** app.post('/api/memory/profile', ...) *)
Definition post_memory_profile (req : request) : prog op response :=
  write_body req "Failed to store profile"
    (fun userUUID profileData => invoke StoreUserProfile [userUUID; profileData]).

(** app.post('/api/memory/context', ...) *)
Definition post_memory_context (req : request) : prog op response :=
  write_body req "Failed to store context"
    (fun userUUID contextData => invoke StoreUserContext [userUUID; contextData]).

(** app.post('/api/memory/session/:sessionId/stage', ...) *)
Definition post_session_stage (req : request) : prog op response :=
  let sessionId := param req "sessionId" in
  write_body req "Failed to store session stage"
    (fun userUUID stageData =>
       invoke StoreSessionStageProgression [userUUID; sessionId; stageData]).

(** app.post('/api/memory/session/:sessionId/context', ...) *)
Definition post_session_context (req : request) : prog op response :=
  let sessionId := param req "sessionId" in
  write_body req "Failed to store session context"
    (fun userUUID contextData =>
       invoke StoreSessionUserContext [userUUID; sessionId; contextData]).

(** app.post('/api/memory/session/:sessionId/breakthrough', ...) *)
Definition post_session_breakthrough (req : request) : prog op response :=
  let sessionId := param req "sessionId" in
  write_body req "Failed to store breakthrough moment"
    (fun userUUID breakthroughData =>
       invoke StoreBreakthroughMoment [userUUID; sessionId; breakthroughData]).

(** app.post('/api/memory/session/:sessionId/theme', ...) *)
Definition post_session_theme (req : request) : prog op response :=
  let sessionId := param req "sessionId" in
  write_body req "Failed to store therapeutic theme"
    (fun userUUID themeData =>
       invoke StoreTherapeuticTheme [userUUID; sessionId; themeData]).

(** The POST routes that write through the gateway. *)
Inductive write_route : Type :=
| Conversation | Stage | Profile | Context
| SessionStage | SessionContext | SessionBreakthrough | SessionTheme.

Definition post (r : write_route) (env : environment) (req : request)
  : prog op response :=
  match r with
  | Conversation => post_memory_conversation env req
  | Stage => post_memory_stage req
  | Profile => post_memory_profile req
  | Context => post_memory_context req
  | SessionStage => post_session_stage req
  | SessionContext => post_session_context req
  | SessionBreakthrough => post_session_breakthrough req
  | SessionTheme => post_session_theme req
  end.

(** The gateway method behind each write route. *)
Definition store_of (r : write_route) : method :=
  match r with
  | Conversation => StoreConversation
  | Stage => StoreStageProgression
  | Profile => StoreUserProfile
  | Context => StoreUserContext
  | SessionStage => StoreSessionStageProgression
  | SessionContext => StoreSessionUserContext
  | SessionBreakthrough => StoreBreakthroughMoment
  | SessionTheme => StoreTherapeuticTheme
  end.

(** app.delete('/api/memory/user/:userUUID', ...) *)
Definition delete_memory_user (req : request) : prog op response :=
  try_catch
    (let userUUID := param req "userUUID" in
     result <- invoke ClearUserData [userUUID] ;;
     respond 200 (object [Field "success" (VBool true);
                          Field "message" (VStr "User data cleared");
                          Spread result]))
    (fun error =>
       respond 500 (object [Field "error" (VStr "Failed to clear user data");
                            Field "details" (VStr (err_message error))])).

(** [req.headers['x-elevenlabs-signature'] || req.headers['authorization']] *)
Definition providedSecret (req : request) : value :=
  or_else (header req "x-elevenlabs-signature") (header req "authorization").

(** [!providedSecret || !providedSecret.includes(webhookSecret)] *)
Definition secret_rejected (webhookSecret : string) (req : request) : bool :=
  match providedSecret req with
  | VStr provided =>
      (negb (truthy (VStr provided)) || negb (includes provided webhookSecret))%bool
  | _ => true
  end.

(** [if (webhookSecret) { .. }]: the secret the requests are checked
    against, when one is configured. *)
Definition configured_secret (env : environment) : option string :=
  match ELEVENLABS_WEBHOOK_SECRET env with
  | Some webhookSecret => if truthy (VStr webhookSecret) then Some webhookSecret else None
  | None => None
  end.

Definition unauthorized (env : environment) (req : request) : bool :=
  match configured_secret env with
  | Some webhookSecret => secret_rejected webhookSecret req
  | None => false
  end.

(** app.post('/api/elevenlabs-webhook', ...) *)
Definition post_elevenlabs_webhook (env : environment) (req : request)
  : prog op response :=
  try_catch
    (if unauthorized env req then
       respond 401 (object [Field "error" (VStr "Unauthorized webhook request")])
     else
       user_id <- checked (member (body req) "user_id") ;;
       let agent_id := get (body req) "agent_id" in
       let conversation_id := get (body req) "conversation_id" in
       let message := get (body req) "message" in
       let message_type := get (body req) "message_type" in
       let timestamp := get (body req) "timestamp" in
       (if (truthy user_id && truthy message)%bool then
          timestamp <-
            (if truthy timestamp then Ret timestamp
             else (now <- call NowISO ;; Ret (VStr now))) ;;
          let conversationEntry :=
            object [Field "type" (VStr (if is_str message_type "user_message"
                                        then "user" else "assistant"));
                    Field "content" message;
                    Field "agent_id" agent_id;
                    Field "conversation_id" conversation_id;
                    Field "timestamp" timestamp;
                    Field "metadata" (object [Field "source" (VStr "elevenlabs_webhook")])] in
          try_catch
            (invoke StoreConversation [user_id; conversationEntry] ;;; Ret tt)
            (fun _ => Ret tt)
        else Ret tt) ;;;
       respond 200 (object [Field "success" (VBool true);
                            Field "message" (VStr "Webhook processed")]))
    (fun _ => respond 500 (object [Field "error" (VStr "Failed to process webhook")])).

(** router.post('/context', ...) of the tools router, mounted at /api/tools;
    [firebaseService] tells whether [setFirebaseService] gave a service. *)
Definition post_tools_context (firebaseService : bool) (req : request)
  : prog op response :=
  try_catch
    (if negb firebaseService then
       respond 500 (object [Field "error" (VStr "Firebase service not initialized")])
     else
       user_id <- checked (member (body req) "user_id") ;;
       let context_type := default_arg (get (body req) "context_type") (VStr "all") in
       let limit := default_arg (get (body req) "limit") (VNum 10) in
       if negb (truthy user_id) then
         respond 400 (object [Field "error" (VStr "user_id is required")])
       else
         result <- ContextTool.execute firebaseService
                     (object [Field "user_id" user_id;
                              Field "context_type" context_type;
                              Field "limit" limit]) ;;
         respond 200 result)
    (fun error =>
       respond 500 (object [Field "error" (VStr "Failed to execute context tool");
                            Field "details" (VStr (err_message error))])).

(** The payloads of the fixed replies. *)
Definition user_required : value := object [Field "error" (VStr "userUUID is required")].

Definition no_token : value := object [Field "error" (VStr "No auth token provided")].

Definition unauthorized_webhook : value :=
  object [Field "error" (VStr "Unauthorized webhook request")].

Definition profile_not_found : value := object [Field "error" (VStr "Profile not found")].

Definition acknowledged : value :=
  object [Field "success" (VBool true); Field "message" (VStr "Webhook processed")].

(** The request gets past [verifyToken]. *)
Definition token_accepted (env : environment) (req : request) : bool :=
  (is_str (of_option (NODE_ENV env)) "development"
   || match assoc "authorization" (headers req) with
      | Some authHeader => String.prefix "Bearer " authHeader
      | None => false
      end)%bool.

(** The request reaches the handler of the write route. *)
Definition reaches (r : write_route) (env : environment) (req : request) : bool :=
  match r with
  | Conversation => token_accepted env req
  | _ => true
  end.

(** The arguments a write route gives to its store method. *)
Definition store_args (r : write_route) (req : request) : list value :=
  let userUUID := get (body req) "userUUID" in
  let data := without "userUUID" (body req) in
  match r with
  | Conversation | Stage | Profile | Context => [userUUID; data]
  | _ => [userUUID; param req "sessionId"; data]
  end.

(** The header the secret is looked for in: the signature header when it is
    there and not empty, else the authorization header. *)
Definition checked_header (req : request) : option string :=
  match assoc "x-elevenlabs-signature" (headers req) with
  | Some signature =>
      if String.eqb signature "" then assoc "authorization" (headers req)
      else Some signature
  | None => assoc "authorization" (headers req)
  end.

Definition lacks_secret (webhookSecret : string) (req : request) : bool :=
  match checked_header req with
  | Some h => negb (includes h webhookSecret)
  | None => true
  end.

Definition header_contains (name webhookSecret : string) (req : request) : bool :=
  match assoc name (headers req) with
  | Some h => includes h webhookSecret
  | None => false
  end.

(** app.get('/api/memory/profile/:userUUID', ...) *)
Definition get_memory_profile (req : request) : prog op response :=
  try_catch
    (let userUUID := param req "userUUID" in
     profile <- invoke GetUserProfile [userUUID] ;;
     if negb (truthy profile) then
       respond 404 (object [Field "error" (VStr "Profile not found")])
     else respond 200 profile)
    (fun error =>
       respond 500 (object [Field "error" (VStr "Failed to retrieve profile");
                            Field "details" (VStr (err_message error))])).

(** app.get('/api/memory/session/:sessionId', ...); [query] is [req.query],
    the parsed query string (always an object). *)
Definition get_memory_session (req : request) (query : list (string * value))
  : prog op response :=
  try_catch
    (let sessionId := param req "sessionId" in
     let userUUID := get (VObj query) "userUUID" in
     let dataType := default_arg (get (VObj query) "dataType") (VStr "all") in
     if negb (truthy userUUID) then
       respond 400 (object [Field "error" (VStr "userUUID is required")])
     else
       sessionData <- invoke GetSessionData [userUUID; sessionId; dataType] ;;
       respond 200 sessionData)
    (fun error =>
       respond 500 (object [Field "error" (VStr "Failed to retrieve session data");
                            Field "details" (VStr (err_message error))])).

(** app.get('/api/memory/current-session/:userUUID', ...) *)
Definition get_current_session (req : request) : prog op response :=
  try_catch
    (let userUUID := param req "userUUID" in
     sessionId <- invoke GetCurrentSessionId [userUUID] ;;
     respond 200 (object [Field "sessionId" sessionId]))
    (fun error =>
       respond 500 (object [Field "error" (VStr "Failed to retrieve current session");
                            Field "details" (VStr (err_message error))])).

End Server.

(* ===================================================================== *)
(** ** An in-memory document store *)
(* ===================================================================== *)

(** The document database is an external collaborator.  This module is a
    reference environment for the gateway: documents kept in a list, a
    clock, document ids drawn from a counter, and a fault plan that makes
    chosen client calls throw.  Queries follow the store's rules: without
    [orderBy] documents come in the order of their ids; with
    [orderBy(field, dir)] only documents having the field are returned,
    ordered by its value and then by id; [limit(n)] needs a positive
    integer and keeps the first [n]. *)
Module Memory.

Import Js Eff Firestore.

Record world : Type :=
  World { docs : list (docref * list (string * value));
          now_iso : string;                 (* the clock, as toISOString() *)
          now_ms : Z;                       (* the clock, as Date.now() *)
          next_id : nat;
          calls : nat;                      (* client calls made so far *)
          faults : nat -> option JsError }. (* the calls that throw *)

Definition path_eqb (p q : list string) : bool :=
  if list_eq_dec String.string_dec p q then true else false.

Definition ref_eqb (r1 r2 : docref) : bool :=
  (path_eqb (doc_parent r1) (doc_parent r2) && String.eqb (doc_id r1) (doc_id r2))%bool.

Definition invalid (msg : string) : JsError := mkError "FirebaseError" msg.

(** [path.split('/')]: the pieces between the slashes of a path argument. *)
Fixpoint split_slash (s : string) : list string :=
  match s with
  | EmptyString => [EmptyString]
  | String c rest =>
      if Ascii.eqb c "/" then EmptyString :: split_slash rest
      else
        match split_slash rest with
        | piece :: pieces => String c piece :: pieces
        | [] => [String c EmptyString]
        end
  end.

(** The segments of a path given by the arguments of [doc()] and
    [collection()], as the client's [ResourcePath.fromString] makes them:
    every argument is a string without '//' (anything else throws), it is
    split on '/', and the empty pieces (a leading or trailing slash, an empty
    argument) are dropped.  So an identifier that holds a slash addresses a
    deeper path. *)
Fixpoint segments_of (l : list value) : option (list string) :=
  match l with
  | [] => Some []
  | VStr s :: rest =>
      if includes s "//" then None
      else
        option_map (app (filter (fun piece => negb (String.eqb piece "")) (split_slash s)))
                   (segments_of rest)
  | _ :: _ => None
  end.

(** The order of field values: by type, then by value. *)
Definition rank (v : value) : nat :=
  match v with
  | VUndefined => 0
  | VNull => 1
  | VBool _ => 2
  | VNum _ => 3
  | VStr _ => 4
  | VArr _ => 5
  | VObj _ => 6
  end.

Definition compare_values (a b : value) : comparison :=
  match Nat.compare (rank a) (rank b) with
  | Eq =>
      match a, b with
      | VBool x, VBool y => Bool.compare x y
      | VNum x, VNum y => Z.compare x y
      | VStr x, VStr y => String.compare x y
      | _, _ => Eq
      end
  | c => c
  end.

Definition value_leb (a b : value) : bool :=
  match compare_values a b with
  | Gt => false
  | _ => true
  end.

Definition field (f : string) (d : docsnap) : value := get (VObj (snap_fields d)) f.

Definition by_id (d1 d2 : docsnap) : bool :=
  String.leb (doc_id (snap_ref d1)) (doc_id (snap_ref d2)).

Definition by_field_asc (f : string) (d1 d2 : docsnap) : bool :=
  match compare_values (field f d1) (field f d2) with
  | Lt => true
  | Gt => false
  | Eq => by_id d1 d2
  end.

Definition by_field (f : string) (dir : direction) (d1 d2 : docsnap) : bool :=
  match dir with
  | Asc => by_field_asc f d1 d2
  | Desc => by_field_asc f d2 d1
  end.

Section Sorting.

Context {A : Type} (leb : A -> A -> bool).

Fixpoint insert (x : A) (l : list A) : list A :=
  match l with
  | [] => [x]
  | y :: rest => if leb x y then x :: l else y :: insert x rest
  end.

Fixpoint isort (l : list A) : list A :=
  match l with
  | [] => []
  | x :: rest => insert x (isort rest)
  end.

End Sorting.

Definition get_docs (q : query) (w : world) : outcome (list docsnap) :=
  let members :=
    map (fun d => Snap (fst d) (snd d))
        (filter (fun d => path_eqb (doc_parent (fst d)) (coll_path (q_coll q))) (docs w)) in
  let ordered :=
    match q_order q with
    | None => isort by_id members
    | Some (f, dir) =>
        isort (by_field f dir) (filter (fun d => has_key f (snap_fields d)) members)
    end in
  match q_limit q with
  | None => Ok ordered
  | Some (VNum n) =>
      if Z.ltb 0 n then Ok (firstn (Z.to_nat n) ordered)
      else Err (invalid "limit() requires a positive number")
  | Some _ => Err (invalid "limit() requires a positive number")
  end.

Definition find_doc (r : docref) (w : world) : option (list (string * value)) :=
  option_map snd (find (fun d => ref_eqb (fst d) r) (docs w)).

(** A document may not hold [undefined]. *)
Fixpoint storable (v : value) : bool :=
  match v with
  | VUndefined => false
  | VArr l => forallb storable l
  | VObj fs => forallb (fun kv => storable (snd kv)) fs
  | _ => true
  end.

Definition put (r : docref) (fs : list (string * value)) (w : world) : world :=
  World ((r, fs) :: filter (fun d => negb (ref_eqb (fst d) r)) (docs w))
        (now_iso w) (now_ms w) (next_id w) (calls w) (faults w).

Definition set_doc (r : docref) (data : value) (merge : bool) (w : world)
  : outcome unit * world :=
  match data with
  | VObj fs =>
      if storable data then
        let old := match find_doc r w with Some o => o | None => [] end in
        (Ok tt, put r (if merge then add_item old (Spread data)
                       else add_item [] (Spread data)) w)
      else (Err (invalid "Unsupported field value: undefined"), w)
  | _ => (Err (invalid "Data must be an object"), w)
  end.

Definition commit (deletes : list docref) (w : world) : world :=
  World (filter (fun d => negb (existsb (ref_eqb (fst d)) deletes)) (docs w))
        (now_iso w) (now_ms w) (next_id w) (calls w) (faults w).

Definition new_doc (c : collref) (w : world) : docref * world :=
  (DocRef (coll_path c) ("doc" ++ dec_nat (next_id w)),
   World (docs w) (now_iso w) (now_ms w) (Datatypes.S (next_id w)) (calls w) (faults w)).

(** The first path argument may not be empty ([validateNonEmptyArgument]). *)
Definition first_given (segments : list value) : bool :=
  match segments with
  | first :: _ => truthy first
  | [] => false
  end.

(** [collection(db, ...segments)]: a path of an odd number of segments. *)
Definition collection (segments : list value) : outcome collref :=
  if negb (first_given segments) then Err (invalid "Function called with an empty path")
  else
    match segments_of segments with
    | Some p => if Nat.odd (List.length p) then Ok (CollRef p)
                else Err (invalid "Invalid collection reference")
    | None => Err (invalid "Invalid path segment")
    end.

(** [doc(db, ...segments)]: a path of an even number of segments, the last
    of which is the identifier of the document. *)
Definition doc (segments : list value) : outcome docref :=
  if negb (first_given segments) then Err (invalid "Function called with an empty path")
  else
    match option_map (@rev string) (segments_of segments) with
    | Some (id :: parent) =>
        if Nat.odd (List.length parent) then Ok (DocRef (rev parent) id)
        else Err (invalid "Invalid document reference")
    | _ => Err (invalid "Invalid path segment")
    end.

(** A call of the document-store client, when the fault plan lets it through. *)
Definition perform {X : Type} (ev : op X) (w : world) : outcome X * world :=
  match ev in op X return outcome X * world with
  | NowISO => (Ok (now_iso w), w)
  | DateNow => (Ok (now_ms w), w)
  | Collection segments => (collection segments, w)
  | Doc segments => (doc segments, w)
  | NewDoc c => let (r, w') := new_doc c w in (Ok r, w')
  | SetDoc r data merge => set_doc r data merge w
  | GetDoc r => (Ok (find_doc r w), w)
  | GetDocs q => (get_docs q w, w)
  | Commit deletes => (Ok tt, commit deletes w)
  end.

Definition is_clock {X : Type} (ev : op X) : bool :=
  match ev with
  | NowISO | DateNow => true
  | _ => false
  end.

Definition counted (w : world) : world :=
  World (docs w) (now_iso w) (now_ms w) (next_id w) (Datatypes.S (calls w)) (faults w).

Definition handle : handler op world :=
  fun X ev w =>
    if is_clock ev then perform ev w
    else
      match faults w (calls w) with
      | Some e => (Err e, counted w)
      | None => perform ev (counted w)
      end.

(** Entry [a] is not older than entry [b], by the order of timestamps:
    [a] may come before [b] in a most-recent-first list. *)
Definition newest_first (a b : value) : Prop :=
  value_leb (get b "timestamp") (get a "timestamp") = true.

Definition no_faults : nat -> option JsError := fun _ => None.

End Memory.

(* ===================================================================== *)
(** ** The server over a memory service *)
(* ===================================================================== *)

Module Backend.

Import Js Eff.

(** [memoryService = new FirebaseMemoryService()] over the in-memory store:
    a gateway call runs the method's body against the store. *)
Definition firebase_service : Gateway.memory_service Memory.world :=
  Gateway.MemoryService
    (fun m args w =>
       let r := run Memory.handle (Gateway.firebase m args) w in
       (result r, final r))
    (fun w => (Memory.now_iso w, w)).

Definition firebase : handler Gateway.op Memory.world := Gateway.serve firebase_service.

(** A memory service whose methods answer by a fixed table, under a fixed
    clock: the same call gets the same answer every time. *)
Definition fixed_service (answers : Gateway.method -> list value -> outcome value)
  (now : string) : Gateway.memory_service unit :=
  Gateway.MemoryService (fun m args s => (answers m args, s)) (fun s => (now, s)).

Definition fixed (answers : Gateway.method -> list value -> outcome value)
  (now : string) : handler Gateway.op unit :=
  Gateway.serve (fixed_service answers now).

(** The stand-in [memoryService] the server builds when the gateway cannot
    be constructed; [reason] is 'Service unavailable' or
    'Service initialization failed'. *)
Definition mock (reason : string) (now_ms : Z) (m : Gateway.method) (args : list value)
  : outcome value :=
  match Gateway.kind_of m with
  | Gateway.Write =>
      Ok (object [Field "success" (VBool false); Field "error" (VStr reason)])
  | Gateway.ReadList => Ok (VArr [])
  | Gateway.ReadNullable => Ok VNull
  | Gateway.ReadObject =>
      Ok (object [Field "stages" (VArr []); Field "contexts" (VArr []);
                  Field "breakthroughs" (VArr []); Field "themes" (VArr [])])
  | Gateway.Other => Ok (VStr ("session-" ++ dec now_ms))
  end.

End Backend.

(* ===================================================================== *)
(** ** Sample environments and requests *)
(* ===================================================================== *)

Module Sample.

Import Js Eff.

(** An empty store on the first of May 2024, 10:00 UTC. *)
Definition world : Memory.world :=
  Memory.World [] "2024-05-01T10:00:00.000Z" 1714557600000 0 0 Memory.no_faults.

(** The same store, out of reach: every client call throws. *)
Definition unreachable : Memory.world :=
  Memory.World [] "2024-05-01T10:00:00.000Z" 1714557600000 0 0
               (fun _ => Some (mkError "FirebaseError" "unavailable")).

(** A store with two conversation entries of user u1, the later one stored
    under the smaller id. *)
Definition talked : Memory.world :=
  Memory.World
    [(Firestore.DocRef ["users"; "u1"; "conversations"] "m2",
      [("type", VStr "user"); ("content", VStr "I feel a contradiction");
       ("timestamp", VStr "2024-04-01T09:00:00.000Z")]);
     (Firestore.DocRef ["users"; "u1"; "conversations"] "m1",
      [("type", VStr "assistant"); ("content", VStr "Tell me more");
       ("stage", VStr "alpha");
       ("timestamp", VStr "2024-04-01T09:00:07.000Z")])]
    "2024-05-01T10:00:00.000Z" 1714557600000 0 0 Memory.no_faults.

(** A memory service where only [getUserProfile] throws. *)
Definition profile_down (m : Gateway.method) (args : list value) : outcome value :=
  match m with
  | Gateway.GetUserProfile => Err (mkError "FirebaseError" "unavailable")
  | Gateway.GetConversationHistory =>
      Ok (VArr [VObj [("id", VStr "m1"); ("type", VStr "user");
                      ("content", VStr "I feel a contradiction");
                      ("stage", VStr "alpha")]])
  | Gateway.GetUserStageProgressions => Ok (VArr [VObj [("id", VStr "p1")]])
  | Gateway.GetSessionData => Ok (VObj [("stages", VArr [])])
  | Gateway.GetCurrentSessionId => Ok (VStr "session_2024-05-01_1714557600000")
  | _ => Ok (VObj [("success", VBool true)])
  end.


(** A store with records of user u1 (the profile, a conversation entry, a
    stage, a context entry, and a stage and a theme of session s1) and a
    conversation entry of user u2. *)
Definition populated : Memory.world :=
  Memory.World
    [(Firestore.DocRef ["users"] "u1",
      [("symbolicName", VStr "Ada"); ("currentStage", VStr "alpha")]);
     (Firestore.DocRef ["users"; "u1"; "conversations"] "m1",
      [("type", VStr "user"); ("content", VStr "I feel FRAGMENTED today");
       ("timestamp", VStr "2024-04-01T09:00:00.000Z")]);
     (Firestore.DocRef ["users"; "u1"; "stages"] "p1",
      [("stage", VStr "alpha"); ("timestamp", VStr "2024-04-01T09:01:00.000Z")]);
     (Firestore.DocRef ["users"; "u1"; "context"] "c1",
      [("note", VStr "prefers mornings");
       ("timestamp", VStr "2024-04-01T09:02:00.000Z")]);
     (Firestore.DocRef ["users"; "u1"; "sessions"; "s1"; "stages"] "q1",
      [("stage", VStr "alpha"); ("sessionId", VStr "s1");
       ("timestamp", VStr "2024-04-01T09:03:00.000Z")]);
     (Firestore.DocRef ["users"; "u1"; "sessions"; "s1"; "themes"] "t1",
      [("theme", VStr "trust"); ("sessionId", VStr "s1");
       ("timestamp", VStr "2024-04-01T09:04:00.000Z")]);
     (Firestore.DocRef ["users"; "u2"; "conversations"] "m1",
      [("type", VStr "user"); ("content", VStr "hello");
       ("timestamp", VStr "2024-04-02T09:00:00.000Z")])]
    "2024-05-01T10:00:00.000Z" 1714557600000 0 0 Memory.no_faults.

(** The stand-in memory service, under a fixed clock. *)
Definition stand_in : Gateway.memory_service unit :=
  Backend.fixed_service (Backend.mock "Service unavailable" 1714557600000)
                        "2024-05-01T10:00:00.000Z".

End Sample.

(* ===================================================================== *)
(** ** The health route *)
(* ===================================================================== *)

Module Health.

Import Js Eff Firestore.
Local Open Scope string_scope.
Local Open Scope prog_scope.

(** app.get('/api/health', ...) over a memory service whose [healthCheck]
    is the body [healthCheck]; [uptime] and [memory] are what
    [process.uptime()] and [process.memoryUsage()] give. *)
Definition get_api_health (env : Server.environment) (uptime memory : value)
  (healthCheck : prog op value) : prog op Server.response :=
  try_catch
    (firebaseHealth <- healthCheck ;;
     timestamp <- call NowISO ;;
     Ret (Server.Response 200
            (object
               [Field "status" (VStr "healthy");
                Field "timestamp" (VStr timestamp);
                Field "environment"
                      (or_else (Server.of_option (Server.NODE_ENV env)) (VStr "development"));
                Field "services"
                      (object
                         [Field "firebase" firebaseHealth;
                          Field "server"
                                (object [Field "status" (VStr "healthy");
                                         Field "uptime" uptime;
                                         Field "memory" memory])])])))
    (fun error =>
       timestamp <- call NowISO ;;
       Ret (Server.Response 500
              (object [Field "status" (VStr "unhealthy");
                       Field "timestamp" (VStr timestamp);
                       Field "error" (VStr (err_message error))]))).

(** [healthCheck] of the stand-in services. *)
Definition mock_healthCheck (reason : string) : prog op value :=
  Ret (object [Field "status" (VStr "unhealthy");
               Field "service" (VStr "firebase");
               Field "error" (VStr reason)]).

End Health.

(* ===================================================================== *)
(** ** class MemoryManager *)
(* ===================================================================== *)

Module MemoryManager.

Import Js Eff Gateway.
Local Open Scope string_scope.
Local Open Scope prog_scope.

(** [if (!this.firebaseService) throw new Error('Firebase service not
    initialized'); return await this.firebaseService.m(...args)];
    [firebaseService] tells whether [setFirebaseService] gave a service. *)
Definition guarded (firebaseService : bool) (m : method) (args : list value)
  : prog op value :=
  if negb firebaseService then Throw (mkError "Error" "Firebase service not initialized")
  else call (Invoke m args).

Definition getConversationHistory (firebaseService : bool) (userUUID limit : value)
  : prog op value :=
  guarded firebaseService GetConversationHistory [userUUID; default_arg limit (VNum 50)].

Definition getUserProfile (firebaseService : bool) (userUUID : value) : prog op value :=
  guarded firebaseService GetUserProfile [userUUID].

Definition storeConversation (firebaseService : bool) (userUUID conversationData : value)
  : prog op value :=
  guarded firebaseService StoreConversation [userUUID; conversationData].

Definition getUserStageProgressions (firebaseService : bool) (userUUID limit : value)
  : prog op value :=
  guarded firebaseService GetUserStageProgressions [userUUID; default_arg limit (VNum 20)].

Definition getUserContext (firebaseService : bool) (userUUID limit : value)
  : prog op value :=
  guarded firebaseService GetUserContext [userUUID; default_arg limit (VNum 20)].

(** The methods of the manager, by the gateway method they forward to. *)
Definition forwards (m : method) : bool :=
  match m with
  | GetConversationHistory | GetUserProfile | StoreConversation
  | GetUserStageProgressions | GetUserContext => true
  | _ => false
  end.

Definition manager (firebaseService : bool) (m : method) (args : list value)
  : prog op value :=
  match m with
  | GetConversationHistory => getConversationHistory firebaseService (arg 0 args) (arg 1 args)
  | GetUserProfile => getUserProfile firebaseService (arg 0 args)
  | StoreConversation => storeConversation firebaseService (arg 0 args) (arg 1 args)
  | GetUserStageProgressions =>
      getUserStageProgressions firebaseService (arg 0 args) (arg 1 args)
  | GetUserContext => getUserContext firebaseService (arg 0 args) (arg 1 args)
  | _ => Throw (TypeError "not a function")
  end.

End MemoryManager.

(* ===================================================================== *)
(** ** The tools registry and the tools router *)
(* ===================================================================== *)

Module Tools.

Import Js Eff Gateway.
Local Open Scope string_scope.
Local Open Scope prog_scope.

(** A ContextTool instance: whether it was constructed with a service. *)
Record tool : Type := Tool { tool_service : bool }.

(** The module variables: [toolsInstance] of the registry and
    [firebaseService] of the router ([true]: a service object). *)
Record modules : Type :=
  Modules { toolsInstance : option tool; firebaseService : bool }.

(** Both start as null. *)
Definition initial : modules := Modules None false.

(** [initializeToolsWithFirebase(firebaseService)] *)
Definition initializeToolsWithFirebase (service : bool) (st : modules) : modules :=
  Modules (Some (Tool service)) (firebaseService st).

(** [getTools()] *)
Definition getTools (st : modules) : option tool := toolsInstance st.

(** [setFirebaseService(service)] *)
Definition setFirebaseService (service : bool) (st : modules) : modules :=
  initializeToolsWithFirebase service (Modules (toolsInstance st) service).

(** router.post('/context', ...) with its module variables. *)
Definition post_context (st : modules) (req : Server.request) : prog op Server.response :=
  try_catch
    (if negb (firebaseService st) then
       Server.respond 500 (object [Field "error" (VStr "Firebase service not initialized")])
     else
       match getTools st with
       | None =>
           Server.respond 500 (object [Field "error" (VStr "Context tool not available")])
       | Some get_user_context =>
           user_id <- Server.checked (member (Server.body req) "user_id") ;;
           let context_type :=
             default_arg (get (Server.body req) "context_type") (VStr "all") in
           let limit := default_arg (get (Server.body req) "limit") (VNum 10) in
           if negb (truthy user_id) then
             Server.respond 400 (object [Field "error" (VStr "user_id is required")])
           else
             result <- ContextTool.execute (tool_service get_user_context)
                         (object [Field "user_id" user_id;
                                  Field "context_type" context_type;
                                  Field "limit" limit]) ;;
             Server.respond 200 result
       end)
    (fun error =>
       Server.respond 500 (object [Field "error" (VStr "Failed to execute context tool");
                                   Field "details" (VStr (err_message error))])).

(** The module variables after the server's calls of [setFirebaseService],
    the first call first. *)
Definition after (services : list bool) : modules :=
  fold_left (fun st service => setFirebaseService service st) services initial.

End Tools.

(* ===================================================================== *)
(** ** The routes of the server, together *)
(* ===================================================================== *)

Module Routes.

Import Js Eff Gateway.

(** The routes that call the memory service; [query] is [req.query] and
    [st] the module variables of the tools router. *)
Inductive route : Type :=
| Write (r : Server.write_route)
| DeleteUser
| GetProfile
| GetSession (query : list (string * value))
| GetCurrentSession
| Webhook
| ToolsContext (st : Tools.modules).

Definition handle (env : Server.environment) (rt : route) (req : Server.request)
  : prog op Server.response :=
  match rt with
  | Write r => Server.post r env req
  | DeleteUser => Server.delete_memory_user req
  | GetProfile => Server.get_memory_profile req
  | GetSession query => Server.get_memory_session req query
  | GetCurrentSession => Server.get_current_session req
  | Webhook => Server.post_elevenlabs_webhook env req
  | ToolsContext st => Tools.post_context st req
  end.

(** The routes that only read. *)
Definition reading_route (rt : route) : bool :=
  match rt with
  | GetProfile | GetSession _ | GetCurrentSession | ToolsContext _ => true
  | _ => false
  end.

(** The status codes the routes answer with. *)
Definition statuses : list Z := [200; 400; 401; 404; 500]%Z.

End Routes.

(* ===================================================================== *)
(** * Properties *)
(* ===================================================================== *)

(** ** Running programs *)

Section Running.

Import Js Eff.

Context {E : Type -> Type} {S : Type} (h : handler E S).

Lemma run_bind {A B : Type} (p : prog E A) (f : A -> prog E B) (s : S) :
  run h (bind p f) s =
  match result (run h p s) with
  | Ok a =>
      let r := run h (f a) (final (run h p s)) in
      Run (result r) (final r) (trace (run h p s) ++ trace r)
  | Err e => Run (Err e) (final (run h p s)) (trace (run h p s))
  end.
Proof.
  revert s. induction p as [a | e | X ev k IH]; intros s; simpl.
  - destruct (run h (f a) s); reflexivity.
  - reflexivity.
  - destruct (h X ev s) as [o s']. rewrite IH. simpl.
    destruct (result (run h (k o) s')); reflexivity.
Qed.

Lemma run_try_catch {A : Type} (p : prog E A) (c : JsError -> prog E A) (s : S) :
  run h (try_catch p c) s =
  match result (run h p s) with
  | Ok a => run h p s
  | Err e =>
      let r := run h (c e) (final (run h p s)) in
      Run (result r) (final r) (trace (run h p s) ++ trace r)
  end.
Proof.
  revert s. induction p as [a | e | X ev k IH]; intros s; simpl.
  - reflexivity.
  - destruct (run h (c e) s); reflexivity.
  - destruct (h X ev s) as [o s']. rewrite IH. simpl.
    destruct (result (run h (k o) s')) eqn:R; [rewrite R|]; reflexivity.
Qed.

(** In a body without a try/catch of its own a failed call is fatal. *)
Lemma strict_failed {A : Type} (p : prog E A) (s : S) :
  strict p ->
  some_call_failed (trace (run h p s)) = true ->
  exists e, result (run h p s) = Err e.
Proof.
  intros Hs. revert s. induction Hs as [r | e | X ev k Herr Hok IH]; intros s; simpl.
  - discriminate.
  - discriminate.
  - destruct (h X ev s) as [o s']. simpl. destruct o as [x | e].
    + unfold answer_failed at 1. simpl. apply IH.
    + intros _. rewrite Herr. simpl. eauto.
Qed.

(** A body wholly inside [try { .. } catch (error) { return d(error) }]
    returns, and returns one of the values [d] whenever a call failed. *)
Lemma guarded_returns {A : Type} (p : prog E A) (c : JsError -> prog E A)
  (P : A -> Prop) (s : S) :
  strict p ->
  (forall e, exists v, c e = Ret v /\ P v) ->
  exists v, result (run h (try_catch p c) s) = Ok v /\
            (some_call_failed (trace (run h (try_catch p c) s)) = true -> P v).
Proof.
  intros Hs Hc. rewrite run_try_catch.
  destruct (result (run h p s)) as [a | e] eqn:R.
  - exists a. split; [exact R|]. intros F.
    destruct (strict_failed p s Hs F) as [e He]. congruence.
  - destruct (Hc e) as [v [-> Pv]]. simpl. eauto.
Qed.

End Running.

Section Strictness.

Import Js Eff.

Context {E : Type -> Type}.

Lemma strict_call {X : Type} (ev : E X) : strict (call ev).
Proof. apply strict_vis; intros; [reflexivity | constructor]. Qed.

Lemma strict_lift {A : Type} (msg : string) (o : option A) :
  strict (@lift E A msg o).
Proof. destruct o; constructor. Qed.

Lemma strict_bind {A B : Type} (p : prog E A) (f : A -> prog E B) :
  strict p -> (forall a, strict (f a)) -> strict (bind p f).
Proof.
  intros Hp Hf. induction Hp as [r | e | X ev k Herr Hok IH]; simpl.
  - apply Hf.
  - constructor.
  - apply strict_vis.
    + intros e. rewrite Herr. reflexivity.
    + exact IH.
Qed.

End Strictness.

Ltac strictness :=
  repeat first
    [ apply strict_call
    | apply strict_lift
    | apply Eff.strict_ret
    | apply Eff.strict_throw
    | apply strict_bind; [ | intros ? ]
    | match goal with
      | |- Eff.strict (if ?b then _ else _) => destruct b
      | |- Eff.strict (match ?x with _ => _ end) => destruct x
      end ].

(** ** The Storage Gateway never throws *)

Section GatewayTotal.

Import Js Eff Gateway.

Lemma strict_stamped data extra : strict (FirebaseMemoryService.stamped data extra).
Proof. unfold FirebaseMemoryService.stamped, FirebaseMemoryService.timestamp_or_now. strictness. Qed.

Lemma strict_session_part sub u sid dt acc :
  strict (FirebaseMemoryService.session_part sub u sid dt acc).
Proof. unfold FirebaseMemoryService.session_part. strictness. Qed.

Lemma failure_is_failure_value e :
  exists v, FirebaseMemoryService.failure e = Ret v /\
            exists msg, v = VObj [("success", VBool false); ("error", VStr msg)].
Proof. eexists. split; [reflexivity|]. eexists. reflexivity. Qed.

(** C1. Every Storage Gateway method named by the specification returns to
    its caller whatever the document store does: run against any environment
    it ends with a value, never with an exception; and when one of its calls
    into the document store failed, a write method returns
    [{success: false, error}] and a read method returns its empty default
    ([[]], [null] or [{}]). *)
Theorem gateway_never_throws (m : method) (args : list value)
  (S : Type) (h : handler Firestore.op S) (s : S) :
  kind_of m <> Other ->
  exists v, result (run h (firebase m args) s) = Ok v /\
            (some_call_failed (trace (run h (firebase m args) s)) = true ->
             failure_value m v).
Proof.
  intros Hm.
  destruct m; cbv [failure_value kind_of firebase];
    try (exfalso; apply Hm; reflexivity);
    cbv [FirebaseMemoryService.storeConversation
         FirebaseMemoryService.getConversationHistory
         FirebaseMemoryService.storeStageProgression
         FirebaseMemoryService.storeUserProfile
         FirebaseMemoryService.getUserProfile
         FirebaseMemoryService.clearUserData
         FirebaseMemoryService.storeUserContext
         FirebaseMemoryService.getUserStageProgressions
         FirebaseMemoryService.getUserContext
         FirebaseMemoryService.storeSessionStageProgression
         FirebaseMemoryService.storeSessionUserContext
         FirebaseMemoryService.storeBreakthroughMoment
         FirebaseMemoryService.storeTherapeuticTheme
         FirebaseMemoryService.store_in_session
         FirebaseMemoryService.getSessionData];
    apply guarded_returns;
    try (intros e; first [ apply failure_is_failure_value
                         | eexists; split; reflexivity ]);
    strictness; auto using strict_stamped, strict_session_part.
Qed.

End GatewayTotal.

(** ** Properties of objects *)

Section Objects.

Import Js.

Lemma lookup_app_last (k' k : string) (v : value) (fs : list (string * value)) :
  lookup k' (fs ++ [(k, v)]) = if String.eqb k' k then Some v else lookup k' fs.
Proof.
  induction fs as [|[k0 v0] rest IH]; simpl.
  - reflexivity.
  - rewrite IH. destruct (String.eqb k' k); reflexivity.
Qed.

Lemma lookup_map_replace (k' k : string) (v : value) (fs : list (string * value)) :
  lookup k' (map (fun kv => if String.eqb (fst kv) k then (k, v) else kv) fs)
  = if String.eqb k' k then (if has_key k fs then Some v else None) else lookup k' fs.
Proof.
  unfold has_key. induction fs as [|[k0 v0] rest IH]; simpl.
  - destruct (String.eqb k' k); reflexivity.
  - destruct (String.eqb_spec k0 k) as [-> | Hk0]; simpl; rewrite IH.
    + destruct (String.eqb_spec k' k) as [-> | Hne].
      * rewrite String.eqb_refl. destruct (lookup k rest); reflexivity.
      * destruct (lookup k' rest); reflexivity.
    + destruct (String.eqb_spec k' k) as [-> | Hne].
      * destruct (String.eqb_spec k k0) as [-> | _]; [contradiction|].
        destruct (lookup k rest); reflexivity.
      * reflexivity.
Qed.

(** Reading after writing. *)
Lemma lookup_set (k' k : string) (v : value) (fs : list (string * value)) :
  lookup k' (set fs k v) = if String.eqb k' k then Some v else lookup k' fs.
Proof.
  unfold set. destruct (has_key k fs) eqn:Hk.
  - rewrite lookup_map_replace, Hk. reflexivity.
  - apply lookup_app_last.
Qed.

(** Reading after a spread: the spread properties win. *)
Lemma lookup_spread (k : string) (fs acc : list (string * value)) :
  lookup k (fold_left (fun a kv => set a (fst kv) (snd kv)) fs acc)
  = match lookup k fs with
    | Some v => Some v
    | None => lookup k acc
    end.
Proof.
  revert acc. induction fs as [|[k0 v0] rest IH]; intros acc; simpl.
  - reflexivity.
  - rewrite IH, lookup_set. destruct (lookup k rest); [reflexivity|].
    destruct (String.eqb k k0); reflexivity.
Qed.

Lemma get_object_last (items : list item) (k : string) (v : value) :
  get (object (items ++ [Field k v])) k = v.
Proof.
  unfold object. rewrite fold_left_app. simpl. rewrite lookup_set, String.eqb_refl.
  reflexivity.
Qed.

Lemma get_object_before (items : list item) (k k' : string) (v : value) :
  k' <> k ->
  get (object (items ++ [Field k v])) k' = get (object items) k'.
Proof.
  intros Hne. unfold object. rewrite fold_left_app. simpl. rewrite lookup_set.
  destruct (String.eqb_spec k' k); [contradiction | reflexivity].
Qed.

(** [{ k0: v0, ...{fields} }] reads like [{fields}] at every other name that
    [fields] has. *)
Lemma get_over_spread (k0 k : string) (v0 : value) (fs : list (string * value)) :
  k <> k0 ->
  get (object [Field k0 v0; Spread (VObj fs)]) k = get (VObj fs) k.
Proof.
  intros Hne. unfold object. simpl. rewrite lookup_spread.
  destruct (lookup k fs); [reflexivity|].
  unfold set. simpl. destruct (String.eqb_spec k k0); [contradiction | reflexivity].
Qed.

(** [{ ...pre, ...{fields} }] has the value of [fields] at a name [fields] has. *)
Lemma get_spread_last (items : list item) (fs : list (string * value)) (k : string) :
  has_key k fs = true ->
  get (object (items ++ [Spread (VObj fs)])) k = get (VObj fs) k.
Proof.
  unfold has_key. intros Hk. unfold object. rewrite fold_left_app. simpl.
  rewrite lookup_spread. destruct (lookup k fs); [reflexivity | discriminate].
Qed.

End Objects.

(** ** The calls a body can make *)

Section Calls.

Import Js Eff.

Context {E : Type -> Type} (P : forall X : Type, E X -> Prop).

Lemma all_calls_call {X : Type} (ev : E X) : P X ev -> all_calls P (call ev).
Proof. intros H. apply all_vis; [exact H|]. intros [x | e]; constructor. Qed.

Lemma all_calls_lift {A : Type} (msg : string) (o : option A) :
  all_calls P (@lift E A msg o).
Proof. destruct o; constructor. Qed.

Lemma all_calls_bind {A B : Type} (p : prog E A) (f : A -> prog E B) :
  all_calls P p -> (forall a, all_calls P (f a)) -> all_calls P (bind p f).
Proof.
  intros Hp Hf. induction Hp as [r | e | X ev k Hev Hk IH]; simpl.
  - apply Hf.
  - constructor.
  - apply all_vis; assumption.
Qed.

Lemma all_calls_try_catch {A : Type} (p : prog E A) (c : JsError -> prog E A) :
  all_calls P p -> (forall e, all_calls P (c e)) -> all_calls P (try_catch p c).
Proof.
  intros Hp Hc. induction Hp as [r | e | X ev k Hev Hk IH]; simpl.
  - constructor.
  - apply Hc.
  - apply all_vis; assumption.
Qed.

(** What holds of every possible call holds of every call made. *)
Lemma all_calls_trace {R S : Type} (h : handler E S) (p : prog E R) (s : S) :
  all_calls P p ->
  forall e, In e (trace (run h p s)) -> P _ (ent_call e).
Proof.
  intros Hp. revert s. induction Hp as [r | e | X ev k Hev Hk IH]; intros s e0 Hin; simpl in Hin.
  - contradiction.
  - contradiction.
  - destruct (h X ev s) as [o s']. simpl in Hin. destruct Hin as [<- | Hin].
    + exact Hev.
    + eapply IH. exact Hin.
Qed.

End Calls.

Ltac every_call :=
  repeat first
    [ apply all_calls_lift
    | apply Eff.all_ret
    | apply Eff.all_throw
    | apply all_calls_try_catch; [ | intros ? ]
    | apply all_calls_bind; [ | intros ? ]
    | match goal with
      | |- Eff.all_calls _ (if ?b then _ else _) => destruct b
      | |- Eff.all_calls _ (match ?x with _ => _ end) => destruct x
      end ].

(** ** The limit of the context tool *)

Section ToolLimit.

Import Js Eff Gateway ContextTool.

Lemma invoke_carries (limit : value) (m : method) (args : list value) :
  (m = GetConversationHistory \/ m = GetUserStageProgressions -> arg 1 args = limit) ->
  all_calls (carries_limit limit) (invoke m args).
Proof. intros H. apply all_calls_call. exact H. Qed.

Lemma execute_carries_limit (firebaseService : bool) (parameters : value) :
  all_calls (carries_limit (default_arg (get parameters "limit") (VNum 10)))
            (execute firebaseService parameters).
Proof.
  unfold execute, category, checked.
  every_call;
    try (apply invoke_carries; intros [Hm | Hm]; first [discriminate Hm | reflexivity]);
    try (apply all_calls_call; exact I).
Qed.

Lemma all_calls_invocations {R S : Type} (P : forall X : Type, op X -> Prop)
  (h : handler op S) (p : prog op R) (s : S) (m : method) (args : list value) :
  all_calls P p ->
  In (m, args) (invocations (trace (run h p s))) ->
  P value (Invoke m args).
Proof.
  intros Hp Hin. unfold invocations in Hin. apply in_flat_map in Hin.
  destruct Hin as [e [He Hme]].
  pose proof (all_calls_trace P h p s Hp e He) as HP.
  destruct e as [X ev ans]. unfold invocation_of in Hme. simpl in *.
  destruct ev; simpl in Hme; [|contradiction].
  destruct Hme as [[= <- <-] | []]. exact HP.
Qed.

(** C4, as amended.  The limit that [execute] gives to the gateway (to
    [getConversationHistory] and to [getUserStageProgressions], the two
    calls that take one) is the caller's limit, unchanged: it is 10 when
    the caller omits it, and it lies between 1 and 50 whenever the caller's
    limit does; [execute] itself does not bound it. *)
Theorem limit_forwarded_unchanged (firebaseService : bool) (parameters : value)
  (S : Type) (h : handler op S) (s : S) (m : method) (args : list value) :
  In (m, args) (invocations (trace (run h (execute firebaseService parameters) s))) ->
  m = GetConversationHistory \/ m = GetUserStageProgressions ->
  arg 1 args = default_arg (get parameters "limit") (VNum 10) /\
  (get parameters "limit" = VUndefined -> arg 1 args = VNum 10) /\
  (forall n, get parameters "limit" = VNum n -> (1 <= n <= 50)%Z ->
             exists n', arg 1 args = VNum n' /\ (1 <= n' <= 50)%Z).
Proof.
  intros Hin Hm.
  pose proof (all_calls_invocations _ h _ s m args
                (execute_carries_limit firebaseService parameters) Hin Hm) as Hl.
  split; [exact Hl|]. split.
  - intros Hu. rewrite Hl, Hu. reflexivity.
  - intros n Hn Hr. exists n. rewrite Hl, Hn. split; [reflexivity | exact Hr].
Qed.

(** C4, as stated, fails: a caller's limit of 1000 reaches the gateway as
    1000. *)
Lemma limit_above_fifty_reaches_gateway :
  let parameters := VObj [("user_id", VStr "u1"); ("limit", VNum 1000)] in
  let world := Memory.World [] "2024-05-01T10:00:00.000Z" 1714557600000 0 0
                            Memory.no_faults in
  In (GetConversationHistory, [VStr "u1"; VNum 1000])
     (invocations (trace (run Backend.firebase (execute true parameters) world))) /\
  ~ (1 <= 1000 <= 50)%Z.
Proof.
  cbv zeta. split; [vm_compute; tauto | lia].
Qed.

End ToolLimit.

(** ** The route layer *)

Section Routes.

Import Js Eff Gateway Server.

Context {S : Type} (svc : memory_service S).

(** Case analysis on the answer of the next awaited call. *)
Ltac answer :=
  match goal with
  | |- context [answer svc ?m ?args ?s] =>
      let o := fresh "o" in
      let s' := fresh "s" in
      destruct (answer svc m args s) as [o s'] eqn:?; destruct o; cbn
  | |- context [clock svc ?s] =>
      let now := fresh "now" in
      let s' := fresh "s" in
      destruct (clock svc s) as [now s'] eqn:?; cbn
  end.

(** A webhook request that is let in and has a body is acknowledged,
    whatever the gateway does. *)
Lemma webhook_let_in (env : environment) (req : request) (s : S) :
  unauthorized env req = false ->
  nullish (body req) = false ->
  result (run (serve svc) (post_elevenlabs_webhook env req) s)
  = Ok (Response 200 acknowledged).
Proof.
  intros Hin Hbody. unfold post_elevenlabs_webhook, checked, member.
  rewrite Hin, Hbody. cbn.
  destruct (truthy (get (body req) "user_id") && truthy (get (body req) "message"))%bool;
    [ destruct (truthy (get (body req) "timestamp")) | ]; cbn;
    repeat answer; reflexivity.
Qed.

(** A webhook request that is let in is never answered 401. *)
Lemma webhook_let_in_status (env : environment) (req : request) (s : S) :
  unauthorized env req = false ->
  exists code payload,
    result (run (serve svc) (post_elevenlabs_webhook env req) s)
    = Ok (Response code payload) /\
    code <> 401%Z.
Proof.
  intros Hin. destruct (nullish (body req)) eqn:Hbody.
  - unfold post_elevenlabs_webhook, checked, member. rewrite Hin, Hbody. cbn.
    eexists _, _. split; [reflexivity | discriminate].
  - rewrite (webhook_let_in env req s Hin Hbody).
    eexists _, _. split; [reflexivity | discriminate].
Qed.

Lemma webhook_turned_away (env : environment) (req : request) :
  unauthorized env req = true ->
  post_elevenlabs_webhook env req = Ret (Response 401 unauthorized_webhook).
Proof.
  intros Hout. unfold post_elevenlabs_webhook. rewrite Hout. reflexivity.
Qed.

End Routes.

Section SecretCheck.

Import Js Eff Gateway Server.

Lemma empty_or_lacking (provided webhookSecret : string) :
  webhookSecret <> "" ->
  (negb (truthy (VStr provided)) || negb (includes provided webhookSecret))%bool
  = negb (includes provided webhookSecret).
Proof.
  intros Hne. destruct provided as [|c rest]; [|reflexivity].
  destruct webhookSecret; [congruence | reflexivity].
Qed.

(** The check of the code, said by the header it looks at. *)
Lemma secret_rejected_spec (webhookSecret : string) (req : request) :
  webhookSecret <> "" ->
  secret_rejected webhookSecret req = lacks_secret webhookSecret req.
Proof.
  intros Hne.
  unfold secret_rejected, lacks_secret, providedSecret, checked_header, header, or_else.
  destruct (assoc "x-elevenlabs-signature" (headers req)) as [sig|];
    [destruct sig as [|c sig]|];
    destruct (assoc "authorization" (headers req)) as [a|];
    cbn [of_option truthy String.eqb negb];
    try reflexivity; apply empty_or_lacking, Hne.
Qed.

Lemma configured_secret_nonempty (env : environment) (webhookSecret : string) :
  configured_secret env = Some webhookSecret -> webhookSecret <> "".
Proof.
  unfold configured_secret. destruct (ELEVENLABS_WEBHOOK_SECRET env) as [x|]; [|discriminate].
  cbn. destruct (String.eqb_spec x "") as [-> | Hx]; cbn; [discriminate|].
  intros [= <-]. exact Hx.
Qed.

(** C6, as amended.  With a shared secret configured, the webhook endpoint
    answers 401 exactly when the one header it checks (the signature header
    when it is there and not empty, else the authorization header) is
    missing or does not contain the secret as a substring, and then it
    calls nothing; without a configured secret no request is answered 401
    and the headers play no part. *)
Theorem webhook_secret_gate (env : environment) (req : request)
  (S : Type) (svc : memory_service S) (s : S) :
  match configured_secret env with
  | Some webhookSecret =>
      ((exists payload,
          result (run (serve svc) (post_elevenlabs_webhook env req) s)
          = Ok (Response 401 payload))
       <-> lacks_secret webhookSecret req = true)
      /\ (lacks_secret webhookSecret req = true ->
          trace (run (serve svc) (post_elevenlabs_webhook env req) s) = [])
  | None =>
      (forall payload,
          result (run (serve svc) (post_elevenlabs_webhook env req) s)
          <> Ok (Response 401 payload))
      /\ (forall req', body req' = body req ->
          post_elevenlabs_webhook env req' = post_elevenlabs_webhook env req)
  end.
Proof.
  destruct (configured_secret env) as [webhookSecret|] eqn:Hcfg.
  - pose proof (configured_secret_nonempty env webhookSecret Hcfg) as Hne.
    assert (Hun : unauthorized env req = lacks_secret webhookSecret req).
    { unfold unauthorized. rewrite Hcfg. apply secret_rejected_spec, Hne. }
    split; [split|].
    + intros [payload Hres]. destruct (lacks_secret webhookSecret req); [reflexivity|].
      destruct (webhook_let_in_status svc env req s Hun) as [code [p [Hr Hc]]].
      rewrite Hr in Hres. injection Hres as Hcode _. congruence.
    + intros Hl. rewrite Hl in Hun. rewrite (webhook_turned_away env req Hun).
      eexists. reflexivity.
    + intros Hl. rewrite Hl in Hun. rewrite (webhook_turned_away env req Hun).
      reflexivity.
  - assert (Hun : forall r, unauthorized env r = false).
    { intros r. unfold unauthorized. rewrite Hcfg. reflexivity. }
    split.
    + intros payload Hres.
      destruct (webhook_let_in_status svc env req s (Hun req)) as [code [p [Hr Hc]]].
      rewrite Hr in Hres. injection Hres as Hcode _. congruence.
    + intros req' Hb. unfold post_elevenlabs_webhook. rewrite !Hun, Hb. reflexivity.
Qed.

(** C6, as stated, fails: the signature header is there and does not
    contain the secret, the authorization header does contain it, and the
    request is answered 401. *)
Lemma webhook_ignores_authorization_behind_signature :
  let env := Environment None (Some "s3cret") in
  let req := Request [("x-elevenlabs-signature", "sha256=abc");
                      ("authorization", "Bearer s3cret")]
                     []
                     (VObj [("user_id", VStr "u1"); ("message", VStr "hello")]) in
  header_contains "authorization" "s3cret" req = true /\
  post_elevenlabs_webhook env req = Ret (Response 401 unauthorized_webhook) /\
  ~ ((exists payload, post_elevenlabs_webhook env req = Ret (Response 401 payload))
     <-> (header_contains "x-elevenlabs-signature" "s3cret" req = false /\
          header_contains "authorization" "s3cret" req = false)).
Proof.
  cbv zeta. split; [reflexivity|]. split; [reflexivity|].
  intros [Hto _]. destruct Hto as [_ Hauth]; [eexists; reflexivity | discriminate Hauth].
Qed.

(** C7. A webhook request that passes the secret check and whose body lacks
    [message] or [user_id] (a missing field reads as undefined, which is
    falsy) is answered 200 with [success: true] and no gateway call is
    made; and whatever [storeConversation] does, return a failure or throw,
    the answer is still 200 with [success: true]. *)
Theorem webhook_always_acknowledges (env : environment) (req : request)
  (S : Type) (svc : memory_service S) (s : S) :
  unauthorized env req = false ->
  nullish (body req) = false ->
  (truthy (get (body req) "message") = false \/
   truthy (get (body req) "user_id") = false ->
   post_elevenlabs_webhook env req = Ret (Response 200 acknowledged) /\
   invocations (trace (run (serve svc) (post_elevenlabs_webhook env req) s)) = []) /\
  result (run (serve svc) (post_elevenlabs_webhook env req) s) = Ok (Response 200 acknowledged) /\
  get acknowledged "success" = VBool true.
Proof.
  intros Hin Hbody.
  split; [|split; [apply webhook_let_in; assumption | reflexivity]].
  intros Hlacks.
  assert (Hprog : post_elevenlabs_webhook env req = Ret (Response 200 acknowledged)).
  { unfold post_elevenlabs_webhook, checked, member. rewrite Hin, Hbody. cbn.
    destruct Hlacks as [-> | ->]; [rewrite Bool.andb_false_r|]; reflexivity. }
  split; [exact Hprog|]. rewrite Hprog. reflexivity.
Qed.

End SecretCheck.

Section WriteRoutes.

Import Js Eff Gateway Server.

Lemma verifyToken_spec (env : environment) (req : request) (next : prog op response) :
  verifyToken env req next
  = if token_accepted env req then next else Ret (Response 401 no_token).
Proof.
  unfold verifyToken, token_accepted, header, respond.
  destruct (is_str (of_option (NODE_ENV env)) "development"); [reflexivity|].
  destruct (assoc "authorization" (headers req)) as [a|]; simpl; [|reflexivity].
  destruct (String.prefix "Bearer " a); reflexivity.
Qed.

Lemma write_body_missing (req : request) (failed : string)
  (store : value -> value -> prog op value) :
  nullish (body req) = false ->
  truthy (get (body req) "userUUID") = false ->
  write_body req failed store = Ret (Response 400 user_required).
Proof.
  intros Hbody Hu. unfold write_body, checked, member. rewrite Hbody. cbn.
  rewrite Hu. reflexivity.
Qed.

Lemma write_body_present {S : Type} (svc : memory_service S) (s : S)
  (req : request) (failed : string) (m : method) (args : value -> value -> list value) :
  nullish (body req) = false ->
  truthy (get (body req) "userUUID") = true ->
  invocations
    (trace (run (serve svc)
              (write_body req failed (fun userUUID data => invoke m (args userUUID data)))
              s))
  = [(m, args (get (body req) "userUUID") (without "userUUID" (body req)))].
Proof.
  intros Hbody Hu. unfold write_body, checked, member. rewrite Hbody. cbn.
  rewrite Hu. cbn.
  destruct (answer svc m _ s) as [[r | e] s']; reflexivity.
Qed.

(** C5, as amended.  For every POST to a memory write route that reaches
    its handler (the conversation route lies behind [verifyToken]) with a
    parsed body: when the body lacks [userUUID], or carries a falsy one
    such as the empty string, the answer is 400 with the message
    'userUUID is required' and no gateway call is made; when [userUUID] is
    truthy the store method of the route is called, once, with it. *)
Theorem write_route_requires_user (r : write_route) (env : environment) (req : request)
  (S : Type) (svc : memory_service S) (s : S) :
  reaches r env req = true ->
  nullish (body req) = false ->
  (truthy (get (body req) "userUUID") = false ->
   post r env req = Ret (Response 400 user_required) /\
   invocations (trace (run (serve svc) (post r env req) s)) = []) /\
  (truthy (get (body req) "userUUID") = true ->
   invocations (trace (run (serve svc) (post r env req) s))
   = [(store_of r, store_args r req)]).
Proof.
  intros Hreach Hbody. split.
  - intros Hu.
    assert (Hp : post r env req = Ret (Response 400 user_required)).
    { destruct r; cbn [post reaches] in *;
        unfold post_memory_conversation, post_memory_stage, post_memory_profile,
               post_memory_context, post_session_stage, post_session_context,
               post_session_breakthrough, post_session_theme;
        try rewrite verifyToken_spec, Hreach;
        apply write_body_missing; assumption. }
    split; [exact Hp | rewrite Hp; reflexivity].
  - intros Hu.
    destruct r; cbn [post reaches store_of store_args] in *;
      unfold post_memory_conversation, post_memory_stage, post_memory_profile,
             post_memory_context, post_session_stage, post_session_context,
             post_session_breakthrough, post_session_theme;
      try rewrite verifyToken_spec, Hreach;
      cbv zeta;
      first
        [ apply (write_body_present svc s req _ _ (fun u d => [u; d]) Hbody Hu)
        | apply (write_body_present svc s req _ _
                   (fun u d => [u; param req "sessionId"; d]) Hbody Hu) ].
Qed.

(** C5, as stated, fails twice: outside development mode a conversation
    write without a Bearer token is answered 401, not 400, although its body
    lacks [userUUID]; and a body whose [userUUID] is there but empty is
    answered 400 without any gateway call. *)
Lemma write_route_gate_and_empty_user :
  let production := Environment (Some "production") None in
  let anonymous := Request [] [] (VObj [("type", VStr "user"); ("content", VStr "hi")]) in
  let empty_user := Request [] [] (VObj [("userUUID", VStr ""); ("stage", VStr "x")]) in
  (get (body anonymous) "userUUID" = VUndefined /\
   post Conversation production anonymous = Ret (Response 401 no_token) /\
   post Conversation production anonymous <> Ret (Response 400 user_required)) /\
  (has_key "userUUID" (own_props (body empty_user)) = true /\
   post Stage production empty_user = Ret (Response 400 user_required) /\
   invocations
     (trace (run (serve (Backend.fixed_service (Backend.mock "Service unavailable" 0) "t"))
               (post Stage production empty_user) tt)) = []).
Proof.
  cbv zeta. repeat split; try reflexivity. discriminate.
Qed.

(** C9. When [clearUserData] returns (an object with a [success] property,
    as every memory service gives), the DELETE route answers 200, also when
    the result is a failure, and the [success] of the answer is the
    [success] of the result: the spread of the result overrides the
    [success: true] written before it. *)
Theorem delete_reports_gateway_result (req : request)
  (S : Type) (svc : memory_service S) (s s' : S) (fields : list (string * value)) :
  answer svc ClearUserData [param req "userUUID"] s = (Ok (VObj fields), s') ->
  has_key "success" fields = true ->
  exists payload,
    result (run (serve svc) (delete_memory_user req) s) = Ok (Response 200 payload) /\
    get payload "success" = get (VObj fields) "success".
Proof.
  intros Hans Hkey. unfold delete_memory_user. cbn. rewrite Hans. cbn.
  eexists. split; [reflexivity|].
  apply (get_spread_last [Field "success" (VBool true);
                          Field "message" (VStr "User data cleared")]).
  exact Hkey.
Qed.

End WriteRoutes.

(** ** The records the gateway writes *)

Section Writes.

Import Js Eff Firestore.

Context {S : Type} (h : handler op S).

Lemma stamped_items (data : value) (extra : list item) (timestamp created : value) :
  (Spread data :: extra ++ [Field "timestamp" timestamp; Field "createdAt" created])%list
  = (((Spread data :: extra) ++ [Field "timestamp" timestamp])
       ++ [Field "createdAt" created])%list.
Proof. rewrite <- app_assoc. reflexivity. Qed.

Lemma stamped_fields (data : value) (extra : list item) (timestamp created : value) :
  let record :=
    object (Spread data :: extra
              ++ [Field "timestamp" timestamp; Field "createdAt" created])%list in
  get record "timestamp" = timestamp /\ get record "createdAt" = created.
Proof.
  cbv zeta. rewrite stamped_items. split.
  - rewrite get_object_before by discriminate. apply get_object_last.
  - apply get_object_last.
Qed.

(** The record [stamped] builds: the timestamp is the caller's when that is
    truthy and a clock reading otherwise; [createdAt] is a clock reading. *)
Lemma stamped_record (data : value) (extra : list item) (s : S) (record : value) :
  result (run h (FirebaseMemoryService.stamped data extra) s) = Ok record ->
  let reads := clock_reads (trace (run h (FirebaseMemoryService.stamped data extra) s)) in
  written (trace (run h (FirebaseMemoryService.stamped data extra) s)) = [] /\
  (truthy (get data "timestamp") = true ->
   get record "timestamp" = get data "timestamp") /\
  (truthy (get data "timestamp") = false ->
   exists now, In now reads /\ get record "timestamp" = VStr now) /\
  (exists now, In now reads /\ get record "createdAt" = VStr now).
Proof.
  unfold FirebaseMemoryService.stamped, FirebaseMemoryService.timestamp_or_now, member.
  destruct (nullish data); cbn [lift bind run result]; [discriminate|].
  destruct (truthy (get data "timestamp")) eqn:Ht; cbn [bind call run result final trace].
  - destruct (h _ NowISO s) as [[created | e] s1]; cbn; [|discriminate].
    intros [= <-].
    destruct (stamped_fields data extra (get data "timestamp") (VStr created))
      as [Hts Hcreated].
    split; [reflexivity|]. split; [intros _; exact Hts|]. split; [discriminate|].
    exists created. split; [left; reflexivity | exact Hcreated].
  - destruct (h _ NowISO s) as [[now | e] s1]; cbn; [|discriminate].
    destruct (h _ NowISO s1) as [[created | e] s2]; cbn; [|discriminate].
    intros [= <-].
    destruct (stamped_fields data extra (VStr now) (VStr created)) as [Hts Hcreated].
    split; [reflexivity|]. split; [discriminate|]. split.
    + intros _. exists now. split; [left; reflexivity | exact Hts].
    + exists created. split; [right; left; reflexivity | exact Hcreated].
Qed.

Lemma run_call {X : Type} (ev : op X) (s : S) :
  run h (call ev) s = Run (fst (h X ev s)) (snd (h X ev s)) [Entry ev (fst (h X ev s))].
Proof.
  cbn. destruct (h X ev s) as [[x | e] s']; reflexivity.
Qed.

Lemma written_app (t1 t2 : list (entry op)) :
  written (t1 ++ t2) = (written t1 ++ written t2)%list.
Proof. apply flat_map_app. Qed.

Lemma clock_reads_app (t1 t2 : list (entry op)) :
  clock_reads (t1 ++ t2) = (clock_reads t1 ++ clock_reads t2)%list.
Proof. apply flat_map_app. Qed.

Lemma stamped_writes_nothing (data : value) (extra : list item) (s : S) :
  written (trace (run h (FirebaseMemoryService.stamped data extra) s)) = [].
Proof.
  unfold FirebaseMemoryService.stamped, FirebaseMemoryService.timestamp_or_now, member.
  destruct (nullish data); cbn; [reflexivity|].
  destruct (truthy (get data "timestamp")); cbn;
    repeat (match goal with
            | |- context [h ?X ?ev ?s] => destruct (h X ev s) as [[?|?] ?]
            end; cbn); reflexivity.
Qed.

Lemma stamping_shape (m : Gateway.method) (args : list value) :
  Gateway.stamping m = true ->
  exists segments extra,
    Gateway.firebase m args
    = FirebaseMemoryService.store_body segments (Gateway.data_arg m args) extra.
Proof.
  destruct m; try discriminate; intros _; eexists _, _; reflexivity.
Qed.

(** A record written by such a method is the record [stamped] built. *)
Lemma store_body_written (segments : list value) (data : value) (extra : list item)
  (s : S) (r : docref) (record : value) :
  In (r, record) (written (trace (run h (FirebaseMemoryService.store_body segments data extra) s))) ->
  exists s1,
    result (run h (FirebaseMemoryService.stamped data extra) s1) = Ok record /\
    incl (clock_reads (trace (run h (FirebaseMemoryService.stamped data extra) s1)))
         (clock_reads (trace (run h (FirebaseMemoryService.store_body segments data extra) s))).
Proof.
  unfold FirebaseMemoryService.store_body. rewrite run_try_catch.
  match goal with |- context [run h ?b s] => set (body := b) end.
  assert (Hbody : In (r, record) (written (trace (run h body s))) ->
                  exists s1,
                    result (run h (FirebaseMemoryService.stamped data extra) s1) = Ok record /\
                    incl (clock_reads
                            (trace (run h (FirebaseMemoryService.stamped data extra) s1)))
                         (clock_reads (trace (run h body s)))).
  { subst body. cbn [run bind call].
    destruct (h _ (Collection segments) s) as [[c | e] s1]; cbn [run bind call result final trace];
      [|cbn; tauto].
    destruct (h _ (NewDoc c) s1) as [[ref | e] s2]; cbn [run bind call result final trace];
      [|cbn; tauto].
    rewrite run_bind.
    pose proof (stamped_writes_nothing data extra s2) as Hnone.
    destruct (result (run h (FirebaseMemoryService.stamped data extra) s2))
      as [record' | e] eqn:Hres.
    - cbn [run bind call].
      destruct (h _ (SetDoc ref record' false) _) as [[u | e] s3].
      all: cbn [run bind result final trace].
      all: unfold written, clock_reads in *.
      all: cbn [flat_map written_by clock_read_by ent_call ent_answer app].
      all: rewrite !flat_map_app, Hnone; cbn [flat_map written_by ent_call app].
      all: intros [[= <- <-] | []]; exists s2; split; [exact Hres|].
      all: apply incl_appl, incl_refl.
    - cbn [run result final trace]. unfold written, clock_reads in *.
      cbn [flat_map written_by ent_call app]. rewrite Hnone. intros []. }
  destruct (result (run h body s)) as [v | e] eqn:Hr.
  - exact Hbody.
  - cbn [FirebaseMemoryService.failure run result final trace].
    rewrite !app_nil_r. exact Hbody.
Qed.
End Writes.

Section RecordTimestamps.

Import Js Eff Firestore.

(** C10, as amended.  For every record the gateway writes for a
    conversation, a stage, a context entry or a session sub-record: when the
    input data carries a truthy [timestamp], the record keeps it unchanged;
    when the input has no [timestamp], or a falsy one (0, the empty string,
    null, false), the timestamp of the record is a reading of the server
    clock; in both cases [createdAt] is a reading of the server clock. *)
Theorem record_timestamps (m : Gateway.method) (args : list value)
  (S : Type) (h : handler op S) (s : S) (r : docref) (record : value) :
  Gateway.stamping m = true ->
  In (r, record) (written (trace (run h (Gateway.firebase m args) s))) ->
  let data := Gateway.data_arg m args in
  let reads := clock_reads (trace (run h (Gateway.firebase m args) s)) in
  (truthy (get data "timestamp") = true ->
   get record "timestamp" = get data "timestamp") /\
  (truthy (get data "timestamp") = false ->
   exists now, In now reads /\ get record "timestamp" = VStr now) /\
  (exists now, In now reads /\ get record "createdAt" = VStr now).
Proof.
  intros Hm Hin data reads. subst data reads.
  destruct (stamping_shape m args Hm) as [segments [extra Hshape]].
  rewrite Hshape in *.
  destruct (store_body_written h segments _ extra s r record Hin) as [s1 [Hres Hincl]].
  destruct (stamped_record h _ extra s1 record Hres) as [_ [Hkeep [Hfresh Hcreated]]].
  split; [exact Hkeep|]. split.
  - intros Hf. destruct (Hfresh Hf) as [now [Hnow Hts]]. exists now. auto.
  - destruct Hcreated as [now [Hnow Hc]]. exists now. auto.
Qed.

(** C10, as stated, fails: the input carries the timestamp 0 and the stored
    record has the server time instead. *)
Lemma falsy_timestamp_replaced :
  let world := Memory.World [] "2024-05-01T10:00:00.000Z" 1714557600000 0 0
                            Memory.no_faults in
  let data := VObj [("content", VStr "hi"); ("timestamp", VNum 0)] in
  let r := run Memory.handle
               (FirebaseMemoryService.storeConversation (VStr "u1") data) world in
  has_key "timestamp" (own_props data) = true /\
  result r = Ok (VObj [("success", VBool true); ("id", VStr "doc0")]) /\
  Memory.find_doc (DocRef ["users"; "u1"; "conversations"] "doc0") (final r)
  = Some [("content", VStr "hi");
          ("timestamp", VStr "2024-05-01T10:00:00.000Z");
          ("createdAt", VStr "2024-05-01T10:00:00.000Z")] /\
  VStr "2024-05-01T10:00:00.000Z" <> get data "timestamp".
Proof.
  cbv zeta. repeat split; try reflexivity. discriminate.
Qed.

End RecordTimestamps.

(** ** Order and limit of the reads *)

Section InsertionSort.

Context {A : Type} (leb : A -> A -> bool).

Hypothesis leb_total : forall a b, leb a b = true \/ leb b a = true.

Let le (a b : A) : Prop := leb a b = true.

Lemma insert_hd (x a : A) (l : list A) :
  le a x -> HdRel le a l -> HdRel le a (Memory.insert leb x l).
Proof.
  intros Hax Hl. destruct l as [|y rest]; simpl.
  - constructor. exact Hax.
  - destruct (leb x y); constructor; [exact Hax | inversion Hl; assumption].
Qed.

Lemma insert_sorted (x : A) (l : list A) :
  Sorted le l -> Sorted le (Memory.insert leb x l).
Proof.
  induction 1 as [|y rest Hs IH Hhd]; simpl.
  - repeat constructor.
  - destruct (leb x y) eqn:Hxy.
    + constructor; [constructor; assumption | constructor; exact Hxy].
    + constructor; [exact IH|].
      apply insert_hd; [|exact Hhd].
      destruct (leb_total x y) as [H | H]; [congruence | exact H].
Qed.

Lemma isort_sorted (l : list A) : Sorted le (Memory.isort leb l).
Proof.
  induction l as [|x rest IH]; simpl; [constructor | apply insert_sorted, IH].
Qed.

Lemma insert_perm (x : A) (l : list A) : Permutation (x :: l) (Memory.insert leb x l).
Proof.
  induction l as [|y rest IH]; simpl.
  - apply Permutation_refl.
  - destruct (leb x y); [apply Permutation_refl|].
    eapply Permutation_trans; [apply perm_swap|]. apply perm_skip, IH.
Qed.

Lemma isort_perm (l : list A) : Permutation l (Memory.isort leb l).
Proof.
  induction l as [|x rest IH]; simpl; [constructor|].
  eapply Permutation_trans; [apply perm_skip, IH | apply insert_perm].
Qed.

End InsertionSort.

Section SortedLists.

Context {A B : Type}.

Lemma Sorted_firstn (R : A -> A -> Prop) (n : nat) (l : list A) :
  Sorted R l -> Sorted R (firstn n l).
Proof.
  intros Hs. revert n. induction Hs as [|x rest Hs IH Hhd]; intros [|n]; simpl;
    try constructor.
  - apply IH.
  - destruct Hhd as [|y tl Hxy]; destruct n; simpl; constructor. exact Hxy.
Qed.

Lemma Sorted_map (R : A -> A -> Prop) (Q : B -> B -> Prop) (f : A -> B) (l : list A) :
  (forall a b, R a b -> Q (f a) (f b)) ->
  Sorted R l -> Sorted Q (map f l).
Proof.
  intros Hf Hs. induction Hs as [|x rest Hs IH Hhd]; simpl; constructor.
  - exact IH.
  - destruct Hhd as [|y tl Hxy]; simpl; constructor. apply Hf, Hxy.
Qed.

End SortedLists.

Section StoreOrder.

Import Js Eff Firestore Memory.

Lemma compare_values_antisym (a b : value) :
  compare_values b a = CompOpp (compare_values a b).
Proof.
  unfold compare_values. rewrite (Nat.compare_antisym (rank a) (rank b)).
  destruct (Nat.compare (rank a) (rank b)) eqn:Hr; simpl; try reflexivity.
  destruct a, b; simpl in *; try reflexivity; try discriminate.
  - destruct b, b0; reflexivity.
  - apply Z.compare_antisym.
  - apply String.compare_antisym.
Qed.

Lemma by_field_asc_total (f : string) (d1 d2 : docsnap) :
  by_field_asc f d1 d2 = true \/ by_field_asc f d2 d1 = true.
Proof.
  unfold by_field_asc. rewrite (compare_values_antisym (field f d1) (field f d2)).
  destruct (compare_values (field f d1) (field f d2)); simpl; auto.
  apply String.leb_total.
Qed.

Lemma by_field_total (f : string) (dir : direction) (d1 d2 : docsnap) :
  by_field f dir d1 d2 = true \/ by_field f dir d2 d1 = true.
Proof. destruct dir; simpl; apply by_field_asc_total. Qed.

Lemma entry_timestamp (d : docsnap) :
  get (FirebaseMemoryService.entry_of d) "timestamp" = field "timestamp" d.
Proof. unfold FirebaseMemoryService.entry_of, field. apply get_over_spread. discriminate. Qed.

Lemma desc_newest_first (d1 d2 : docsnap) :
  by_field "timestamp" Desc d1 d2 = true ->
  newest_first (FirebaseMemoryService.entry_of d1) (FirebaseMemoryService.entry_of d2).
Proof.
  unfold newest_first, value_leb. rewrite !entry_timestamp. simpl. unfold by_field_asc.
  destruct (compare_values (field "timestamp" d2) (field "timestamp" d1));
    [reflexivity | reflexivity | discriminate].
Qed.

(** What the store gives for a query that asks the most recent first. *)
Lemma get_docs_recent (c : collref) (limit : value) (w : world) (snaps : list docsnap) :
  get_docs (FirebaseMemoryService.recent c limit) w = Ok snaps ->
  Sorted newest_first (map FirebaseMemoryService.entry_of snaps) /\
  (forall n, limit = VNum n -> (List.length snaps <= Z.to_nat n)%nat).
Proof.
  unfold get_docs, FirebaseMemoryService.recent. cbn [q_order q_limit q_coll].
  set (ordered := isort _ _).
  assert (Hs : Sorted (fun a b => by_field "timestamp" Desc a b = true) ordered).
  { apply isort_sorted. apply by_field_total. }
  destruct limit; try discriminate.
  destruct (Z.ltb 0 n); [|discriminate].
  intros [= <-]. split.
  - eapply Sorted_map; [|apply Sorted_firstn, Hs]. apply desc_newest_first.
  - intros n' [= <-]. apply length_firstn_le || (rewrite length_firstn; apply Nat.le_min_l).
Qed.

End StoreOrder.

Section Reads.

Import Js Eff Firestore.

Lemma all_calls_queries {R S : Type} (P : forall X : Type, op X -> Prop)
  (h : handler op S) (p : prog op R) (s : S) (q : query) :
  all_calls P p ->
  In q (queries (trace (run h p s))) ->
  P _ (GetDocs q).
Proof.
  intros Hp Hin. unfold queries in Hin. apply in_flat_map in Hin.
  destruct Hin as [e [He Hq]].
  pose proof (all_calls_trace P h p s Hp e He) as HP.
  destruct e as [X ev ans]. unfold query_of in Hq. simpl in *.
  destruct ev; simpl in Hq; try contradiction.
  destruct Hq as [<- | []]. exact HP.
Qed.

(** The three reads with a limit ask for the most recent first. *)
Lemma limited_read_queries (m : Gateway.method) (args : list value) :
  Gateway.limited_read m = true ->
  all_calls (recent_first (Gateway.limit_used m args)) (Gateway.firebase m args).
Proof.
  destruct m; try discriminate; intros _;
    cbv [Gateway.firebase FirebaseMemoryService.getConversationHistory
         FirebaseMemoryService.getUserStageProgressions
         FirebaseMemoryService.getUserContext];
    every_call; apply all_calls_call; simpl; auto.
Qed.

(** The session-data read asks without order and without limit. *)
Lemma session_read_queries (args : list value) :
  all_calls unordered (Gateway.firebase Gateway.GetSessionData args).
Proof.
  cbv [Gateway.firebase FirebaseMemoryService.getSessionData FirebaseMemoryService.session_part].
  every_call; apply all_calls_call; simpl; auto.
Qed.

Opaque Memory.get_docs Memory.collection.

(** Over the in-memory store the three reads return the most recent entries
    first, and no more than the limit. *)
Lemma limited_read_entries (m : Gateway.method) (args : list value) (w : Memory.world) :
  Gateway.limited_read m = true ->
  exists entries,
    result (run Memory.handle (Gateway.firebase m args) w) = Ok (VArr entries) /\
    Sorted Memory.newest_first entries /\
    (forall n, Gateway.limit_used m args = VNum n ->
               (List.length entries <= Z.to_nat n)%nat).
Proof.
  assert (Hnil : exists entries : list value,
             Ok (VArr []) = Ok (VArr entries) /\
             Sorted Memory.newest_first entries /\
             (forall n, Gateway.limit_used m args = VNum n ->
                        (List.length entries <= Z.to_nat n)%nat)).
  { exists []. split; [reflexivity|]. split; [constructor|]. intros; apply Nat.le_0_l. }
  destruct m; try discriminate; intros _;
    cbv [Gateway.firebase FirebaseMemoryService.getConversationHistory
         FirebaseMemoryService.getUserStageProgressions
         FirebaseMemoryService.getUserContext];
    cbn [run try_catch bind call Memory.handle Memory.is_clock Memory.perform];
    (destruct (Memory.faults w (Memory.calls w)); cbn; [exact Hnil|]);
    (destruct (Memory.collection _) as [c | e]; cbn; [|exact Hnil]);
    (destruct (Memory.faults w (Datatypes.S (Memory.calls w))); cbn; [exact Hnil|]);
    (destruct (Memory.get_docs _ _) as [snaps | e] eqn:Hq; cbn; [|exact Hnil]);
    destruct (get_docs_recent _ _ _ _ Hq) as [Hsorted Hlen];
    (exists (map FirebaseMemoryService.entry_of snaps));
    (split; [reflexivity|]); (split; [exact Hsorted|]);
    intros n Hn; rewrite length_map; apply Hlen; exact Hn.
Qed.

Transparent Memory.get_docs Memory.collection.

End Reads.

Section ReadsAndWrites.

Import Js Eff Firestore.

(** The profile write attaches [lastUpdated]. *)
Lemma profile_record {S : Type} (h : handler op S) (args : list value) (s : S)
  (r : docref) (record : value) :
  In (r, record)
     (written (trace (run h (Gateway.firebase Gateway.StoreUserProfile args) s))) ->
  exists now,
    In now (clock_reads (trace (run h (Gateway.firebase Gateway.StoreUserProfile args) s))) /\
    get record "lastUpdated" = VStr now.
Proof.
  cbv [Gateway.firebase FirebaseMemoryService.storeUserProfile].
  cbn [run try_catch bind call].
  destruct (h _ (Doc _) s) as [[ref | e] s1];
    cbn [run try_catch bind call result final trace FirebaseMemoryService.failure];
    [|cbn; tauto].
  destruct (h _ NowISO s1) as [[now | e] s2];
    cbn [run try_catch bind call result final trace FirebaseMemoryService.failure];
    [|cbn; tauto].
  destruct (h _ (SetDoc _ _ _) s2) as [[u | e] s3];
    cbn [run try_catch bind call result final trace FirebaseMemoryService.failure];
    unfold written, clock_reads;
    cbn [flat_map written_by clock_read_by ent_call ent_answer app];
    (intros [[= <- <-] | []]; exists now; split; [left; reflexivity|];
     apply (get_object_last [Spread (Gateway.arg 1 args)])).
Qed.

(** C3, as amended.  The three reads that take a limit
    ([getConversationHistory], [getUserStageProgressions], [getUserContext])
    ask the store for the most recent documents first, at most the caller's
    limit (50, 50 and 20 when the caller gives none), and over the document
    store they return entries ordered most-recent-first by timestamp and no
    more of them than the limit.  The session-data read ([getSessionData])
    takes no limit and asks without order: it returns every sub-record in
    the order of the store.  Every write of a conversation, stage, context
    entry or session sub-record attaches a [createdAt] read from the server
    clock; the profile write attaches [lastUpdated] instead. *)
Theorem reads_recent_first_writes_stamped :
  (forall m args,
      Gateway.limited_read m = true ->
      (forall (S : Type) (h : handler op S) (s : S) (q : query),
          In q (queries (trace (run h (Gateway.firebase m args) s))) ->
          q_order q = Some ("timestamp", Desc) /\
          q_limit q = Some (Gateway.limit_used m args)) /\
      (forall w : Memory.world,
          exists entries,
            result (run Memory.handle (Gateway.firebase m args) w) = Ok (VArr entries) /\
            Sorted Memory.newest_first entries /\
            (forall n, Gateway.limit_used m args = VNum n ->
                       (List.length entries <= Z.to_nat n)%nat))) /\
  (forall args (S : Type) (h : handler op S) (s : S) (q : query),
      In q (queries (trace (run h (Gateway.firebase Gateway.GetSessionData args) s))) ->
      q_order q = None /\ q_limit q = None) /\
  (forall m args (S : Type) (h : handler op S) (s : S) (r : docref) (record : value),
      Gateway.stamping m = true ->
      In (r, record) (written (trace (run h (Gateway.firebase m args) s))) ->
      exists now,
        In now (clock_reads (trace (run h (Gateway.firebase m args) s))) /\
        get record "createdAt" = VStr now) /\
  (forall args (S : Type) (h : handler op S) (s : S) (r : docref) (record : value),
      In (r, record)
         (written (trace (run h (Gateway.firebase Gateway.StoreUserProfile args) s))) ->
      exists now,
        In now (clock_reads
                  (trace (run h (Gateway.firebase Gateway.StoreUserProfile args) s))) /\
        get record "lastUpdated" = VStr now).
Proof.
  split; [|split; [|split]].
  - intros m args Hm. split.
    + intros S h s q Hq.
      exact (all_calls_queries _ h _ s q (limited_read_queries m args Hm) Hq).
    + intros w. apply limited_read_entries, Hm.
  - intros args S h s q Hq.
    exact (all_calls_queries _ h _ s q (session_read_queries args) Hq).
  - intros m args S h s r record Hm Hin.
    destruct (stamping_shape m args Hm) as [segments [extra Hshape]].
    rewrite Hshape in *.
    destruct (store_body_written h segments _ extra s r record Hin) as [s1 [Hres Hincl]].
    destruct (stamped_record h _ extra s1 record Hres) as [_ [_ [_ [now [Hnow Hc]]]]].
    exists now. auto.
  - intros args S h s r record Hin. apply (profile_record h args s r record Hin).
Qed.

(** C3, as stated, fails for the session-data read: it returns the stage
    records of a session in the order of the store (their ids), here the
    oldest first, and it has no limit to truncate to. *)
Lemma session_read_not_recent_first :
  let stages := ["users"; "u1"; "sessions"; "s1"; "stages"] in
  let older := [("stage", VStr "x"); ("timestamp", VStr "2024-01-01T00:00:00.000Z")] in
  let newer := [("stage", VStr "y"); ("timestamp", VStr "2024-02-01T00:00:00.000Z")] in
  let world := Memory.World [(DocRef stages "b", newer); (DocRef stages "a", older)]
                            "2024-05-01T10:00:00.000Z" 1714557600000 0 0
                            Memory.no_faults in
  let entries := [VObj (("id", VStr "a") :: older); VObj (("id", VStr "b") :: newer)] in
  result (run Memory.handle
            (FirebaseMemoryService.getSessionData (VStr "u1") (VStr "s1") (VStr "stages"))
            world)
  = Ok (VObj [("stages", VArr entries)]) /\
  ~ Sorted Memory.newest_first entries.
Proof.
  cbv zeta. split; [reflexivity|].
  intros Hs. inversion Hs as [|x rest _ Hhd]; subst.
  inversion Hhd as [|y tl Hxy]; subst. discriminate Hxy.
Qed.

End ReadsAndWrites.

(** ** The context tool over a memory service that answers by a table *)

Section FixedService.

Import Js Eff Gateway ContextTool.

Context (answers : method -> list value -> outcome value) (now : string).

Let eval {R : Type} (p : prog op R) : outcome R :=
  result (run (Backend.fixed answers now) p tt).

Lemma final_fixed {R : Type} (p : prog op R) :
  final (run (Backend.fixed answers now) p tt) = tt.
Proof. destruct (final _). reflexivity. Qed.

Lemma eval_bind {A B : Type} (p : prog op A) (f : A -> prog op B) :
  eval (bind p f) = match eval p with Ok a => eval (f a) | Err e => Err e end.
Proof.
  unfold eval. rewrite run_bind. rewrite final_fixed.
  destruct (result (run (Backend.fixed answers now) p tt)); reflexivity.
Qed.

Lemma eval_try_catch {A : Type} (p : prog op A) (c : JsError -> prog op A) :
  eval (try_catch p c) = match eval p with Ok a => Ok a | Err e => eval (c e) end.
Proof.
  unfold eval. rewrite run_try_catch. rewrite final_fixed.
  destruct (result (run (Backend.fixed answers now) p tt)) eqn:Hr; [exact Hr | reflexivity].
Qed.

Lemma eval_invoke (m : method) (args : list value) :
  eval (invoke m args) = answers m args.
Proof. unfold eval. cbn. destruct (answers m args); reflexivity. Qed.

Lemma eval_now : eval (call NowISO) = Ok now.
Proof. reflexivity. Qed.

Lemma eval_category (key failed : string) (context : list (string * value))
  (m : method) (args : list value) (section : value -> option (option value)) :
  eval (category key failed context (invoke m args) section)
  = Ok (slot key failed context (answers m args) section).
Proof.
  unfold category. rewrite eval_try_catch, eval_bind, eval_invoke.
  unfold slot. destruct (answers m args) as [v | e]; [|reflexivity].
  rewrite eval_bind. unfold checked.
  destruct (section v) as [[s | ] | ]; reflexivity.
Qed.

Lemma eval_block (wanted : bool) (key failed : string) (context : list (string * value))
  (m : method) (args : list value) (section : value -> option (option value)) :
  eval (if wanted then category key failed context (invoke m args) section
        else Ret context)
  = Ok (filled wanted key failed context (answers m args) section).
Proof. destruct wanted; [apply eval_category | reflexivity]. Qed.

(** [execute] against a table of answers, in closed form. *)
Lemma execute_reply (firebaseService : bool) (parameters : value) :
  eval (execute firebaseService parameters)
  = Ok (reply answers now firebaseService parameters).
Proof.
  unfold execute, reply. rewrite eval_try_catch, eval_bind. unfold checked at 1.
  destruct (member parameters "user_id") as [user_id|]; [|reflexivity].
  cbn [lift]. change (eval (Ret user_id)) with (@Ok value user_id). cbv beta iota zeta.
  destruct (truthy user_id); cbn [negb]; [|reflexivity].
  destruct firebaseService; cbn [negb]; [|reflexivity].
  rewrite eval_bind. unfold resolved_session.
  assert (Hsession :
            eval (if truthy (get parameters "session_id")
                  then Ret (get parameters "session_id")
                  else invoke GetCurrentSessionId [user_id])
            = if truthy (get parameters "session_id")
              then Ok (get parameters "session_id")
              else answers GetCurrentSessionId [user_id]).
  { destruct (truthy (get parameters "session_id")); [reflexivity | apply eval_invoke]. }
  rewrite Hsession. clear Hsession.
  destruct (if truthy (get parameters "session_id") then _ else _)
    as [currentSessionId | error]; [|reflexivity].
  rewrite eval_bind, eval_now.
  rewrite eval_bind, eval_block.
  rewrite eval_bind, eval_block.
  rewrite eval_bind, eval_block.
  rewrite eval_bind, eval_block.
  reflexivity.
Qed.

End FixedService.

Section Isolation.

Import Js Eff Gateway ContextTool.




Lemma stages_section_profile (c1 c2 : list (string * value)) (stages : value) :
  get (VObj c1) "profile" = get (VObj c2) "profile" ->
  stages_section c1 stages = stages_section c2 stages.
Proof. intros H. unfold stages_section. rewrite H. reflexivity. Qed.


(** What [execute] shows of an entry of the history. *)
Local Abbreviation shown :=
  (fun msg : value =>
     VObj [("type", get msg "type");
           ("content",
            VStr (match get msg "content" with
                  | VStr s =>
                      take_chars 200 s
                        ++ (if Nat.ltb 200 (String.length s) then "..." else "")
                  | _ => "undefined"
                  end)%string);
           ("stage", get msg "stage");
           ("timestamp", get msg "timestamp")]).






Lemma conversation_section_not_array (v : value) :
  (forall l, v <> VArr l) -> conversation_section v = None.
Proof. intros H. destruct v; try reflexivity. exfalso. apply (H elems). reflexivity. Qed.






(** C8, as amended.  Two calls of [execute] with the same parameters, naming
    the session, against gateways whose reads answer alike (an unchanged
    gateway state) return results that agree on [success], on [error], on
    [instructions] and on every field of [data] except [data.timestamp],
    which is the time of each call.  (Without [session_id] the session
    identifier comes from [getCurrentSessionId], which derives it from the
    clock.) *)
Theorem repeated_call_agrees_but_for_timestamp
  (answers1 answers2 : method -> list value -> outcome value) (now1 now2 : string)
  (firebaseService : bool) (parameters : value) :
  (forall m args, m <> GetCurrentSessionId -> answers1 m args = answers2 m args) ->
  truthy (get parameters "session_id") = true ->
  exists v1 v2,
    result (run (Backend.fixed answers1 now1) (execute firebaseService parameters) tt)
    = Ok v1 /\
    result (run (Backend.fixed answers2 now2) (execute firebaseService parameters) tt)
    = Ok v2 /\
    get v1 "success" = get v2 "success" /\
    get v1 "error" = get v2 "error" /\
    get v1 "instructions" = get v2 "instructions" /\
    (forall k, k <> "timestamp" -> get (get v1 "data") k = get (get v2 "data") k) /\
    (get v1 "success" = VBool true ->
     get (get v1 "data") "timestamp" = VStr now1 /\
     get (get v2 "data") "timestamp" = VStr now2).
Proof.
  intros Hsame Hsession. rewrite !execute_reply. eexists _, _.
  split; [reflexivity|]. split; [reflexivity|].
  unfold reply.
  destruct (member parameters "user_id") as [user_id|];
    [|repeat split; try reflexivity; discriminate].
  cbv zeta.
  destruct (truthy user_id); cbn [negb];
    [|repeat split; try reflexivity; discriminate].
  destruct firebaseService; cbn [negb];
    [|repeat split; try reflexivity; discriminate].
  unfold resolved_session. rewrite Hsession.
  assert (Hctx : forall ct lim sid,
             gathered answers1 ct user_id lim sid = gathered answers2 ct user_id lim sid).
  { intros ct lim sid. unfold gathered. cbv zeta.
    rewrite !(Hsame GetConversationHistory), !(Hsame GetUserProfile),
      !(Hsame GetUserStageProgressions), !(Hsame GetSessionData) by discriminate.
    reflexivity. }
  rewrite Hctx. repeat split; try reflexivity.
  intros k Hk. cbn.
  destruct (String.eqb k "context"); [reflexivity|].
  destruct (String.eqb_spec k "timestamp"); [contradiction|]. reflexivity.
Qed.

(** C8, as stated, fails: the same call repeated against the same store,
    with the session named, returns a different [data] object, because
    [data.timestamp] is the time of the call. *)
Lemma repeated_call_differs_in_timestamp :
  let parameters := VObj [("user_id", VStr "u1"); ("session_id", VStr "s1")] in
  let first := Memory.World [] "2024-05-01T10:00:00.000Z" 1714557600000 0 0
                            Memory.no_faults in
  let r1 := run Backend.firebase (execute true parameters) first in
  let second := Memory.World (Memory.docs (final r1))
                             "2024-05-01T10:00:05.000Z" 1714557605000 0 0
                             Memory.no_faults in
  let r2 := run Backend.firebase (execute true parameters) second in
  Memory.docs second = Memory.docs first /\
  (exists v1 v2,
      result r1 = Ok v1 /\ result r2 = Ok v2 /\
      get (get v1 "data") "timestamp" = VStr "2024-05-01T10:00:00.000Z" /\
      get (get v2 "data") "timestamp" = VStr "2024-05-01T10:00:05.000Z" /\
      get v1 "data" <> get v2 "data").
Proof.
  cbv zeta. split; [reflexivity|]. eexists _, _.
  split; [vm_compute; reflexivity|]. split; [vm_compute; reflexivity|].
  split; [reflexivity|]. split; [reflexivity|].
  vm_compute. discriminate.
Qed.

End Isolation.

(** ** What the write methods return, and what the reads leave alone *)

Section Returns.

Import Js Eff.

Context {E : Type -> Type}.

Lemma returns_bind {A B : Type} (P : B -> Prop) (p : prog E A) (f : A -> prog E B) :
  (forall a, returns P (f a)) -> returns P (bind p f).
Proof.
  intros Hf. induction p as [a | e | X ev k IH]; simpl.
  - apply Hf.
  - constructor.
  - constructor. intros o. apply IH.
Qed.

Lemma returns_try_catch {A : Type} (P : A -> Prop) (p : prog E A)
  (c : JsError -> prog E A) :
  returns P p -> (forall e, returns P (c e)) -> returns P (try_catch p c).
Proof.
  intros Hp Hc. induction Hp as [r Hr | e | X ev k Hk IH]; simpl.
  - constructor. exact Hr.
  - apply Hc.
  - constructor. exact IH.
Qed.

Lemma returns_run {A S : Type} (P : A -> Prop) (h : handler E S) (p : prog E A)
  (s : S) (v : A) :
  returns P p -> result (run h p s) = Ok v -> P v.
Proof.
  intros Hp. revert s. induction Hp as [r Hr | e | X ev k Hk IH]; intros s; simpl.
  - intros [= <-]. exact Hr.
  - discriminate.
  - destruct (h X ev s) as [o s']. simpl. apply IH.
Qed.

End Returns.

Section WriteResults.

Import Js Eff Firestore.

Lemma failure_has_success (e : JsError) :
  returns Gateway.has_success (FirebaseMemoryService.failure e).
Proof. constructor. eexists _, _. repeat split; reflexivity. Qed.

(** Every write method of the gateway returns an object with a [success]
    flag, whatever the document store does. *)
Lemma write_results_have_success (m : Gateway.method) (args : list value)
  (S : Type) (h : handler op S) (s : S) :
  Gateway.kind_of m = Gateway.Write ->
  exists v, result (run h (Gateway.firebase m args) s) = Ok v /\ Gateway.has_success v.
Proof.
  intros Hm.
  assert (Hshape : exists body,
             Gateway.firebase m args = try_catch body FirebaseMemoryService.failure /\
             strict body /\ returns Gateway.has_success body).
  { destruct m; try discriminate;
      cbv [Gateway.firebase
           FirebaseMemoryService.storeConversation
           FirebaseMemoryService.storeStageProgression
           FirebaseMemoryService.storeUserProfile
           FirebaseMemoryService.clearUserData
           FirebaseMemoryService.storeUserContext
           FirebaseMemoryService.storeSessionStageProgression
           FirebaseMemoryService.storeSessionUserContext
           FirebaseMemoryService.storeBreakthroughMoment
           FirebaseMemoryService.storeTherapeuticTheme
           FirebaseMemoryService.store_in_session];
      eexists; (split; [reflexivity|]); split;
      try (strictness; auto using strict_stamped);
      repeat (apply returns_bind; intros ?);
      constructor; eexists _, _; repeat split; reflexivity. }
  destruct Hshape as [body [-> [Hstrict Hreturns]]].
  destruct (guarded_returns h body FirebaseMemoryService.failure (fun _ => True) s Hstrict)
    as [v [Hv _]].
  { intros e. eexists. split; [reflexivity | exact I]. }
  exists v. split; [exact Hv|].
  revert Hv. apply returns_run.
  apply returns_try_catch; [exact Hreturns | intros e; apply failure_has_success].
Qed.

(** So does every write method of the stand-in services. *)
Lemma mock_write_results_have_success (reason : string) (now_ms : Z)
  (m : Gateway.method) (args : list value) :
  Gateway.kind_of m = Gateway.Write ->
  exists v, Backend.mock reason now_ms m args = Ok v /\ Gateway.has_success v.
Proof.
  intros Hm. unfold Backend.mock. rewrite Hm.
  eexists. split; [reflexivity|]. eexists _, _. repeat split; reflexivity.
Qed.

End WriteResults.

Section ReadsLeaveStore.

Import Js Eff.

Lemma handle_reads_only {X : Type} (ev : Firestore.op X) (w : Memory.world) :
  Firestore.reads_only X ev ->
  Memory.docs (snd (Memory.handle X ev w)) = Memory.docs w.
Proof.
  unfold Memory.handle.
  destruct ev; simpl; try contradiction; intros _;
    try reflexivity;
    destruct (Memory.faults w (Memory.calls w)); reflexivity.
Qed.

(** A body that makes no writing call leaves the documents as they were. *)
Lemma reads_leave_docs {R : Type} (p : prog Firestore.op R) (w : Memory.world) :
  all_calls Firestore.reads_only p ->
  Memory.docs (final (run Memory.handle p w)) = Memory.docs w.
Proof.
  intros Hp. revert w. induction Hp as [r | e | X ev k Hev Hk IH]; intros w; simpl.
  - reflexivity.
  - reflexivity.
  - pose proof (handle_reads_only ev w Hev) as Hd.
    destruct (Memory.handle X ev w) as [o w']. simpl in *. rewrite IH. exact Hd.
Qed.

(** The reading methods of the gateway make no writing call. *)
Lemma reading_methods_read_only (m : Gateway.method) (args : list value) :
  Gateway.reading m = true ->
  all_calls Firestore.reads_only (Gateway.firebase m args).
Proof.
  destruct m; try discriminate; intros _;
    cbv [Gateway.firebase
         FirebaseMemoryService.getConversationHistory
         FirebaseMemoryService.getUserProfile
         FirebaseMemoryService.getUserStageProgressions
         FirebaseMemoryService.getUserContext
         FirebaseMemoryService.getSessionData
         FirebaseMemoryService.session_part
         FirebaseMemoryService.getCurrentSessionId];
    every_call; apply all_calls_call; exact I.
Qed.

(** A route or tool that only calls reading methods leaves the documents of
    the store as they were. *)
Lemma gateway_reads_leave_docs {R : Type} (p : prog Gateway.op R) (w : Memory.world) :
  all_calls Gateway.reads_gateway p ->
  Memory.docs (final (run Backend.firebase p w)) = Memory.docs w.
Proof.
  intros Hp. revert w. induction Hp as [r | e | X ev k Hev Hk IH]; intros w; simpl.
  - reflexivity.
  - reflexivity.
  - destruct ev as [m args | ]; simpl in *.
    + rewrite IH. apply reads_leave_docs, reading_methods_read_only, Hev.
    + apply IH.
Qed.

(** The context tool only reads: a call of [execute] leaves the documents of
    the store as they were. *)
Lemma execute_reads_gateway (firebaseService : bool) (parameters : value) :
  all_calls Gateway.reads_gateway (ContextTool.execute firebaseService parameters).
Proof.
  unfold ContextTool.execute, ContextTool.category, ContextTool.checked, ContextTool.invoke.
  every_call; apply all_calls_call; exact I || reflexivity.
Qed.

Lemma execute_leaves_docs (firebaseService : bool) (parameters : value)
  (w : Memory.world) :
  Memory.docs (final (run Backend.firebase
                        (ContextTool.execute firebaseService parameters) w))
  = Memory.docs w.
Proof. apply gateway_reads_leave_docs, execute_reads_gateway. Qed.

End ReadsLeaveStore.

(** ** The properties at sample inputs *)

Section Witnesses.

Import Js Eff.

(** A store out of reach: [storeConversation] returns the failure. *)
Lemma gateway_never_throws_witness :
  Gateway.kind_of Gateway.StoreConversation <> Gateway.Other /\
  exists v,
    result (run Memory.handle
              (Gateway.firebase Gateway.StoreConversation
                 [VStr "u1"; VObj [("content", VStr "hi")]])
              Sample.unreachable) = Ok v /\
    (some_call_failed
       (trace (run Memory.handle
                 (Gateway.firebase Gateway.StoreConversation
                    [VStr "u1"; VObj [("content", VStr "hi")]])
                 Sample.unreachable)) = true ->
     Gateway.failure_value Gateway.StoreConversation v).
Proof.
  split; [discriminate|].
  apply (gateway_never_throws Gateway.StoreConversation
           [VStr "u1"; VObj [("content", VStr "hi")]] Memory.world Memory.handle
           Sample.unreachable).
  discriminate.
Defined.


(** A store with two conversation entries, read with limit 1. *)
Lemma reads_recent_first_writes_stamped_witness :
  Gateway.limited_read Gateway.GetConversationHistory = true /\
  exists entries,
    result (run Memory.handle
              (Gateway.firebase Gateway.GetConversationHistory [VStr "u1"; VNum 1])
              Sample.talked) = Ok (VArr entries) /\
    Sorted Memory.newest_first entries /\
    (forall n, Gateway.limit_used Gateway.GetConversationHistory [VStr "u1"; VNum 1]
               = VNum n ->
               (List.length entries <= Z.to_nat n)%nat).
Proof.
  split; [reflexivity|].
  apply (proj2 (proj1 reads_recent_first_writes_stamped
                  Gateway.GetConversationHistory [VStr "u1"; VNum 1] eq_refl)).
Defined.

(** A call of the tool with limit 7. *)
Lemma limit_forwarded_unchanged_witness :
  let parameters := VObj [("user_id", VStr "u1"); ("limit", VNum 7)] in
  let args := [VStr "u1"; VNum 7] in
  In (Gateway.GetUserStageProgressions, args)
     (Gateway.invocations
        (trace (run Backend.firebase (ContextTool.execute true parameters) Sample.world))) /\
  (Gateway.GetUserStageProgressions = Gateway.GetConversationHistory \/
   Gateway.GetUserStageProgressions = Gateway.GetUserStageProgressions) /\
  Gateway.arg 1 args = default_arg (get parameters "limit") (VNum 10) /\
  (get parameters "limit" = VUndefined -> Gateway.arg 1 args = VNum 10) /\
  (forall n, get parameters "limit" = VNum n -> (1 <= n <= 50)%Z ->
             exists n', Gateway.arg 1 args = VNum n' /\ (1 <= n' <= 50)%Z).
Proof.
  cbv zeta.
  assert (Hin : In (Gateway.GetUserStageProgressions, [VStr "u1"; VNum 7])
                   (Gateway.invocations
                      (trace (run Backend.firebase
                                (ContextTool.execute true
                                   (VObj [("user_id", VStr "u1"); ("limit", VNum 7)]))
                                Sample.world)))).
  { vm_compute. tauto. }
  split; [exact Hin|]. split; [right; reflexivity|].
  apply (limit_forwarded_unchanged true
           (VObj [("user_id", VStr "u1"); ("limit", VNum 7)])
           Memory.world Backend.firebase Sample.world
           Gateway.GetUserStageProgressions [VStr "u1"; VNum 7] Hin).
  right; reflexivity.
Defined.

(** A conversation write with a Bearer token and a user. *)
Lemma write_route_requires_user_witness :
  let env := Server.Environment (Some "production") None in
  let req := Server.Request [("authorization", "Bearer token")] []
               (VObj [("userUUID", VStr "u1"); ("type", VStr "user");
                      ("content", VStr "hi")]) in
  Server.reaches Server.Conversation env req = true /\
  nullish (Server.body req) = false /\
  (truthy (get (Server.body req) "userUUID") = false ->
   Server.post Server.Conversation env req
   = Ret (Server.Response 400 Server.user_required) /\
   Gateway.invocations
     (trace (run (Gateway.serve Backend.firebase_service)
               (Server.post Server.Conversation env req) Sample.world)) = []) /\
  (truthy (get (Server.body req) "userUUID") = true ->
   Gateway.invocations
     (trace (run (Gateway.serve Backend.firebase_service)
               (Server.post Server.Conversation env req) Sample.world))
   = [(Server.store_of Server.Conversation, Server.store_args Server.Conversation req)]).
Proof.
  cbv zeta. split; [reflexivity|]. split; [reflexivity|].
  apply (write_route_requires_user Server.Conversation
           (Server.Environment (Some "production") None)
           (Server.Request [("authorization", "Bearer token")] []
              (VObj [("userUUID", VStr "u1"); ("type", VStr "user");
                     ("content", VStr "hi")]))
           Memory.world Backend.firebase_service Sample.world); reflexivity.
Defined.

(** A webhook request whose authorization header holds the secret. *)
Lemma webhook_secret_gate_witness :
  let env := Server.Environment None (Some "s3cret") in
  let req := Server.Request [("authorization", "Bearer s3cret")] []
               (VObj [("user_id", VStr "u1"); ("message", VStr "hello")]) in
  Server.configured_secret env = Some "s3cret" /\
  (((exists payload,
        result (run (Gateway.serve Backend.firebase_service)
                  (Server.post_elevenlabs_webhook env req) Sample.world)
        = Ok (Server.Response 401 payload))
    <-> Server.lacks_secret "s3cret" req = true) /\
   (Server.lacks_secret "s3cret" req = true ->
    trace (run (Gateway.serve Backend.firebase_service)
             (Server.post_elevenlabs_webhook env req) Sample.world) = [])).
Proof.
  cbv zeta. split; [reflexivity|].
  exact (webhook_secret_gate
           (Server.Environment None (Some "s3cret"))
           (Server.Request [("authorization", "Bearer s3cret")] []
              (VObj [("user_id", VStr "u1"); ("message", VStr "hello")]))
           Memory.world Backend.firebase_service Sample.world).
Defined.

(** A webhook event without message, over a store out of reach. *)
Lemma webhook_always_acknowledges_witness :
  let env := Server.Environment None None in
  let req := Server.Request [] [] (VObj [("user_id", VStr "u1")]) in
  Server.unauthorized env req = false /\
  nullish (Server.body req) = false /\
  (truthy (get (Server.body req) "message") = false \/
   truthy (get (Server.body req) "user_id") = false ->
   Server.post_elevenlabs_webhook env req
   = Ret (Server.Response 200 Server.acknowledged) /\
   Gateway.invocations
     (trace (run (Gateway.serve Backend.firebase_service)
               (Server.post_elevenlabs_webhook env req) Sample.unreachable)) = []) /\
  result (run (Gateway.serve Backend.firebase_service)
            (Server.post_elevenlabs_webhook env req) Sample.unreachable)
  = Ok (Server.Response 200 Server.acknowledged) /\
  get Server.acknowledged "success" = VBool true.
Proof.
  cbv zeta. split; [reflexivity|]. split; [reflexivity|].
  apply (webhook_always_acknowledges
           (Server.Environment None None)
           (Server.Request [] [] (VObj [("user_id", VStr "u1")]))
           Memory.world Backend.firebase_service Sample.unreachable); reflexivity.
Defined.

(** Two calls of the tool five seconds apart. *)
Lemma repeated_call_agrees_but_for_timestamp_witness :
  let parameters := VObj [("user_id", VStr "u1"); ("session_id", VStr "s1")] in
  (forall m args, m <> Gateway.GetCurrentSessionId ->
                  Sample.profile_down m args = Sample.profile_down m args) /\
  truthy (get parameters "session_id") = true /\
  exists v1 v2,
    result (run (Backend.fixed Sample.profile_down "2024-05-01T10:00:00.000Z")
              (ContextTool.execute true parameters) tt) = Ok v1 /\
    result (run (Backend.fixed Sample.profile_down "2024-05-01T10:00:05.000Z")
              (ContextTool.execute true parameters) tt) = Ok v2 /\
    get v1 "success" = get v2 "success" /\
    get v1 "error" = get v2 "error" /\
    get v1 "instructions" = get v2 "instructions" /\
    (forall k, k <> "timestamp" -> get (get v1 "data") k = get (get v2 "data") k) /\
    (get v1 "success" = VBool true ->
     get (get v1 "data") "timestamp" = VStr "2024-05-01T10:00:00.000Z" /\
     get (get v2 "data") "timestamp" = VStr "2024-05-01T10:00:05.000Z").
Proof.
  cbv zeta. split; [intros; reflexivity|]. split; [reflexivity|].
  apply (repeated_call_agrees_but_for_timestamp
           Sample.profile_down Sample.profile_down
           "2024-05-01T10:00:00.000Z" "2024-05-01T10:00:05.000Z" true
           (VObj [("user_id", VStr "u1"); ("session_id", VStr "s1")]));
    [intros; reflexivity | reflexivity].
Defined.

(** A store out of reach: the failed deletion is answered with status 200. *)
Lemma delete_reports_gateway_result_witness :
  let req := Server.Request [] [("userUUID", "u1")] VUndefined in
  let failure := [("success", VBool false); ("error", VStr "unavailable")] in
  Gateway.answer Backend.firebase_service Gateway.ClearUserData
    [Server.param req "userUUID"] Sample.unreachable
  = (Ok (VObj failure), Memory.counted Sample.unreachable) /\
  has_key "success" failure = true /\
  exists payload,
    result (run (Gateway.serve Backend.firebase_service)
              (Server.delete_memory_user req) Sample.unreachable)
    = Ok (Server.Response 200 payload) /\
    get payload "success" = get (VObj failure) "success".
Proof.
  cbv zeta. split; [reflexivity|]. split; [reflexivity|].
  apply (delete_reports_gateway_result
           (Server.Request [] [("userUUID", "u1")] VUndefined)
           Memory.world Backend.firebase_service
           Sample.unreachable (Memory.counted Sample.unreachable)
           [("success", VBool false); ("error", VStr "unavailable")]); reflexivity.
Defined.

(** A session stage written with a timestamp of the caller. *)
Lemma record_timestamps_witness :
  let data := VObj [("stage", VStr "alpha"); ("timestamp", VStr "2024-04-30T08:00:00.000Z")] in
  let args := [VStr "u1"; VStr "s1"; data] in
  let r := Firestore.DocRef ["users"; "u1"; "sessions"; "s1"; "stages"] "doc0" in
  let record := VObj [("stage", VStr "alpha");
                      ("timestamp", VStr "2024-04-30T08:00:00.000Z");
                      ("sessionId", VStr "s1");
                      ("createdAt", VStr "2024-05-01T10:00:00.000Z")] in
  let t := trace (run Memory.handle
                    (Gateway.firebase Gateway.StoreSessionStageProgression args)
                    Sample.world) in
  Gateway.stamping Gateway.StoreSessionStageProgression = true /\
  In (r, record) (Firestore.written t) /\
  (truthy (get data "timestamp") = true ->
   get record "timestamp" = get data "timestamp") /\
  (truthy (get data "timestamp") = false ->
   exists now, In now (Firestore.clock_reads t) /\ get record "timestamp" = VStr now) /\
  (exists now, In now (Firestore.clock_reads t) /\ get record "createdAt" = VStr now).
Proof.
  cbv zeta.
  assert (Hin : In (Firestore.DocRef ["users"; "u1"; "sessions"; "s1"; "stages"] "doc0",
                    VObj [("stage", VStr "alpha");
                          ("timestamp", VStr "2024-04-30T08:00:00.000Z");
                          ("sessionId", VStr "s1");
                          ("createdAt", VStr "2024-05-01T10:00:00.000Z")])
                   (Firestore.written
                      (trace (run Memory.handle
                                (Gateway.firebase Gateway.StoreSessionStageProgression
                                   [VStr "u1"; VStr "s1";
                                    VObj [("stage", VStr "alpha");
                                          ("timestamp", VStr "2024-04-30T08:00:00.000Z")]])
                                Sample.world)))).
  { left. reflexivity. }
  split; [reflexivity|]. split; [exact Hin|].
  apply (record_timestamps Gateway.StoreSessionStageProgression
           [VStr "u1"; VStr "s1";
            VObj [("stage", VStr "alpha"); ("timestamp", VStr "2024-04-30T08:00:00.000Z")]]
           Memory.world Memory.handle Sample.world _ _ eq_refl Hin).
Defined.

End Witnesses.

(** ** The testable properties of the specification, on the in-memory store *)

Section Scenarios.

Import Js Eff.

Let development := Server.Environment (Some "development") None.

Let say (content : string) : Server.request :=
  Server.Request [] []
    (VObj [("userUUID", VStr "u1"); ("type", VStr "user"); ("content", VStr content)]).

Let later (w : Memory.world) : Memory.world :=
  Memory.World (Memory.docs w) "2024-05-01T10:00:09.000Z" 1714557609000
               (Memory.next_id w) (Memory.calls w) (Memory.faults w).

Let after_two : Memory.world :=
  final (run Backend.firebase (Server.post_memory_conversation development (say "second"))
           (later (final (run Backend.firebase
                            (Server.post_memory_conversation development (say "first"))
                            Sample.world)))).

(** Writing conversation entries and reading the history returns them with
    the identifier and the timestamp the server gave, most recent first. *)
Example write_then_read_history :
  result (run Memory.handle
            (FirebaseMemoryService.getConversationHistory (VStr "u1") VUndefined)
            after_two)
  = Ok (VArr [VObj [("id", VStr "doc1"); ("type", VStr "user");
                    ("content", VStr "second");
                    ("timestamp", VStr "2024-05-01T10:00:09.000Z");
                    ("createdAt", VStr "2024-05-01T10:00:09.000Z")];
              VObj [("id", VStr "doc0"); ("type", VStr "user");
                    ("content", VStr "first");
                    ("timestamp", VStr "2024-05-01T10:00:00.000Z");
                    ("createdAt", VStr "2024-05-01T10:00:00.000Z")]]).
Proof. vm_compute. reflexivity. Qed.

(** The context of a user without data: a default section per category. *)
Example context_of_unknown_user :
  result (run Backend.firebase
            (ContextTool.execute true (VObj [("user_id", VStr "nobody")]))
            Sample.world)
  = Ok (VObj
          [("success", VBool true);
           ("data",
            VObj
              [("user_id", VStr "nobody");
               ("session_id", VStr "session_2024-05-01_1714557600000");
               ("timestamp", VStr "2024-05-01T10:00:00.000Z");
               ("context",
                VObj
                  [("conversations",
                    VObj [("total", VNum 0); ("recent_messages", VArr []);
                          ("summary", VStr "No previous conversation history found.")]);
                   ("stages",
                    VObj [("current_stage", VStr "⊙");
                          ("progression_notes", VStr "Stage progression tracking active");
                          ("total_progressions", VNum 0)]);
                   ("session",
                    VObj [("session_id", VStr "session_2024-05-01_1714557600000");
                          ("stage_progressions", VArr []);
                          ("user_context", VArr []);
                          ("breakthrough_moments", VArr []);
                          ("therapeutic_themes", VArr []);
                          ("summary", VStr "New session, no data recorded yet.")])])]);
           ("instructions",
            VStr "Acknowledge conversation continuity naturally in your response.")]).
Proof. vm_compute. reflexivity. Qed.

(** Only the profile lookup fails: the other sections are there. *)
Example context_when_profile_is_down :
  exists data,
    result (run (Backend.fixed Sample.profile_down "2024-05-01T10:00:00.000Z")
              (ContextTool.execute true
                 (VObj [("user_id", VStr "u1"); ("session_id", VStr "s1")])) tt)
    = Ok (VObj [("success", VBool true); ("data", data);
                ("instructions",
                 VStr ("Reference previous conversation when relevant. "
                         ++ "Build upon established symbolic themes and patterns. "
                         ++ "Acknowledge conversation continuity naturally in your response."))]) /\
    get (get data "context") "profile"
    = VObj [("error", VStr "Failed to retrieve profile")] /\
    get (get (get data "context") "conversations") "total" = VNum 1 /\
    get (get (get data "context") "conversations") "summary"
    = VStr ("Previous sessions: 1 user messages, 0 VASA responses."
              ++ " CSS stages explored: alpha."
              ++ " Recurring themes: contradictions/tensions.") /\
    get (get (get data "context") "stages") "total_progressions" = VNum 1 /\
    get (get (get data "context") "session") "summary"
    = VStr "New session, no data recorded yet.".
Proof. eexists. split; [vm_compute; reflexivity|]. repeat split. Qed.

(** Deleting the data of a user removes the profile and the conversations;
    the reads that follow give the empty history and no profile. *)
Example delete_then_read :
  let with_profile :=
    final (run Backend.firebase
             (Server.post_memory_profile
                (Server.Request [] [] (VObj [("userUUID", VStr "u1"); ("name", VStr "Ada")])))
             after_two) in
  let deleted :=
    run Backend.firebase
        (Server.delete_memory_user (Server.Request [] [("userUUID", "u1")] VUndefined))
        with_profile in
  List.length (Memory.docs with_profile) = 3%nat /\
  result deleted
  = Ok (Server.Response 200 (VObj [("success", VBool true);
                                   ("message", VStr "User data cleared")])) /\
  Memory.docs (final deleted) = [] /\
  result (run Memory.handle
            (FirebaseMemoryService.getConversationHistory (VStr "u1") VUndefined)
            (final deleted)) = Ok (VArr []) /\
  result (run Memory.handle (FirebaseMemoryService.getUserProfile (VStr "u1"))
            (final deleted)) = Ok VNull.
Proof. cbv zeta. repeat split; vm_compute; reflexivity. Qed.

(** A write without [userUUID] is answered 400 and the store is not asked. *)
Example write_without_user :
  run Backend.firebase
      (Server.post_memory_profile (Server.Request [] [] (VObj [("name", VStr "Ada")])))
      Sample.world
  = Run (Ok (Server.Response 400 (VObj [("error", VStr "userUUID is required")])))
        Sample.world [].
Proof. reflexivity. Qed.

(** A webhook event without [message] is acknowledged and nothing is written. *)
Example webhook_without_message :
  run Backend.firebase
      (Server.post_elevenlabs_webhook (Server.Environment None None)
         (Server.Request [] [] (VObj [("user_id", VStr "u1")])))
      Sample.world
  = Run (Ok (Server.Response 200 (VObj [("success", VBool true);
                                        ("message", VStr "Webhook processed")])))
        Sample.world [].
Proof. reflexivity. Qed.

(** A webhook event with all its fields is written as a conversation entry. *)
Example webhook_stores_entry :
  Memory.docs
    (final (run Backend.firebase
              (Server.post_elevenlabs_webhook (Server.Environment None None)
                 (Server.Request [] []
                    (VObj [("user_id", VStr "u1"); ("message", VStr "hi");
                           ("message_type", VStr "user_message");
                           ("agent_id", VStr "a1"); ("conversation_id", VStr "c1")])))
              Sample.world))
  = [(Firestore.DocRef ["users"; "u1"; "conversations"] "doc0",
      [("type", VStr "user"); ("content", VStr "hi");
       ("agent_id", VStr "a1"); ("conversation_id", VStr "c1");
       ("timestamp", VStr "2024-05-01T10:00:00.000Z");
       ("metadata", VObj [("source", VStr "elevenlabs_webhook")]);
       ("createdAt", VStr "2024-05-01T10:00:00.000Z")])].
Proof. vm_compute. reflexivity. Qed.

End Scenarios.

(* ===================================================================== *)
(** * Further properties of the code *)
(* ===================================================================== *)

(** ** The gateway *)

Section GatewayMore.

Import Js Eff Firestore.

Context {S : Type} (h : handler op S).

Lemma some_call_failed_app {E : Type -> Type} (t1 t2 : list (entry E)) :
  some_call_failed (t1 ++ t2) = (some_call_failed t1 || some_call_failed t2)%bool.
Proof. apply existsb_app. Qed.

(** A body under a catch that returns a value always returns. *)
Lemma caught_returns {A : Type} (p : prog op A) (c : JsError -> prog op A) (s : S) :
  (forall e, exists v, c e = Ret v) ->
  exists v, result (run h (try_catch p c) s) = Ok v.
Proof.
  intros Hc. rewrite run_try_catch.
  destruct (result (run h p s)) as [a | e] eqn:Hr; [eauto|].
  destruct (Hc e) as [v ->]. simpl. eauto.
Qed.

(** X1. [healthCheck] never throws: it reports healthy when the test read went
    through and unhealthy, with the message of the failure, otherwise. *)
Theorem healthCheck_reports (s : S) :
  let r := run h FirebaseMemoryService.healthCheck s in
  (some_call_failed (trace r) = false ->
   result r = Ok (VObj [("status", VStr "healthy"); ("service", VStr "firebase")])) /\
  (some_call_failed (trace r) = true ->
   exists msg,
     result r = Ok (VObj [("status", VStr "unhealthy"); ("service", VStr "firebase");
                          ("error", VStr msg)])).
Proof.
  cbv zeta. unfold FirebaseMemoryService.healthCheck. cbn [run try_catch bind call].
  destruct (h _ (Doc _) s) as [[testDoc | e] s1]; cbn;
    [|split; [discriminate | intros _; eexists; reflexivity]].
  destruct (h _ (GetDoc testDoc) s1) as [[snap | e] s2]; cbn; split;
    try discriminate; intros _; try reflexivity; eexists; reflexivity.
Qed.

(** What [stamped] does: with data that is null or undefined it throws
    before any call; otherwise it returns a record unless a clock call
    failed. *)
Lemma stamped_cases (data : value) (extra : list item) (s : S) :
  let r := run h (FirebaseMemoryService.stamped data extra) s in
  (nullish data = true -> trace r = [] /\ exists e, result r = Err e) /\
  (nullish data = false -> some_call_failed (trace r) = false ->
   exists record, result r = Ok record).
Proof.
  cbv zeta.
  unfold FirebaseMemoryService.stamped, FirebaseMemoryService.timestamp_or_now, member.
  destruct (nullish data); cbn [lift bind run result trace].
  - split; [intros _; split; [reflexivity | eauto] | discriminate].
  - split; [discriminate|]. intros _.
    destruct (truthy (get data "timestamp")); cbn [bind call run result final trace].
    + destruct (h _ NowISO s) as [[created | e] s1]; cbn; [eauto | discriminate].
    + destruct (h _ NowISO s) as [[now | e] s1]; cbn; [|discriminate].
      destruct (h _ NowISO s1) as [[created | e] s2]; cbn; [eauto | discriminate].
Qed.

Lemma store_body_once (segments : list value) (data : value) (extra : list item) (s : S) :
  let r := run h (FirebaseMemoryService.store_body segments data extra) s in
  (List.length (written (trace r)) <= 1)%nat /\
  (some_call_failed (trace r) = false -> nullish data = false ->
   exists ref record,
     result r = Ok (FirebaseMemoryService.stored ref) /\
     written (trace r) = [(ref, record)]) /\
  (nullish data = true ->
   written (trace r) = [] /\
   exists msg, result r = Ok (VObj [("success", VBool false); ("error", VStr msg)])).
Proof.
  cbv zeta. unfold FirebaseMemoryService.store_body. rewrite run_try_catch.
  match goal with |- context [run h ?b s] => set (body := b) end.
  assert (Hbody :
            (List.length (written (trace (run h body s))) <= 1)%nat /\
            (some_call_failed (trace (run h body s)) = false -> nullish data = false ->
             exists ref record,
               result (run h body s) = Ok (FirebaseMemoryService.stored ref) /\
               written (trace (run h body s)) = [(ref, record)]) /\
            (nullish data = true ->
             written (trace (run h body s)) = [] /\
             exists e, result (run h body s) = Err e)).
  { subst body. cbn [run bind call].
    destruct (h _ (Collection segments) s) as [[c | e] s1];
      cbn [run bind call result final trace];
      [|cbn; split; [apply Nat.le_0_l | split; [discriminate | eauto]]].
    destruct (h _ (NewDoc c) s1) as [[ref | e] s2];
      cbn [run bind call result final trace];
      [|cbn; split; [apply Nat.le_0_l | split; [discriminate | eauto]]].
    rewrite run_bind.
    pose proof (stamped_writes_nothing h data extra s2) as Hnone.
    pose proof (stamped_cases data extra s2) as [Hnull Hgood].
    destruct (result (run h (FirebaseMemoryService.stamped data extra) s2))
      as [record | e] eqn:Hres.
    - cbn [run bind call].
      destruct (h _ (SetDoc ref record false) _) as [[u | e] s3].
      all: cbn [run bind result final trace].
      all: unfold written in *.
      all: cbn [flat_map written_by ent_call app].
      all: rewrite !flat_map_app, Hnone.
      all: cbn [flat_map written_by ent_call app List.length].
      all: split; [apply Nat.le_refl|]; split.
      all: try (intros Hn; destruct (Hnull Hn) as [_ [e' He']]; discriminate He').
      + intros _ _. eauto.
      + intros Hf. exfalso. revert Hf. unfold some_call_failed.
        cbn [existsb answer_failed ent_answer]. rewrite existsb_app. cbn.
        rewrite Bool.orb_true_r. discriminate.
    - cbn [run result final trace]. unfold written in *.
      cbn [flat_map written_by ent_call app]. rewrite Hnone.
      split; [apply Nat.le_0_l|]. split.
      + intros Hf Hn. exfalso.
        assert (Hst : some_call_failed
                        (trace (run h (FirebaseMemoryService.stamped data extra) s2))
                      = false).
        { revert Hf. unfold some_call_failed. cbn [existsb answer_failed ent_answer].
          cbn [orb]. tauto. }
        destruct (Hgood Hn Hst) as [record Hrec]. discriminate Hrec.
      + intros _. split; [reflexivity | eauto]. }
  destruct Hbody as [Hlen [Hgood Hnull]].
  destruct (result (run h body s)) as [v | e] eqn:Hr.
  - rewrite Hr. split; [exact Hlen|]. split; [exact Hgood|].
    intros Hn. destruct (Hnull Hn) as [_ [e He]]. discriminate He.
  - cbn [FirebaseMemoryService.failure run result final trace]. rewrite !app_nil_r.
    split; [exact Hlen|]. split.
    + intros Hf Hn. destruct (Hgood Hf Hn) as [ref [record [Hres _]]]. discriminate Hres.
    + intros Hn. destruct (Hnull Hn) as [Hw _]. split; [exact Hw|].
      eexists. reflexivity.
Qed.

End GatewayMore.

Section GatewayRecords.

Import Js Eff Firestore.

Lemma stamping_shape_extra (m : Gateway.method) (args : list value) :
  Gateway.stamping m = true ->
  exists segments,
    Gateway.firebase m args
    = FirebaseMemoryService.store_body segments (Gateway.data_arg m args)
        (Gateway.stamping_extra m args).
Proof.
  destruct m; try discriminate; intros _; eexists; reflexivity.
Qed.

(** X2. A write of a conversation, stage, context entry or session
    sub-record makes at most one [setDoc]; when no call failed and the data
    is not null or undefined it makes exactly one and returns
    [{success: true, id}] with the id of the document written; with data
    that is null or undefined it writes nothing and returns the failure. *)
Theorem stamping_write_once (m : Gateway.method) (args : list value)
  (S : Type) (h : handler op S) (s : S) :
  Gateway.stamping m = true ->
  (List.length (written (trace (run h (Gateway.firebase m args) s))) <= 1)%nat /\
  (some_call_failed (trace (run h (Gateway.firebase m args) s)) = false ->
   nullish (Gateway.data_arg m args) = false ->
   exists ref record,
     result (run h (Gateway.firebase m args) s)
     = Ok (VObj [("success", VBool true); ("id", VStr (doc_id ref))]) /\
     written (trace (run h (Gateway.firebase m args) s)) = [(ref, record)]) /\
  (nullish (Gateway.data_arg m args) = true ->
   written (trace (run h (Gateway.firebase m args) s)) = [] /\
   exists msg,
     result (run h (Gateway.firebase m args) s)
     = Ok (VObj [("success", VBool false); ("error", VStr msg)])).
Proof.
  intros Hm. destruct (stamping_shape_extra m args Hm) as [segments ->].
  apply store_body_once.
Qed.

(** The record [stamped] returns, field by field. *)
Lemma stamped_shape {S : Type} (h : handler op S) (data : value) (extra : list item)
  (s : S) (record : value) :
  result (run h (FirebaseMemoryService.stamped data extra) s) = Ok record ->
  exists timestamp created,
    record = object (Spread data :: extra
                       ++ [Field "timestamp" timestamp; Field "createdAt" created])%list.
Proof.
  unfold FirebaseMemoryService.stamped, FirebaseMemoryService.timestamp_or_now, member.
  destruct (nullish data); cbn [lift bind run result]; [discriminate|].
  destruct (truthy (get data "timestamp")); cbn [bind call run result final trace].
  - destruct (h _ NowISO s) as [[created | e] s1]; cbn; [|discriminate].
    intros [= <-]. eexists _, _. reflexivity.
  - destruct (h _ NowISO s) as [[now | e] s1]; cbn; [|discriminate].
    destruct (h _ NowISO s1) as [[created | e] s2]; cbn; [|discriminate].
    intros [= <-]. eexists _, _. reflexivity.
Qed.

Lemma get_stamped_other (data : value) (extra : list item) (timestamp created : value)
  (k : string) :
  k <> "timestamp" -> k <> "createdAt" ->
  get (object (Spread data :: extra
                 ++ [Field "timestamp" timestamp; Field "createdAt" created])%list) k
  = get (object (Spread data :: extra)) k.
Proof.
  intros Ht Hc. rewrite stamped_items.
  rewrite get_object_before by exact Hc.
  rewrite get_object_before by exact Ht. reflexivity.
Qed.

Lemma get_spread_only (fields : list (string * value)) (k : string) :
  get (object [Spread (VObj fields)]) k = get (VObj fields) k.
Proof.
  unfold object. simpl. rewrite lookup_spread. destruct (lookup k fields); reflexivity.
Qed.

(** X3. The record written for a session (stage, context, breakthrough,
    theme) carries the session identifier of the call as [sessionId], also
    when the data has a [sessionId] of its own. *)
Theorem session_record_keeps_session (m : Gateway.method) (args : list value)
  (S : Type) (h : handler op S) (s : S) (r : docref) (record : value) :
  Gateway.session_write m = true ->
  In (r, record) (written (trace (run h (Gateway.firebase m args) s))) ->
  get record "sessionId" = Gateway.arg 1 args.
Proof.
  intros Hm Hin.
  assert (Hs : Gateway.stamping m = true) by (destruct m; try discriminate; reflexivity).
  destruct (stamping_shape_extra m args Hs) as [segments Hshape].
  rewrite Hshape in Hin. unfold Gateway.stamping_extra in Hin. rewrite Hm in Hin.
  destruct (store_body_written h segments _ _ s r record Hin) as [s1 [Hres _]].
  destruct (stamped_shape h _ _ s1 record Hres) as [timestamp [created ->]].
  rewrite get_stamped_other by discriminate.
  apply (get_object_last [Spread (Gateway.data_arg m args)]).
Qed.

(** X4. The record written keeps every field of the caller's data other
    than [timestamp], [createdAt] and, for a session record, [sessionId]. *)
Theorem record_keeps_caller_fields (m : Gateway.method) (args : list value)
  (S : Type) (h : handler op S) (s : S) (r : docref) (record : value)
  (fields : list (string * value)) (k : string) :
  Gateway.stamping m = true ->
  In (r, record) (written (trace (run h (Gateway.firebase m args) s))) ->
  Gateway.data_arg m args = VObj fields ->
  k <> "timestamp" -> k <> "createdAt" -> k <> "sessionId" ->
  get record k = get (VObj fields) k.
Proof.
  intros Hs Hin Hdata Ht Hc Hsid.
  destruct (stamping_shape_extra m args Hs) as [segments Hshape].
  rewrite Hshape in Hin.
  destruct (store_body_written h segments _ _ s r record Hin) as [s1 [Hres _]].
  destruct (stamped_shape h _ _ s1 record Hres) as [timestamp [created ->]].
  rewrite get_stamped_other by assumption. rewrite Hdata.
  unfold Gateway.stamping_extra. destruct (Gateway.session_write m).
  - etransitivity; [|apply get_spread_only].
    apply (get_object_before [Spread (VObj fields)]). exact Hsid.
  - apply get_spread_only.
Qed.

Lemma all_calls_merges {R S : Type} (b : bool) (h : handler op S) (p : prog op R)
  (s : S) (b' : bool) :
  all_calls (merges_as b) p ->
  In b' (merges (trace (run h p s))) ->
  b' = b.
Proof.
  intros Hp Hin. unfold merges in Hin. apply in_flat_map in Hin.
  destruct Hin as [e [He Hb]].
  pose proof (all_calls_trace (merges_as b) h p s Hp e He) as HP.
  destruct e as [X ev ans]. unfold merge_of in Hb. simpl in *.
  destruct ev; simpl in Hb; try contradiction.
  destruct Hb as [<- | []]. exact HP.
Qed.

Lemma write_merges (m : Gateway.method) (args : list value) :
  Gateway.kind_of m = Gateway.Write ->
  all_calls (merges_as (Gateway.merging m)) (Gateway.firebase m args).
Proof.
  destruct m; try discriminate; intros _;
    cbv [Gateway.firebase
         FirebaseMemoryService.storeConversation
         FirebaseMemoryService.storeStageProgression
         FirebaseMemoryService.storeUserProfile
         FirebaseMemoryService.clearUserData
         FirebaseMemoryService.storeUserContext
         FirebaseMemoryService.storeSessionStageProgression
         FirebaseMemoryService.storeSessionUserContext
         FirebaseMemoryService.storeBreakthroughMoment
         FirebaseMemoryService.storeTherapeuticTheme
         FirebaseMemoryService.store_in_session
         FirebaseMemoryService.stamped
         FirebaseMemoryService.timestamp_or_now];
    every_call; apply all_calls_call; simpl; auto.
Qed.

(** X5. The profile write always merges into the stored profile
    ([{merge: true}]), and no other write of the gateway merges: records
    are created, the profile is updated in place. *)
Theorem only_profile_write_merges (m : Gateway.method) (args : list value)
  (S : Type) (h : handler op S) (s : S) (merge : bool) :
  Gateway.kind_of m = Gateway.Write ->
  In merge (merges (trace (run h (Gateway.firebase m args) s))) ->
  merge = Gateway.merging m.
Proof.
  intros Hm Hin. exact (all_calls_merges _ h _ s merge (write_merges m args Hm) Hin).
Qed.

(** X6. A reading method of the gateway makes no writing call ([setDoc] or a
    batch commit), whatever the store answers. *)
Theorem reads_never_write (m : Gateway.method) (args : list value)
  (S : Type) (h : handler op S) (s : S) (e : entry op) :
  Gateway.reading m = true ->
  In e (trace (run h (Gateway.firebase m args) s)) ->
  reads_only _ (ent_call e).
Proof.
  intros Hm Hin.
  exact (all_calls_trace reads_only h _ s (reading_methods_read_only m args Hm) e Hin).
Qed.

(** X7. An entry of a read has the identifier of its document as [id],
    unless the document stores a field [id] of its own, which then hides
    it; every other field is as stored. *)
Theorem entry_fields (d : docsnap) (k : string) :
  get (FirebaseMemoryService.entry_of d) k
  = if String.eqb k "id"
    then (match lookup "id" (snap_fields d) with
          | Some stored => stored
          | None => VStr (doc_id (snap_ref d))
          end)
    else get (VObj (snap_fields d)) k.
Proof.
  destruct (String.eqb_spec k "id") as [-> | Hk].
  - unfold FirebaseMemoryService.entry_of, object. simpl. rewrite lookup_spread.
    destruct (lookup "id" (snap_fields d)); reflexivity.
  - unfold FirebaseMemoryService.entry_of. apply get_over_spread. exact Hk.
Qed.

(** X8. A session identifier made by [getCurrentSessionId] starts with
    [session_] and is never empty (so it is truthy); over a store whose
    clock works the method always returns one. *)
Theorem session_id_shape (userUUID : value) :
  (forall (S : Type) (h : handler op S) (s : S) (v : value),
      result (run h (FirebaseMemoryService.getCurrentSessionId userUUID) s) = Ok v ->
      (exists rest, v = VStr ("session_" ++ rest)) /\ truthy v = true) /\
  (forall w : Memory.world,
      result (run Memory.handle (FirebaseMemoryService.getCurrentSessionId userUUID) w)
      = Ok (VStr ("session_" ++ before_char "T"%char (Memory.now_iso w) ++ "_"
                    ++ dec (Memory.now_ms w)))).
Proof.
  split.
  - intros S h s v. unfold FirebaseMemoryService.getCurrentSessionId.
    cbn [run try_catch bind call].
    destruct (h _ NowISO s) as [[now | e] s1]; cbn.
    + destruct (h _ DateNow s1) as [[ms | e] s2]; cbn.
      * intros [= <-]. split; [eexists; reflexivity | reflexivity].
      * destruct (h _ DateNow s2) as [[ms | e'] s3]; cbn; [|discriminate].
        intros [= <-]. split; [eexists; reflexivity | reflexivity].
    + destruct (h _ DateNow s1) as [[ms | e'] s2]; cbn; [|discriminate].
      intros [= <-]. split; [eexists; reflexivity | reflexivity].
  - intros w. reflexivity.
Qed.

End GatewayRecords.

Section SessionData.

Import Js Eff Firestore.

Context {S : Type} (h : handler op S).

Lemma result_bind {A B : Type} (p : prog op A) (f : A -> prog op B) (s : S) :
  result (run h (bind p f) s)
  = match result (run h p s) with
    | Ok a => result (run h (f a) (final (run h p s)))
    | Err e => Err e
    end.
Proof. rewrite run_bind. destruct (result (run h p s)); reflexivity. Qed.

Lemma trace_bind {A B : Type} (p : prog op A) (f : A -> prog op B) (s : S) :
  trace (run h (bind p f) s)
  = (trace (run h p s)
       ++ match result (run h p s) with
          | Ok a => trace (run h (f a) (final (run h p s)))
          | Err _ => []
          end)%list.
Proof.
  rewrite run_bind. destruct (result (run h p s)); simpl; [reflexivity|].
  rewrite app_nil_r. reflexivity.
Qed.

(** One block of [getSessionData]: not selected, it does nothing; selected
    and not failing, it sets its key to a list. *)
Lemma session_part_run (sub : string) (userUUID sessionId dataType : value)
  (acc : list (string * value)) (s : S) :
  let selected := (is_str dataType "all" || is_str dataType sub)%bool in
  let r := run h (FirebaseMemoryService.session_part sub userUUID sessionId dataType acc) s in
  (selected = false -> result r = Ok acc /\ trace r = []) /\
  (selected = true -> some_call_failed (trace r) = false ->
   exists entries, result r = Ok (set acc sub (VArr entries))) /\
  (some_call_failed (trace r) = true -> exists e, result r = Err e).
Proof.
  cbv zeta. unfold FirebaseMemoryService.session_part.
  destruct (is_str dataType "all" || is_str dataType sub)%bool.
  - cbn [run bind call].
    destruct (h _ (Collection _) s) as [[c | e] s1]; cbn;
      [|split; [discriminate | split; [discriminate | eauto]]].
    destruct (h _ (GetDocs _) s1) as [[snaps | e] s2]; cbn;
      (split; [discriminate | split; [|try discriminate; eauto]]);
      try discriminate.
    intros _ _. eexists. reflexivity.
  - cbn. split; [auto|]. split; discriminate.
Qed.

Lemma has_key_set (k' k : string) (v : value) (fs : list (string * value)) :
  has_key k' (set fs k v) = (String.eqb k' k || has_key k' fs)%bool.
Proof.
  unfold has_key. rewrite lookup_set. destruct (String.eqb k' k); reflexivity.
Qed.

(** X9. When no call fails, [getSessionData] returns an object that has the
    key of a sub-collection exactly when the data type selects it: all four
    for 'all' (the default), one for 'stages', 'context', 'breakthroughs' or
    'themes', and none, without any call, for anything else. *)
Theorem session_data_selects (userUUID sessionId dataType : value) (s : S) :
  let r := run h (FirebaseMemoryService.getSessionData userUUID sessionId dataType) s in
  some_call_failed (trace r) = false ->
  exists fields,
    result r = Ok (VObj fields) /\
    (forall k, has_key k fields
               = (existsb (String.eqb k) FirebaseMemoryService.session_parts
                  && FirebaseMemoryService.selects dataType k)%bool) /\
    (forallb (fun sub => negb (FirebaseMemoryService.selects dataType sub))
             FirebaseMemoryService.session_parts = true ->
     trace r = []).
Proof.
  cbv zeta. unfold FirebaseMemoryService.getSessionData, FirebaseMemoryService.selects.
  set (dt := default_arg dataType (VStr "all")).
  rewrite run_try_catch.
  match goal with |- context [run h ?b s] => set (body := b) end.
  assert (Hbody :
            some_call_failed (trace (run h body s)) = false ->
            exists fields,
              result (run h body s) = Ok (VObj fields) /\
              (forall k, has_key k fields
                         = (existsb (String.eqb k) FirebaseMemoryService.session_parts
                            && (is_str dt "all" || is_str dt k))%bool) /\
              (forallb (fun sub => negb (is_str dt "all" || is_str dt sub))
                       FirebaseMemoryService.session_parts = true ->
               trace (run h body s) = [])).
  { subst body.
    pose proof (session_part_run "stages" userUUID sessionId dt [] s) as H1.
    cbv zeta in H1. destruct H1 as [H1n [H1s _]].
    rewrite trace_bind, result_bind, some_call_failed_app.
    intros Hf. apply Bool.orb_false_iff in Hf. destruct Hf as [Hf1 Hf].
    assert (E1 : exists a1,
               result (run h (FirebaseMemoryService.session_part "stages" userUUID
                                sessionId dt []) s) = Ok a1 /\
               (forall k, has_key k a1
                          = (String.eqb k "stages" && (is_str dt "all" || is_str dt "stages"))%bool) /\
               ((is_str dt "all" || is_str dt "stages")%bool = false ->
                trace (run h (FirebaseMemoryService.session_part "stages" userUUID
                                sessionId dt []) s) = [])).
    { destruct (is_str dt "all" || is_str dt "stages")%bool eqn:Hsel.
      - destruct (H1s eq_refl Hf1) as [entries Hr]. eexists. split; [exact Hr|].
        split; [|discriminate]. intros k. rewrite has_key_set.
        rewrite Bool.andb_true_r, Bool.orb_false_r. reflexivity.
      - destruct (H1n eq_refl) as [Hr Ht]. eexists. split; [exact Hr|].
        split; [|auto]. intros k. rewrite Bool.andb_false_r. reflexivity. }
    destruct E1 as [a1 [Hr1 [Hk1 Ht1]]]. rewrite Hr1 in *.
    set (s1 := final (run h (FirebaseMemoryService.session_part "stages" userUUID
                               sessionId dt []) s)) in *.
    pose proof (session_part_run "context" userUUID sessionId dt a1 s1) as H2.
    cbv zeta in H2. destruct H2 as [H2n [H2s _]].
    rewrite trace_bind, result_bind, some_call_failed_app in *.
    apply Bool.orb_false_iff in Hf. destruct Hf as [Hf2 Hf].
    assert (E2 : exists a2,
               result (run h (FirebaseMemoryService.session_part "context" userUUID
                                sessionId dt a1) s1) = Ok a2 /\
               (forall k, has_key k a2
                          = ((String.eqb k "context" && (is_str dt "all" || is_str dt "context"))
                             || has_key k a1)%bool) /\
               ((is_str dt "all" || is_str dt "context")%bool = false ->
                trace (run h (FirebaseMemoryService.session_part "context" userUUID
                                sessionId dt a1) s1) = [])).
    { destruct (is_str dt "all" || is_str dt "context")%bool eqn:Hsel.
      - destruct (H2s eq_refl Hf2) as [entries Hr]. eexists. split; [exact Hr|].
        split; [|discriminate]. intros k. rewrite has_key_set.
        rewrite Bool.andb_true_r. reflexivity.
      - destruct (H2n eq_refl) as [Hr Ht]. eexists. split; [exact Hr|].
        split; [|auto]. intros k. rewrite Bool.andb_false_r. reflexivity. }
    destruct E2 as [a2 [Hr2 [Hk2 Ht2]]]. rewrite Hr2 in *.
    set (s2 := final (run h (FirebaseMemoryService.session_part "context" userUUID
                               sessionId dt a1) s1)) in *.
    pose proof (session_part_run "breakthroughs" userUUID sessionId dt a2 s2) as H3.
    cbv zeta in H3. destruct H3 as [H3n [H3s _]].
    rewrite trace_bind, result_bind, some_call_failed_app in *.
    apply Bool.orb_false_iff in Hf. destruct Hf as [Hf3 Hf].
    assert (E3 : exists a3,
               result (run h (FirebaseMemoryService.session_part "breakthroughs" userUUID
                                sessionId dt a2) s2) = Ok a3 /\
               (forall k, has_key k a3
                          = ((String.eqb k "breakthroughs"
                              && (is_str dt "all" || is_str dt "breakthroughs"))
                             || has_key k a2)%bool) /\
               ((is_str dt "all" || is_str dt "breakthroughs")%bool = false ->
                trace (run h (FirebaseMemoryService.session_part "breakthroughs" userUUID
                                sessionId dt a2) s2) = [])).
    { destruct (is_str dt "all" || is_str dt "breakthroughs")%bool eqn:Hsel.
      - destruct (H3s eq_refl Hf3) as [entries Hr]. eexists. split; [exact Hr|].
        split; [|discriminate]. intros k. rewrite has_key_set.
        rewrite Bool.andb_true_r. reflexivity.
      - destruct (H3n eq_refl) as [Hr Ht]. eexists. split; [exact Hr|].
        split; [|auto]. intros k. rewrite Bool.andb_false_r. reflexivity. }
    destruct E3 as [a3 [Hr3 [Hk3 Ht3]]]. rewrite Hr3 in *.
    set (s3 := final (run h (FirebaseMemoryService.session_part "breakthroughs" userUUID
                               sessionId dt a2) s2)) in *.
    pose proof (session_part_run "themes" userUUID sessionId dt a3 s3) as H4.
    cbv zeta in H4. destruct H4 as [H4n [H4s _]].
    rewrite trace_bind, result_bind, some_call_failed_app in *.
    apply Bool.orb_false_iff in Hf. destruct Hf as [Hf4 _].
    assert (E4 : exists a4,
               result (run h (FirebaseMemoryService.session_part "themes" userUUID
                                sessionId dt a3) s3) = Ok a4 /\
               (forall k, has_key k a4
                          = ((String.eqb k "themes" && (is_str dt "all" || is_str dt "themes"))
                             || has_key k a3)%bool) /\
               ((is_str dt "all" || is_str dt "themes")%bool = false ->
                trace (run h (FirebaseMemoryService.session_part "themes" userUUID
                                sessionId dt a3) s3) = [])).
    { destruct (is_str dt "all" || is_str dt "themes")%bool eqn:Hsel.
      - destruct (H4s eq_refl Hf4) as [entries Hr]. eexists. split; [exact Hr|].
        split; [|discriminate]. intros k. rewrite has_key_set.
        rewrite Bool.andb_true_r. reflexivity.
      - destruct (H4n eq_refl) as [Hr Ht]. eexists. split; [exact Hr|].
        split; [|auto]. intros k. rewrite Bool.andb_false_r. reflexivity. }
    destruct E4 as [a4 [Hr4 [Hk4 Ht4]]]. rewrite Hr4 in *.
    exists a4. split; [reflexivity|]. split.
    - intros k. rewrite Hk4, Hk3, Hk2, Hk1.
      unfold FirebaseMemoryService.session_parts. cbn [existsb].
      destruct (String.eqb_spec k "stages") as [E1 | E1];
        [subst k; cbn; destruct (is_str dt "all"), (is_str dt "stages"); reflexivity|].
      destruct (String.eqb_spec k "context") as [E2 | E2];
        [subst k; cbn; destruct (is_str dt "all"), (is_str dt "context"); reflexivity|].
      destruct (String.eqb_spec k "breakthroughs") as [E3 | E3];
        [subst k; cbn; destruct (is_str dt "all"), (is_str dt "breakthroughs");
         reflexivity|].
      destruct (String.eqb_spec k "themes") as [E4 | E4];
        [subst k; cbn; destruct (is_str dt "all"), (is_str dt "themes"); reflexivity|].
      reflexivity.
    - unfold FirebaseMemoryService.session_parts. cbn [forallb].
      intros Hnone. apply Bool.andb_true_iff in Hnone. destruct Hnone as [N1 Hnone].
      apply Bool.andb_true_iff in Hnone. destruct Hnone as [N2 Hnone].
      apply Bool.andb_true_iff in Hnone. destruct Hnone as [N3 Hnone].
      apply Bool.andb_true_iff in Hnone. destruct Hnone as [N4 _].
      apply Bool.negb_true_iff in N1, N2, N3, N4.
      rewrite (Ht1 N1), (Ht2 N2), (Ht3 N3), (Ht4 N4). reflexivity. }
  destruct (result (run h body s)) as [v | e] eqn:Hr.
  - rewrite Hr. exact Hbody.
  - cbn [run result final trace]. rewrite app_nil_r. intros Hf.
    destruct (Hbody Hf) as [fields [Hres _]]. discriminate Hres.
Qed.

End SessionData.

Section ClearScope.

Import Js Eff Firestore.

Lemma path_eqb_eq (p q : list string) : Memory.path_eqb p q = true <-> p = q.
Proof.
  unfold Memory.path_eqb. destruct (list_eq_dec String.string_dec p q); split;
    congruence.
Qed.

Lemma ref_eqb_eq (r1 r2 : docref) : Memory.ref_eqb r1 r2 = true <-> r1 = r2.
Proof.
  unfold Memory.ref_eqb. rewrite Bool.andb_true_iff, path_eqb_eq, String.eqb_eq.
  destruct r1, r2; simpl. split; [intros [-> ->]; reflexivity | intros [= -> ->]; auto].
Qed.

(** What a query without order and limit returns: the documents of the
    collection, all of them. *)
Lemma get_docs_plain (c : collref) (w : Memory.world) :
  exists snaps,
    Memory.get_docs (plain c) w = Ok snaps /\
    (forall sn, In sn snaps -> doc_parent (snap_ref sn) = coll_path c) /\
    (forall d, In d (Memory.docs w) -> doc_parent (fst d) = coll_path c ->
               In (fst d) (map snap_ref snaps)).
Proof.
  unfold Memory.get_docs, plain. cbn [q_order q_limit q_coll].
  eexists. split; [reflexivity|]. split.
  - intros sn Hin.
    apply (Permutation_in _ (Permutation_sym (isort_perm Memory.by_id _))) in Hin.
    apply in_map_iff in Hin. destruct Hin as [d [<- Hd]].
    apply filter_In in Hd. destruct Hd as [_ Hp]. apply path_eqb_eq in Hp. exact Hp.
  - intros d Hd Hp. apply in_map_iff. exists (Snap (fst d) (snd d)). split; [reflexivity|].
    apply (Permutation_in _ (isort_perm Memory.by_id _)).
    apply in_map_iff. exists d. split; [reflexivity|].
    apply filter_In. split; [exact Hd | apply path_eqb_eq; exact Hp].
Qed.

Lemma get_docs_same_docs (q : query) (w1 w2 : Memory.world) :
  Memory.docs w1 = Memory.docs w2 -> Memory.get_docs q w1 = Memory.get_docs q w2.
Proof. intros H. unfold Memory.get_docs. rewrite H. reflexivity. Qed.

Opaque Memory.get_docs Memory.doc Memory.collection.

Ltac clear_failed := left; split; [reflexivity | eexists; reflexivity].

Ltac same_docs w :=
  repeat match goal with
         | |- context [Memory.get_docs ?q (Memory.counted ?w1)] =>
             rewrite (get_docs_same_docs q (Memory.counted w1) w eq_refl)
         end.

(** The documents after [clearUserData]: as before, or, when it reports
    success, the documents outside the committed batch. *)
Lemma clearUserData_final (userUUID : value) (w : Memory.world) :
  let r := run Memory.handle (FirebaseMemoryService.clearUserData userUUID) w in
  (Memory.docs (final r) = Memory.docs w /\
   exists msg, result r = Ok (VObj [("success", VBool false); ("error", VStr msg)])) \/
  (result r = Ok (VObj [("success", VBool true)]) /\
   exists userRef conversationsRef stagesRef conversations stages,
     Memory.doc [VStr "users"; userUUID] = Ok userRef /\
     Memory.collection [VStr "users"; userUUID; VStr "conversations"]
     = Ok conversationsRef /\
     Memory.collection [VStr "users"; userUUID; VStr "stages"] = Ok stagesRef /\
     Memory.get_docs (plain conversationsRef) w = Ok conversations /\
     Memory.get_docs (plain stagesRef) w = Ok stages /\
     Memory.docs (final r)
     = filter (fun d => negb (existsb (Memory.ref_eqb (fst d))
                                ((userRef :: map snap_ref conversations)
                                   ++ map snap_ref stages)))
              (Memory.docs w)).
Proof.
  cbv zeta. unfold FirebaseMemoryService.clearUserData.
  cbn [run try_catch bind call Memory.handle Memory.is_clock Memory.perform].
  destruct (Memory.faults w (Memory.calls w)) as [e | ]; cbn; [clear_failed|].
  destruct (Memory.doc [VStr "users"; userUUID]) as [userRef | e]; cbn; [|clear_failed].
  destruct (Memory.faults w (Datatypes.S (Memory.calls w))) as [e | ]; cbn;
    [clear_failed|].
  destruct (Memory.collection [VStr "users"; userUUID; VStr "conversations"])
    as [conversationsRef | e]; cbn; [|clear_failed].
  destruct (Memory.faults w (Datatypes.S (Datatypes.S (Memory.calls w)))) as [e | ]; cbn;
    [clear_failed|].
  destruct (get_docs_plain conversationsRef w) as [conversations [Hc _]].
  same_docs w. rewrite Hc. cbn.
  destruct (Memory.faults w (Datatypes.S (Datatypes.S (Datatypes.S (Memory.calls w)))))
    as [e | ]; cbn; [clear_failed|].
  destruct (Memory.collection [VStr "users"; userUUID; VStr "stages"])
    as [stagesRef | e]; cbn; [|clear_failed].
  destruct (get_docs_plain stagesRef w) as [stages [Hs _]].
  destruct (Memory.faults w
              (Datatypes.S (Datatypes.S (Datatypes.S (Datatypes.S (Memory.calls w))))))
    as [e | ]; cbn; [clear_failed|].
  same_docs w. rewrite Hs. cbn.
  destruct (Memory.faults w
              (Datatypes.S
                 (Datatypes.S (Datatypes.S (Datatypes.S (Datatypes.S (Memory.calls w)))))))
    as [e | ]; cbn; [clear_failed|].
  right. split; [reflexivity|].
  exists userRef, conversationsRef, stagesRef, conversations, stages.
  repeat split; first [reflexivity | assumption].
Qed.

Transparent Memory.get_docs Memory.doc Memory.collection.

Lemma batch_member (userRef : docref) (conversationsRef stagesRef : collref)
  (w : Memory.world) (conversations stages : list docsnap) (r : docref) :
  Memory.get_docs (plain conversationsRef) w = Ok conversations ->
  Memory.get_docs (plain stagesRef) w = Ok stages ->
  In r (map fst (Memory.docs w)) ->
  existsb (Memory.ref_eqb r)
          ((userRef :: map snap_ref conversations) ++ map snap_ref stages) = true
  <-> (r = userRef \/
       doc_parent r = coll_path conversationsRef \/
       doc_parent r = coll_path stagesRef).
Proof.
  intros Hc Hs Hr.
  destruct (get_docs_plain conversationsRef w) as [c [Hc' [Hc1 Hc2]]].
  destruct (get_docs_plain stagesRef w) as [s [Hs' [Hs1 Hs2]]].
  rewrite Hc in Hc'. rewrite Hs in Hs'. injection Hc' as <-. injection Hs' as <-.
  apply in_map_iff in Hr. destruct Hr as [d [<- Hd]].
  rewrite existsb_exists. split.
  - intros [r' [Hin Heq]]. apply ref_eqb_eq in Heq. subst r'.
    apply in_app_or in Hin. destruct Hin as [[Hu | Hin] | Hin].
    + left. symmetry. exact Hu.
    + right; left. apply in_map_iff in Hin. destruct Hin as [sn [<- Hsn]].
      apply (Hc1 sn Hsn).
    + right; right. apply in_map_iff in Hin. destruct Hin as [sn [<- Hsn]].
      apply (Hs1 sn Hsn).
  - intros H. exists (fst d). split; [|apply ref_eqb_eq; reflexivity].
    apply in_or_app. destruct H as [H | [H | H]].
    + left. left. symmetry. exact H.
    + left. right. apply (Hc2 d Hd H).
    + right. apply (Hs2 d Hd H).
Qed.

(** X10. [clearUserData] deletes at most the document that the path
    [users/<userUUID>] addresses and the documents of the collections that
    [users/<userUUID>/conversations] and [users/<userUUID>/stages] address
    (the client splits the identifier on its slashes): any other document
    of the store, such as the context entries and session records of the
    same user or another user's data, is still there afterwards with the
    same fields, whatever the call reports. *)
Theorem clearUserData_scope (userUUID : value) (w : Memory.world)
  (d : docref * list (string * value)) :
  In d (Memory.docs w) ->
  Memory.doc [VStr "users"; userUUID] <> Ok (fst d) ->
  (forall conversationsRef,
      Memory.collection [VStr "users"; userUUID; VStr "conversations"]
      = Ok conversationsRef ->
      doc_parent (fst d) <> coll_path conversationsRef) ->
  (forall stagesRef,
      Memory.collection [VStr "users"; userUUID; VStr "stages"] = Ok stagesRef ->
      doc_parent (fst d) <> coll_path stagesRef) ->
  In d (Memory.docs
          (final (run Memory.handle (FirebaseMemoryService.clearUserData userUUID) w))).
Proof.
  intros Hd Huser Hconv Hstage.
  destruct (clearUserData_final userUUID w)
    as [[Hsame _] | [_ [userRef [cRef [sRef [c [s [Hu [Hcr [Hsr [Hc [Hs Hdocs]]]]]]]]]]]].
  - rewrite Hsame. exact Hd.
  - rewrite Hdocs. apply filter_In. split; [exact Hd|].
    apply Bool.negb_true_iff. apply Bool.not_true_is_false. intros Hin.
    apply (batch_member userRef cRef sRef w c s (fst d) Hc Hs) in Hin.
    + destruct Hin as [H | [H | H]].
      * apply Huser. rewrite Hu, H. reflexivity.
      * exact (Hconv cRef Hcr H).
      * exact (Hstage sRef Hsr H).
    + apply in_map. exact Hd.
Qed.

(** X11. [clearUserData] is all or nothing.  Either it reports
    [success: false] with a message and the store holds the documents it
    held before, or it reports [success: true], the three paths
    [users/<userUUID>], [users/<userUUID>/conversations] and
    [users/<userUUID>/stages] address a document and two collections, and
    the store holds the documents it held before except that document and
    the documents of those two collections, none of which is left. *)
Theorem clearUserData_all_or_nothing (userUUID : value) (w : Memory.world) :
  let r := run Memory.handle (FirebaseMemoryService.clearUserData userUUID) w in
  (Memory.docs (final r) = Memory.docs w /\
   exists msg, result r = Ok (VObj [("success", VBool false); ("error", VStr msg)])) \/
  (result r = Ok (VObj [("success", VBool true)]) /\
   exists userRef conversationsRef stagesRef,
     Memory.doc [VStr "users"; userUUID] = Ok userRef /\
     Memory.collection [VStr "users"; userUUID; VStr "conversations"]
     = Ok conversationsRef /\
     Memory.collection [VStr "users"; userUUID; VStr "stages"] = Ok stagesRef /\
     forall d, In d (Memory.docs (final r)) <->
               (In d (Memory.docs w) /\
                fst d <> userRef /\
                doc_parent (fst d) <> coll_path conversationsRef /\
                doc_parent (fst d) <> coll_path stagesRef)).
Proof.
  cbv zeta.
  destruct (clearUserData_final userUUID w)
    as [Hfail | [Hok [userRef [cRef [sRef [c [s [Hu [Hcr [Hsr [Hc [Hs Hdocs]]]]]]]]]]]].
  - left. exact Hfail.
  - right. split; [exact Hok|]. exists userRef, cRef, sRef.
    split; [exact Hu|]. split; [exact Hcr|]. split; [exact Hsr|].
    intros d. rewrite Hdocs, filter_In. split.
    + intros [Hd Hout]. split; [exact Hd|].
      apply Bool.negb_true_iff in Hout.
      assert (Hno : ~ (fst d = userRef \/
                       doc_parent (fst d) = coll_path cRef \/
                       doc_parent (fst d) = coll_path sRef)).
      { intros H. apply (batch_member userRef cRef sRef w c s (fst d) Hc Hs) in H.
        - congruence.
        - apply in_map. exact Hd. }
      tauto.
    + intros [Hd [H1 [H2 H3]]]. split; [exact Hd|].
      apply Bool.negb_true_iff. apply Bool.not_true_is_false. intros Hin.
      apply (batch_member userRef cRef sRef w c s (fst d) Hc Hs) in Hin.
      * destruct Hin as [H | [H | H]]; contradiction.
      * apply in_map. exact Hd.
Qed.

End ClearScope.

(** ** The context tool, whatever the memory service does *)

Section ToolMore.

Import Js Eff Gateway ContextTool.

Lemma try_catch_returns_value {E : Type -> Type} {A S : Type} (h : handler E S)
  (p : prog E A) (c : JsError -> prog E A) (s : S) :
  (forall e, exists v, c e = Ret v) ->
  exists v, result (run h (try_catch p c) s) = Ok v.
Proof.
  intros Hc. revert s. induction p as [a | e | X ev k IH]; intros s; simpl.
  - eexists. reflexivity.
  - destruct (Hc e) as [v ->]. eexists. reflexivity.
  - destruct (h X ev s) as [o s']. simpl. apply IH.
Qed.

Lemma returns_if {E : Type -> Type} {A : Type} (P : A -> Prop) (b : bool)
  (p q : prog E A) :
  returns P p -> returns P q -> returns P (if b then p else q).
Proof. destruct b; auto. Qed.

(** The data of a result always has a context: its instructions are made. *)
Lemma generateInstructions_data (user_id currentSessionId : value) (timestamp : string)
  (context : list (string * value)) :
  generateInstructions (data_of user_id currentSessionId timestamp context)
  = Some (instructions_from
            (get (data_of user_id currentSessionId timestamp context) "context")).
Proof. reflexivity. Qed.

Lemma execute_returns_reply (firebaseService : bool) (parameters : value) :
  returns (fun v => (exists data, v = succeeded data) \/ (exists msg, v = failed_with msg))
          (execute firebaseService parameters).
Proof.
  unfold execute. apply returns_try_catch.
  - apply returns_bind. intros user_id.
    apply returns_if; [constructor; right; eexists; reflexivity|].
    apply returns_if; [constructor; right; eexists; reflexivity|].
    do 6 (apply returns_bind; intros ?).
    match goal with
    | |- context [generateInstructions ?d] =>
        change d with (data_of user_id a a0 a4);
        rewrite (generateInstructions_data user_id a a0 a4)
    end.
    cbn [checked lift bind]. constructor. left. eexists. reflexivity.
  - intros e. constructor. right. eexists. reflexivity.
Qed.

Lemma execute_gives_value (firebaseService : bool) (parameters : value)
  {S : Type} (h : handler op S) (s : S) :
  exists v, result (run h (execute firebaseService parameters) s) = Ok v.
Proof.
  unfold execute. apply try_catch_returns_value. intros e. eexists. reflexivity.
Qed.

(** X12. [execute] always answers: whatever the parameters are (also null,
    or without [user_id]) and whatever the memory service and the clock do,
    return or throw, [execute] returns, and what it returns is either
    [{success: true, data, instructions}] with the instructions made from
    the data, or [{success: false, error}] with a message. *)
Theorem execute_always_replies (firebaseService : bool) (parameters : value)
  (S : Type) (h : handler op S) (s : S) :
  exists v,
    result (run h (execute firebaseService parameters) s) = Ok v /\
    ((exists data, v = succeeded data /\ get v "success" = VBool true) \/
     (exists msg, v = failed_with msg /\ get v "success" = VBool false)).
Proof.
  destruct (execute_gives_value firebaseService parameters h s) as [v Hv].
  exists v. split; [exact Hv|].
  destruct (returns_run _ h _ s v (execute_returns_reply firebaseService parameters) Hv)
    as [[data ->] | [msg ->]].
  - left. exists data. split; reflexivity.
  - right. exists msg. split; reflexivity.
Qed.

(** X13. Without a user or without a service [execute] asks nothing: with
    parameters that are null or undefined, with a [user_id] that is missing
    or falsy (the empty string, 0, null) and with a tool built without a
    memory service, it returns [success: false] without any call to the
    memory service or the clock; the check of the user comes first. *)
Theorem execute_refuses_without_calls (firebaseService : bool) (parameters : value)
  (S : Type) (h : handler op S) (s : S) :
  (nullish parameters = true ->
   trace (run h (execute firebaseService parameters) s) = [] /\
   exists msg, result (run h (execute firebaseService parameters) s)
               = Ok (failed_with ("Context retrieval failed: " ++ msg))) /\
  (nullish parameters = false -> truthy (get parameters "user_id") = false ->
   trace (run h (execute firebaseService parameters) s) = [] /\
   result (run h (execute firebaseService parameters) s)
   = Ok (failed_with "User ID is required")) /\
  (truthy (get parameters "user_id") = true -> firebaseService = false ->
   trace (run h (execute firebaseService parameters) s) = [] /\
   result (run h (execute firebaseService parameters) s)
   = Ok (failed_with "Firebase service not available")).
Proof.
  unfold execute, checked, member. split; [|split].
  - intros ->. cbn. split; [reflexivity | eexists; reflexivity].
  - intros -> Hu. cbn [lift bind try_catch]. rewrite Hu. cbn. split; reflexivity.
  - intros Hu ->.
    assert (Hn : nullish parameters = false).
    { destruct parameters; try reflexivity; discriminate Hu. }
    rewrite Hn. cbn [lift bind try_catch]. rewrite Hu. cbn. split; reflexivity.
Qed.

Lemma execute_asks_what_is_asked (firebaseService : bool) (parameters : value) :
  all_calls (asked_for parameters) (execute firebaseService parameters).
Proof.
  unfold execute, checked, member.
  destruct (nullish parameters); cbn [lift bind try_catch];
    [constructor|].
  destruct (truthy (get parameters "user_id")); cbn [negb]; [|constructor].
  destruct firebaseService; cbn [negb]; [|constructor].
  apply all_calls_try_catch; [|intros ?; constructor].
  unfold category, checked, invoke.
  apply all_calls_bind.
  { destruct (truthy (get parameters "session_id")) eqn:Hs; [constructor|].
    apply all_calls_call. split; [reflexivity | exact Hs]. }
  intros currentSessionId.
  apply all_calls_bind; [apply all_calls_call; exact I|]. intros timestamp.
  apply all_calls_bind.
  { destruct (wants _ "conversation") eqn:Hw; [|constructor].
    every_call. apply all_calls_call. split; [reflexivity | exact Hw]. }
  intros c1. apply all_calls_bind.
  { destruct (wants _ "profile") eqn:Hw; [|constructor].
    every_call. apply all_calls_call. split; [reflexivity | exact Hw]. }
  intros c2. apply all_calls_bind.
  { destruct (wants _ "stages") eqn:Hw; [|constructor].
    every_call. apply all_calls_call. split; [reflexivity | exact Hw]. }
  intros c3. apply all_calls_bind.
  { destruct (wants _ "session") eqn:Hw; cbn [andb]; [|constructor].
    destruct (truthy currentSessionId); [|constructor].
    every_call. apply all_calls_call. split; [reflexivity | exact Hw]. }
  intros c4. constructor.
Qed.

(** X14. [execute] calls the memory service only for what it was asked: a
    lookup of conversations, profile, stages or session data is made only
    when [context_type] names that category or is 'all' (so a
    [context_type] outside the five names makes no lookup at all), the
    session identifier is asked for only when the parameters name no
    session, no other method (no write) is ever called, and every call is
    made for the [user_id] of the parameters. *)
Theorem lookups_follow_context_type (firebaseService : bool) (parameters : value)
  (S : Type) (h : handler op S) (s : S) (m : method) (args : list value) :
  In (m, args) (invocations (trace (run h (execute firebaseService parameters) s))) ->
  arg 0 args = get parameters "user_id" /\
  match m with
  | GetCurrentSessionId => truthy (get parameters "session_id") = false
  | GetConversationHistory =>
      wants (default_arg (get parameters "context_type") (VStr "all")) "conversation" = true
  | GetUserProfile =>
      wants (default_arg (get parameters "context_type") (VStr "all")) "profile" = true
  | GetUserStageProgressions =>
      wants (default_arg (get parameters "context_type") (VStr "all")) "stages" = true
  | GetSessionData =>
      wants (default_arg (get parameters "context_type") (VStr "all")) "session" = true
  | _ => False
  end.
Proof.
  intros Hin.
  exact (all_calls_invocations _ h _ s m args
           (execute_asks_what_is_asked firebaseService parameters) Hin).
Qed.

End ToolMore.

(** ** The sections of the context *)

Section ToolSections.

Import Js Eff Gateway ContextTool.
Local Open Scope string_scope.

Lemma substring_length (n m : nat) (s : string) :
  (String.length (String.substring n m s) <= m)%nat.
Proof.
  revert n m. induction s as [|c s IH]; intros n m.
  - destruct n, m; simpl; lia.
  - destruct n as [|n]; [destruct m as [|m]|]; simpl.
    + lia.
    + specialize (IH 0%nat m). lia.
    + apply IH.
Qed.

Lemma append_length (a b : string) :
  String.length (a ++ b) = (String.length a + String.length b)%nat.
Proof. induction a as [|c a IH]; simpl; [reflexivity | rewrite IH; reflexivity]. Qed.

Lemma map_opt_all {A B : Type} (f : A -> option B) (l : list A) (ys : list B) :
  map_opt f l = Some ys ->
  List.length ys = List.length l /\
  Forall (fun y => exists x, In x l /\ f x = Some y) ys.
Proof.
  revert ys. induction l as [|x l IH]; intros ys; simpl.
  - intros [= <-]. split; [reflexivity | constructor].
  - destruct (f x) as [y|] eqn:Hy; [|discriminate].
    destruct (map_opt f l) as [ys'|]; [|discriminate]. intros [= <-].
    destruct (IH ys' eq_refl) as [Hlen Hall]. split; [simpl; congruence|].
    constructor; [exists x; auto|].
    eapply Forall_impl; [|exact Hall]. intros y' [x' [Hin Hf]]. exists x'. auto.
Qed.

Lemma last_n_length {A : Type} (n : nat) (l : list A) :
  List.length (last_n n l) = Nat.min n (List.length l).
Proof. unfold last_n. rewrite length_skipn. lia. Qed.

Lemma recent_message_content (msg item : value) :
  recent_message msg = Some item ->
  exists content,
    get item "content" = VStr content /\ (String.length content <= 203)%nat.
Proof.
  unfold recent_message. destruct (nullish msg); [discriminate|].
  destruct (get msg "content") as [ | | b | n | c | l | fs ]; try discriminate;
    intros [= <-]; eexists; (split; [reflexivity|]).
  - simpl. lia.
  - simpl. lia.
  - rewrite append_length. unfold take_chars.
    pose proof (substring_length 0 200 c).
    destruct (Nat.ltb 200 (String.length c)); simpl; lia.
Qed.

(** X15. The [conversations] section counts every entry the gateway gave in
    [total], but shows at most five of them in [recent_messages] (five, when
    there are five or more), and the [content] of each is a string of at
    most 203 characters: the first 200 of the stored content and, when it
    was cut, three dots. *)
Theorem recent_messages_bounded (conversations : list value) (section : value) :
  conversation_section (VArr conversations) = Some section ->
  get section "total" = VNum (Z.of_nat (List.length conversations)) /\
  exists recent_messages,
    get section "recent_messages" = VArr recent_messages /\
    List.length recent_messages = Nat.min 5 (List.length conversations) /\
    Forall (fun item => exists content,
                get item "content" = VStr content /\
                (String.length content <= 203)%nat)
           recent_messages.
Proof.
  unfold conversation_section.
  destruct (map_opt recent_message (last_n 5 conversations)) as [recent|] eqn:Hr;
    [|discriminate].
  destruct (generateConversationSummary (VArr conversations)) as [summary|];
    [|discriminate].
  intros [= <-]. split; [reflexivity|]. exists recent. split; [reflexivity|].
  destruct (map_opt_all _ _ _ Hr) as [Hlen Hall]. split.
  - rewrite Hlen. apply last_n_length.
  - eapply Forall_impl; [|exact Hall].
    intros item [msg [_ Hitem]]. exact (recent_message_content msg item Hitem).
Qed.




Lemma returns_bind_with {E : Type -> Type} {A B : Type} (Q : A -> Prop) (P : B -> Prop)
  (p : prog E A) (f : A -> prog E B) :
  returns Q p -> (forall a, Q a -> returns P (f a)) -> returns P (bind p f).
Proof.
  intros Hp Hf. induction Hp as [r Hr | e | X ev k Hk IH]; simpl.
  - apply Hf, Hr.
  - constructor.
  - constructor. exact IH.
Qed.

Lemma session_part_keys (sub : string) (userUUID sessionId dataType : value)
  (acc : list (string * value)) :
  In sub FirebaseMemoryService.session_parts ->
  session_keys acc ->
  returns session_keys
          (FirebaseMemoryService.session_part sub userUUID sessionId dataType acc).
Proof.
  intros Hsub Hacc. unfold FirebaseMemoryService.session_part.
  destruct (is_str dataType "all" || is_str dataType sub)%bool; [|constructor; exact Hacc].
  apply returns_bind. intros c. apply returns_bind. intros snapshot. constructor.
  intros k. rewrite has_key_set. intros Hk. apply Bool.orb_true_iff in Hk.
  destruct Hk as [Hk | Hk]; [apply String.eqb_eq in Hk; subst k; exact Hsub | auto].
Qed.

Lemma getSessionData_keys (userUUID sessionId dataType : value) :
  returns (fun v => exists fields, v = VObj fields /\ session_keys fields)
          (FirebaseMemoryService.getSessionData userUUID sessionId dataType).
Proof.
  unfold FirebaseMemoryService.getSessionData. apply returns_try_catch.
  - eapply returns_bind_with;
      [apply session_part_keys; [simpl; tauto | intros k Hk; discriminate Hk]|].
    intros a1 H1. eapply returns_bind_with;
      [apply session_part_keys; [simpl; tauto | exact H1]|].
    intros a2 H2. eapply returns_bind_with;
      [apply session_part_keys; [simpl; tauto | exact H2]|].
    intros a3 H3. eapply returns_bind_with;
      [apply session_part_keys; [simpl; tauto | exact H3]|].
    intros a4 H4. constructor. exists a4. split; [reflexivity | exact H4].
  - intros e. constructor. exists []. split; [reflexivity|]. intros k Hk. discriminate Hk.
Qed.

Lemma missing_key (fields : list (string * value)) (k : string) :
  session_keys fields ->
  ~ In k FirebaseMemoryService.session_parts ->
  get (VObj fields) k = VUndefined.
Proof.
  intros Hkeys Hk. specialize (Hkeys k). unfold has_key in Hkeys. cbn [get].
  destruct (lookup k fields); [|reflexivity]. exfalso. apply Hk, Hkeys. reflexivity.
Qed.

Lemma session_section_of_gateway_data (currentSessionId : value)
  (fields : list (string * value)) :
  session_keys fields ->
  session_section currentSessionId (VObj fields) = Some (empty_session currentSessionId).
Proof.
  intros Hkeys.
  assert (H1 : get (VObj fields) "stage_progressions" = VUndefined).
  { apply missing_key; [exact Hkeys|]. simpl. intuition discriminate. }
  assert (H2 : get (VObj fields) "user_context" = VUndefined).
  { apply missing_key; [exact Hkeys|]. simpl. intuition discriminate. }
  assert (H3 : get (VObj fields) "breakthrough_moments" = VUndefined).
  { apply missing_key; [exact Hkeys|]. simpl. intuition discriminate. }
  assert (H4 : get (VObj fields) "therapeutic_themes" = VUndefined).
  { apply missing_key; [exact Hkeys|]. simpl. intuition discriminate. }
  unfold session_section, generateSessionSummary. cbn [nullish].
  rewrite H1, H2, H3, H4. reflexivity.
Qed.

Section AnsweredWithin.

Context {E : Type -> Type} (A : forall X : Type, E X -> outcome X -> Prop).

Lemma when_run {R S : Type} (P : R -> Prop) (h : handler E S) (p : prog E R)
  (s : S) (v : R) :
  (forall X ev s, A X ev (fst (h X ev s))) ->
  returns_when A P p -> result (run h p s) = Ok v -> P v.
Proof.
  intros Hh Hp. revert s. induction Hp as [r Hr | e | X ev k Hk IH]; intros s; simpl.
  - intros [= <-]. exact Hr.
  - discriminate.
  - pose proof (Hh X ev s) as Ha. destruct (h X ev s) as [o s']. simpl in *.
    apply IH. exact Ha.
Qed.

Lemma when_bind_with {R B : Type} (Q : R -> Prop) (P : B -> Prop)
  (p : prog E R) (f : R -> prog E B) :
  returns_when A Q p -> (forall a, Q a -> returns_when A P (f a)) ->
  returns_when A P (bind p f).
Proof.
  intros Hp Hf. induction Hp as [r Hr | e | X ev k Hk IH]; simpl.
  - apply Hf, Hr.
  - constructor.
  - constructor. exact IH.
Qed.

Lemma when_try_catch {R : Type} (P : R -> Prop) (p : prog E R)
  (c : JsError -> prog E R) :
  returns_when A P p -> (forall e, returns_when A P (c e)) ->
  returns_when A P (try_catch p c).
Proof.
  intros Hp Hc. induction Hp as [r Hr | e | X ev k Hk IH]; simpl.
  - constructor. exact Hr.
  - apply Hc.
  - constructor. exact IH.
Qed.

Lemma returns_weaken {R : Type} (P : R -> Prop) (p : prog E R) :
  returns P p -> returns_when A P p.
Proof.
  intros Hp. induction Hp as [r Hr | e | X ev k Hk IH]; constructor; auto.
Qed.

Lemma when_impl {R : Type} (P P' : R -> Prop) (p : prog E R) :
  (forall r, P r -> P' r) -> returns_when A P p -> returns_when A P' p.
Proof.
  intros Himp Hp. induction Hp as [r Hr | e | X ev k Hk IH]; constructor; auto.
Qed.

Lemma when_any {R : Type} (p : prog E R) : returns_when A (fun _ => True) p.
Proof. induction p as [a | e | X ev k IH]; constructor; auto. Qed.

End AnsweredWithin.

Lemma category_keeps_slot (key failed : string) (context : list (string * value))
  (lookup : prog op value) (section : value -> option (option value))
  (k : string) (v0 : value) :
  k <> key ->
  get (VObj context) k = v0 ->
  returns (fun c => get (VObj c) k = v0) (category key failed context lookup section).
Proof.
  intros Hne Hctx.
  assert (Hset : forall v, get (VObj (set context key v)) k = v0).
  { intros v. cbn [get]. rewrite lookup_set.
    destruct (String.eqb_spec k key); [contradiction | exact Hctx]. }
  unfold category, checked. apply returns_try_catch.
  - apply returns_bind. intros found. apply returns_bind. intros computed.
    destruct computed; constructor; [apply Hset | exact Hctx].
  - intros e. constructor. apply Hset.
Qed.

Lemma session_block (context : list (string * value)) (user_id currentSessionId : value) :
  returns_when session_data_shaped
    (fun c => get (VObj c) "session" = empty_session currentSessionId)
    (category "session" "Failed to retrieve session data" context
       (invoke GetSessionData [user_id; currentSessionId])
       (fun sessionData =>
          option_map Some (session_section currentSessionId sessionData))).
Proof.
  unfold category, invoke, call. cbn [bind try_catch]. apply when_vis.
  intros o [fields [-> Hkeys]]. cbn [bind try_catch]. unfold checked.
  rewrite (session_section_of_gateway_data currentSessionId fields Hkeys).
  cbn [option_map lift bind try_catch]. constructor.
  cbn [get]. rewrite lookup_set, String.eqb_refl. reflexivity.
Qed.

Lemma get_succeeded_slot (user_id currentSessionId : value) (timestamp : string)
  (context : list (string * value)) (instructions : string) :
  let v := object [Field "success" (VBool true);
                   Field "data" (data_of user_id currentSessionId timestamp context);
                   Field "instructions" (VStr instructions)] in
  get (get (get v "data") "context") "session" = get (VObj context) "session" /\
  get (get v "data") "session_id" = currentSessionId.
Proof. split; reflexivity. Qed.

Lemma execute_session_shape (firebaseService : bool) (parameters : value) :
  returns_when session_data_shaped
    (fun v => get (get (get v "data") "context") "session" = VUndefined \/
              get (get (get v "data") "context") "session"
              = empty_session (get (get v "data") "session_id"))
    (execute firebaseService parameters).
Proof.
  unfold execute. apply when_try_catch; [|intros e; constructor; left; reflexivity].
  eapply when_bind_with; [apply when_any|]. intros user_id _.
  destruct (truthy user_id); cbn [negb]; [|constructor; left; reflexivity].
  destruct firebaseService; cbn [negb]; [|constructor; left; reflexivity].
  eapply when_bind_with; [apply when_any|]. intros currentSessionId _.
  eapply when_bind_with; [apply when_any|]. intros timestamp _.
  apply (when_bind_with _ (fun c => get (VObj c) "session" = VUndefined)).
  { destruct (wants _ "conversation"); [|constructor; reflexivity].
    apply returns_weaken, category_keeps_slot; [discriminate | reflexivity]. }
  intros c1 H1.
  apply (when_bind_with _ (fun c => get (VObj c) "session" = VUndefined)).
  { destruct (wants _ "profile"); [|constructor; exact H1].
    apply returns_weaken, category_keeps_slot; [discriminate | exact H1]. }
  intros c2 H2.
  apply (when_bind_with _ (fun c => get (VObj c) "session" = VUndefined)).
  { destruct (wants _ "stages"); [|constructor; exact H2].
    apply returns_weaken, category_keeps_slot; [discriminate | exact H2]. }
  intros c3 H3.
  apply (when_bind_with _ (fun c => get (VObj c) "session" = VUndefined \/
                                    get (VObj c) "session"
                                    = empty_session currentSessionId)).
  { destruct (wants _ "session" && truthy currentSessionId)%bool;
      [|constructor; left; exact H3].
    eapply when_impl; [|apply session_block]. intros c Hc. right. exact Hc. }
  intros c4 H4.
  eapply when_bind_with; [apply when_any|]. intros instructions _. constructor.
  destruct (get_succeeded_slot user_id currentSessionId timestamp c4 instructions)
    as [Hs Hid].
  cbv zeta in Hs, Hid. fold (data_of user_id currentSessionId timestamp c4).
  rewrite Hs, Hid. exact H4.
Qed.

End ToolSections.

(** ** The context tool over the gateway *)

Section ToolOverGateway.

Import Js Eff Gateway ContextTool.

Lemma firebase_session_data_shaped (X : Type) (ev : op X) (w : Memory.world) :
  session_data_shaped X ev (fst (Backend.firebase X ev w)).
Proof.
  destruct ev as [m args | ]; [destruct m; try exact I | ].
  - cbn.
    destruct (try_catch_returns_value Memory.handle
                (x <- FirebaseMemoryService.session_part "stages" (arg 0 args) (arg 1 args)
                        (default_arg (arg 2 args) (VStr "all")) [] ;;
                 x <- FirebaseMemoryService.session_part "context" (arg 0 args) (arg 1 args)
                        (default_arg (arg 2 args) (VStr "all")) x ;;
                 x <- FirebaseMemoryService.session_part "breakthroughs" (arg 0 args)
                        (arg 1 args) (default_arg (arg 2 args) (VStr "all")) x ;;
                 x <- FirebaseMemoryService.session_part "themes" (arg 0 args) (arg 1 args)
                        (default_arg (arg 2 args) (VStr "all")) x ;;
                 Ret (VObj x))%prog
                (fun _ => Ret (VObj [])) w) as [v Hv];
      [intros e; eexists; reflexivity|].
    fold (FirebaseMemoryService.getSessionData (arg 0 args) (arg 1 args) (arg 2 args)) in Hv.
    destruct (returns_run _ _ _ _ _
                (getSessionData_keys (arg 0 args) (arg 1 args) (arg 2 args)) Hv)
      as [fields [-> Hkeys]].
    exists fields. split; [exact Hv | exact Hkeys].
  - exact I.
Qed.

(** X17. Over the gateway the [session] section of the tool never shows a
    stored session record.  [getSessionData] files the records under
    [stages], [context], [breakthroughs] and [themes], and [execute] reads
    [stage_progressions], [user_context], [breakthrough_moments] and
    [therapeutic_themes]: so whatever the store holds, a call of [execute]
    returns, and the session section of its data is either absent or the one
    of an empty session, with four empty lists and the summary 'New session,
    no data recorded yet.' *)
Theorem tool_never_shows_session_records (parameters : value) (w : Memory.world) :
  exists v,
    result (run Backend.firebase (execute true parameters) w) = Ok v /\
    (get (get (get v "data") "context") "session" = VUndefined \/
     get (get (get v "data") "context") "session"
     = empty_session (get (get v "data") "session_id")).
Proof.
  destruct (execute_gives_value true parameters Backend.firebase w) as [v Hv].
  exists v. split; [exact Hv|].
  exact (when_run session_data_shaped _ Backend.firebase _ w v
           firebase_session_data_shaped (execute_session_shape true parameters) Hv).
Qed.

End ToolOverGateway.

(** ** The routes, whatever the memory service does *)

Section RoutesMore.

Import Js Eff Gateway Server.

Ltac answered svc :=
  match goal with
  | |- context [answer svc ?m ?args ?s] =>
      let o := fresh "o" in
      let s' := fresh "s" in
      destruct (answer svc m args s) as [o s'] eqn:?; destruct o; cbn
  | |- context [clock svc ?s] =>
      let now := fresh "now" in
      let s' := fresh "s" in
      destruct (clock svc s) as [now s'] eqn:?; cbn
  end.

Lemma write_body_reports {S : Type} (svc : memory_service S) (s : S)
  (req : request) (failed : string) (m : method) (args : value -> value -> list value) :
  nullish (body req) = false ->
  truthy (get (body req) "userUUID") = true ->
  result (run (serve svc)
            (write_body req failed (fun userUUID data => invoke m (args userUUID data))) s)
  = match fst (answer svc m (args (get (body req) "userUUID")
                               (without "userUUID" (body req))) s) with
    | Ok v => Ok (Response 200 v)
    | Err e => Ok (Response 500 (object [Field "error" (VStr failed);
                                         Field "details" (VStr (err_message e))]))
    end.
Proof.
  intros Hbody Hu. unfold write_body, checked, member. rewrite Hbody. cbn.
  rewrite Hu. cbn.
  destruct (answer svc m _ s) as [[r | e] s']; reflexivity.
Qed.

(** X18. A write route hands on what its store method returned, with status
    200: also a result [{success: false, error}], so a write that the
    gateway could not make is answered 200.  Only when the store method
    throws is the answer 500, with the message of the exception as
    [details]. *)
Theorem write_route_reports (r : write_route) (env : environment) (req : request)
  (S : Type) (svc : memory_service S) (s : S) :
  reaches r env req = true ->
  nullish (body req) = false ->
  truthy (get (body req) "userUUID") = true ->
  match fst (answer svc (store_of r) (store_args r req) s) with
  | Ok v => result (run (serve svc) (post r env req) s) = Ok (Response 200 v)
  | Err e =>
      exists payload,
        result (run (serve svc) (post r env req) s) = Ok (Response 500 payload) /\
        get payload "details" = VStr (err_message e)
  end.
Proof.
  intros Hreach Hbody Hu.
  destruct r; cbn [post reaches store_of store_args] in *;
    unfold post_memory_conversation, post_memory_stage, post_memory_profile,
           post_memory_context, post_session_stage, post_session_context,
           post_session_breakthrough, post_session_theme;
    try rewrite verifyToken_spec, Hreach;
    cbv zeta;
    first
      [ rewrite (write_body_reports svc s req _ _ (fun u d => [u; d]) Hbody Hu)
      | rewrite (write_body_reports svc s req _ _
                   (fun u d => [u; param req "sessionId"; d]) Hbody Hu) ];
    match goal with
    | |- context [fst ?a] => destruct (fst a) as [v | e]
    end;
    try reflexivity; eexists; split; reflexivity.
Qed.

Lemma lookup_without (k k' : string) (fs : list (string * value)) :
  lookup k' (filter (fun kv => negb (String.eqb (fst kv) k)) fs)
  = if String.eqb k' k then None else lookup k' fs.
Proof.
  induction fs as [|[k0 v0] fs IH]; simpl.
  - destruct (String.eqb k' k); reflexivity.
  - destruct (String.eqb_spec k0 k) as [-> | Hne0]; simpl; rewrite IH.
    + destruct (String.eqb k' k); [reflexivity|]. destruct (lookup k' fs); reflexivity.
    + destruct (String.eqb_spec k' k) as [-> | Hne]; [|reflexivity].
      destruct (String.eqb_spec k k0); [congruence | reflexivity].
Qed.

Lemma get_without (k k' : string) (fields : list (string * value)) :
  get (without k (VObj fields)) k'
  = if String.eqb k' k then VUndefined else get (VObj fields) k'.
Proof.
  unfold without. cbn [get own_props]. rewrite lookup_without.
  destruct (String.eqb k' k); reflexivity.
Qed.

Lemma write_body_calls (req : request) (failed : string) (m : method)
  (args : value -> value -> list value) (fields : list (string * value)) :
  body req = VObj fields ->
  all_calls (fun X ev => match ev with
                         | Invoke m' args' =>
                             m' = m /\
                             args' = args (get (body req) "userUUID")
                                          (without "userUUID" (body req))
                         | NowISO => True
                         end)
            (write_body req failed (fun userUUID data => invoke m (args userUUID data))).
Proof.
  intros Hbody. unfold write_body, checked, member. rewrite Hbody.
  cbn [nullish lift bind].
  destruct (truthy (get (VObj fields) "userUUID")); cbn [negb]; [|constructor].
  apply all_calls_try_catch; [|intros e; constructor].
  apply all_calls_bind; [|intros v; constructor].
  apply all_calls_call. split; reflexivity.
Qed.

Lemma post_calls (r : write_route) (env : environment) (req : request)
  (fields : list (string * value)) :
  body req = VObj fields ->
  all_calls (fun X ev => match ev with
                         | Invoke m args => m = store_of r /\ args = store_args r req
                         | NowISO => True
                         end)
            (post r env req).
Proof.
  intros Hbody.
  destruct r; cbn [post store_of store_args];
    unfold post_memory_conversation, post_memory_stage, post_memory_profile,
           post_memory_context, post_session_stage, post_session_context,
           post_session_breakthrough, post_session_theme;
    try (rewrite verifyToken_spec; destruct (token_accepted env req); [|constructor]);
    cbv zeta;
    first
      [ apply (write_body_calls req _ _ (fun u d => [u; d]) fields Hbody)
      | apply (write_body_calls req _ _ (fun u d => [u; param req "sessionId"; d])
                 fields Hbody) ].
Qed.

(** X19. What a write route stores is the body without [userUUID]: in every
    call a write route makes to the memory service the first argument is the
    [userUUID] of the body, and the data has no [userUUID] and has every
    other field of the body unchanged. *)
Theorem write_route_data_excludes_user (r : write_route) (env : environment)
  (req : request) (fields : list (string * value))
  (S : Type) (h : handler op S) (s : S) (m : method) (args : list value) :
  body req = VObj fields ->
  In (m, args) (invocations (trace (run h (post r env req) s))) ->
  arg 0 args = get (body req) "userUUID" /\
  get (data_arg m args) "userUUID" = VUndefined /\
  (forall k, k <> "userUUID" -> get (data_arg m args) k = get (body req) k).
Proof.
  intros Hbody Hin.
  destruct (all_calls_invocations _ h _ s m args (post_calls r env req fields Hbody) Hin)
    as [-> ->].
  assert (Hdata : data_arg (store_of r) (store_args r req)
                  = without "userUUID" (VObj fields)).
  { rewrite <- Hbody. destruct r; reflexivity. }
  split; [destruct r; reflexivity|]. rewrite Hdata, Hbody. split.
  - rewrite get_without. reflexivity.
  - intros k Hk. rewrite get_without.
    destruct (String.eqb_spec k "userUUID"); [contradiction | reflexivity].
Qed.

(** X20. The conversation entry the webhook stores.  A request that is let
    in and has a truthy [user_id] and [message] makes one call,
    [storeConversation] for that user, with an entry whose [content] is the
    message, whose [type] is 'user' when [message_type] is 'user_message'
    and 'assistant' for every other or missing message type, whose
    [timestamp] is the one of the body when that is truthy, and whose
    [metadata.source] is 'elevenlabs_webhook'. *)
Theorem webhook_entry (env : environment) (req : request)
  (S : Type) (svc : memory_service S) (s : S) :
  unauthorized env req = false ->
  truthy (get (body req) "user_id") = true ->
  truthy (get (body req) "message") = true ->
  exists entry,
    invocations (trace (run (serve svc) (post_elevenlabs_webhook env req) s))
    = [(StoreConversation, [get (body req) "user_id"; entry])] /\
    get entry "content" = get (body req) "message" /\
    get entry "type"
    = VStr (if is_str (get (body req) "message_type") "user_message"
            then "user" else "assistant") /\
    (truthy (get (body req) "timestamp") = true ->
     get entry "timestamp" = get (body req) "timestamp") /\
    get (get entry "metadata") "source" = VStr "elevenlabs_webhook".
Proof.
  intros Hin Hu Hm.
  assert (Hbody : nullish (body req) = false).
  { destruct (body req); try reflexivity; discriminate Hu. }
  unfold post_elevenlabs_webhook, checked, member. rewrite Hin, Hbody. cbn.
  rewrite Hu, Hm. cbn.
  destruct (truthy (get (body req) "timestamp")) eqn:Ht; cbn;
    repeat answered svc;
    (eexists; split; [reflexivity|]);
    (split; [reflexivity|]); (split; [reflexivity|]);
    (split; [intros Hts; first [reflexivity | discriminate Hts] | reflexivity]).
Qed.

Ltac returning :=
  repeat match goal with
         | |- returns _ (Ret _) => constructor
         | |- returns _ (Throw _) => constructor
         | |- returns _ (try_catch _ _) => apply returns_try_catch; [ | intros ? ]
         | |- returns _ (bind _ _) => apply returns_bind; intros ?
         | |- returns _ (if ?b then _ else _) => destruct b
         | |- returns _ (match ?x with _ => _ end) => destruct x
         end.

Lemma route_returns_status (env : environment) (rt : Routes.route) (req : request) :
  returns (fun r => In (status r) Routes.statuses) (Routes.handle env rt req).
Proof.
  destruct rt as [r | | | query | | | st]; cbn [Routes.handle].
  - destruct r; cbn [post];
      unfold post_memory_conversation, post_memory_stage, post_memory_profile,
             post_memory_context, post_session_stage, post_session_context,
             post_session_breakthrough, post_session_theme, write_body, respond;
      try rewrite verifyToken_spec;
      returning; simpl; tauto.
  - unfold delete_memory_user, respond. returning; simpl; tauto.
  - unfold get_memory_profile, respond. returning; simpl; tauto.
  - unfold get_memory_session, respond. returning; simpl; tauto.
  - unfold get_current_session, respond. returning; simpl; tauto.
  - unfold post_elevenlabs_webhook, respond. returning; simpl; tauto.
  - unfold Tools.post_context, respond. returning; simpl; tauto.
Qed.

Lemma route_gives_value (env : environment) (rt : Routes.route) (req : request)
  {S : Type} (h : handler op S) (s : S) :
  exists r, result (run h (Routes.handle env rt req) s) = Ok r.
Proof.
  assert (Hcatch : forall (p : prog op response) failed,
             exists r, result (run h (try_catch p
                                 (fun error =>
                                    respond 500
                                      (object [Field "error" (VStr failed);
                                               Field "details"
                                                     (VStr (err_message error))]))) s)
                       = Ok r).
  { intros p failed. apply try_catch_returns_value. intros e. eexists. reflexivity. }
  destruct rt as [r | | | query | | | st]; cbn [Routes.handle].
  - destruct r; cbn [post];
      unfold post_memory_conversation, post_memory_stage, post_memory_profile,
             post_memory_context, post_session_stage, post_session_context,
             post_session_breakthrough, post_session_theme, write_body;
      try (rewrite verifyToken_spec; destruct (token_accepted env req);
           [|eexists; reflexivity]);
      apply Hcatch.
  - apply Hcatch.
  - apply Hcatch.
  - apply Hcatch.
  - apply Hcatch.
  - unfold post_elevenlabs_webhook. apply try_catch_returns_value.
    intros e. eexists. reflexivity.
  - apply Hcatch.
Qed.

(** X21. These routes always answer.  Whatever the request is and
    whatever the memory service and the clock do, return or throw, each of
    the eight write routes, the delete route, the profile, session and
    current-session reads, the webhook and the tools route ends with a
    response, and its status is 200, 400, 401, 404 or 500: no exception
    leaves one of these routes. *)
Theorem routes_always_respond (env : environment) (rt : Routes.route) (req : request)
  (S : Type) (h : handler op S) (s : S) :
  exists code payload,
    result (run h (Routes.handle env rt req) s) = Ok (Response code payload) /\
    In code Routes.statuses.
Proof.
  destruct (route_gives_value env rt req h s) as [[code payload] Hr].
  exists code, payload. split; [exact Hr|].
  exact (returns_run _ h _ s _ (route_returns_status env rt req) Hr).
Qed.

End RoutesMore.

(** ** The tools router and its registry *)

Section ToolsRouter.

Import Js Eff Gateway Server.

(** The tool of the registry has the service of the router. *)
Lemma after_agree (services : list bool) (st : Tools.modules) :
  (Tools.firebaseService st = true ->
   Tools.toolsInstance st = Some (Tools.Tool true)) ->
  let st' := fold_left (fun st service => Tools.setFirebaseService service st)
                       services st in
  Tools.firebaseService st' = true -> Tools.toolsInstance st' = Some (Tools.Tool true).
Proof.
  revert st. induction services as [|service services IH]; intros st Hst; simpl.
  - exact Hst.
  - apply IH. cbn. intros ->. reflexivity.
Qed.

(** X22. The tools route and its registry.  Before [setFirebaseService] is
    called the route answers 500 'Firebase service not initialized' without
    any call; and after any calls of [setFirebaseService] the tool of the
    registry has the service of the router, so the route behaves as the
    route with that one service: the answer 'Context tool not available' and
    the tool's 'Firebase service not available' cannot occur. *)
Theorem tools_route_registry (services : list bool) (req : request) :
  Tools.post_context Tools.initial req
  = Ret (Response 500 (object [Field "error" (VStr "Firebase service not initialized")])) /\
  Tools.post_context (Tools.after services) req
  = post_tools_context (Tools.firebaseService (Tools.after services)) req.
Proof.
  split; [reflexivity|].
  pose proof (after_agree services Tools.initial) as Hagree.
  cbv zeta in Hagree. fold (Tools.after services) in Hagree.
  unfold Tools.post_context, post_tools_context, Tools.getTools.
  destruct (Tools.firebaseService (Tools.after services)); [|reflexivity].
  rewrite Hagree; [reflexivity | discriminate | reflexivity].
Qed.

(** X23. The tools route reads [user_id], [context_type] and [limit] from
    the body and nothing else: two requests whose bodies agree on these
    three are handled alike.  A [session_id] in the body is not given to the
    tool, so with a service and a truthy [user_id] the first call of the
    route asks the memory service for the current session identifier. *)
Theorem tools_route_reads_three_fields (st : Tools.modules) (req1 req2 : request) :
  nullish (body req1) = false ->
  nullish (body req2) = false ->
  get (body req1) "user_id" = get (body req2) "user_id" ->
  get (body req1) "context_type" = get (body req2) "context_type" ->
  get (body req1) "limit" = get (body req2) "limit" ->
  Tools.post_context st req1 = Tools.post_context st req2 /\
  (forall (S : Type) (svc : memory_service S) (s : S),
      Tools.firebaseService st = true ->
      Tools.toolsInstance st = Some (Tools.Tool true) ->
      truthy (get (body req1) "user_id") = true ->
      exists rest,
        invocations (trace (run (serve svc) (Tools.post_context st req1) s))
        = (GetCurrentSessionId, [get (body req1) "user_id"]) :: rest).
Proof.
  intros Hb1 Hb2 Hu Hc Hl. split.
  - unfold Tools.post_context, checked, member. rewrite Hb1, Hb2, Hu, Hc, Hl. reflexivity.
  - intros S svc s Hsvc Htool Huser.
    unfold Tools.post_context, Tools.getTools, checked, member.
    rewrite Hsvc, Htool, Hb1. cbn [negb lift bind Tools.tool_service]. rewrite Huser.
    cbn [negb]. unfold ContextTool.execute, ContextTool.checked, member.
    cbn [object fold_left add_item set has_key lookup String.eqb Ascii.eqb Bool.eqb
         map fst snd app nullish get lift bind try_catch].
    rewrite Huser. cbn [negb truthy ContextTool.invoke call bind try_catch run].
    destruct (serve svc value (Invoke GetCurrentSessionId [get (body req1) "user_id"]) s)
      as [o s'].
    cbn [trace invocations flat_map invocation_of ent_call app].
    eexists. reflexivity.
Qed.

End ToolsRouter.

(** ** Routes over the gateway and the store *)

Section OverTheStore.

Import Js Eff Gateway Server.

Lemma find_doc_counted (r : Firestore.docref) (w : Memory.world) :
  Memory.find_doc r (Memory.counted w) = Memory.find_doc r w.
Proof. reflexivity. Qed.

Opaque Memory.doc.

Lemma getUserProfile_over_store (userUUID : value) (w : Memory.world) :
  result (run Memory.handle (FirebaseMemoryService.getUserProfile userUUID) w)
  = Ok (match Memory.faults w (Memory.calls w),
              Memory.doc [VStr "users"; userUUID],
              Memory.faults w (Datatypes.S (Memory.calls w)) with
        | None, Ok profileRef, None =>
            match Memory.find_doc profileRef w with
            | Some data => VObj data
            | None => VNull
            end
        | _, _, _ => VNull
        end).
Proof.
  unfold FirebaseMemoryService.getUserProfile.
  cbn [run try_catch bind call Memory.handle Memory.is_clock Memory.perform].
  destruct (Memory.faults w (Memory.calls w)) as [e|]; cbn; [reflexivity|].
  destruct (Memory.doc [VStr "users"; userUUID]) as [profileRef | e]; cbn; [|reflexivity].
  destruct (Memory.faults w (Datatypes.S (Memory.calls w))); cbn; [reflexivity|].
  rewrite !find_doc_counted.
  destruct (Memory.find_doc profileRef w) as [data|]; reflexivity.
Qed.

Transparent Memory.doc.

(** X24. Over the gateway the profile route never answers 500.  It answers
    200 with the stored profile exactly when both calls of the read reach
    the store, the path [users/<userUUID>] addresses a document (the client
    splits the identifier on its slashes) and that document is there; in
    every other case, a missing document, a path that addresses no document
    and also a store that cannot be reached, it answers 404 'Profile not
    found': the route cannot tell an outage from a missing profile. *)
Theorem profile_route_hides_outage (req : request) (w : Memory.world) :
  result (run Backend.firebase (get_memory_profile req) w)
  = Ok (match Memory.faults w (Memory.calls w),
              Memory.doc [VStr "users"; param req "userUUID"],
              Memory.faults w (Datatypes.S (Memory.calls w)) with
        | None, Ok profileRef, None =>
            match Memory.find_doc profileRef w with
            | Some data => Response 200 (VObj data)
            | None => Response 404 Server.profile_not_found
            end
        | _, _, _ => Response 404 Server.profile_not_found
        end).
Proof.
  pose proof (getUserProfile_over_store (param req "userUUID") w) as Hread.
  unfold get_memory_profile, invoke.
  cbn [run try_catch bind call Backend.firebase serve Backend.firebase_service answer
       Gateway.firebase arg nth fst snd result final].
  rewrite Hread.
  destruct (Memory.faults w (Memory.calls w)); [reflexivity|].
  destruct (Memory.doc [VStr "users"; param req "userUUID"]) as [profileRef | e];
    [|reflexivity].
  destruct (Memory.faults w (Datatypes.S (Memory.calls w))); [reflexivity|].
  destruct (Memory.find_doc profileRef w); reflexivity.
Qed.

Lemma healthCheck_over_store (w : Memory.world) :
  let r := run Memory.handle FirebaseMemoryService.healthCheck w in
  Memory.now_iso (final r) = Memory.now_iso w /\
  exists health,
    result r = Ok health /\
    get health "status"
    = VStr (match Memory.faults w (Memory.calls w),
                  Memory.faults w (Datatypes.S (Memory.calls w)) with
            | None, None => "healthy"
            | _, _ => "unhealthy"
            end).
Proof.
  cbv zeta. unfold FirebaseMemoryService.healthCheck.
  cbn [run try_catch bind call Memory.handle Memory.is_clock Memory.perform].
  destruct (Memory.faults w (Memory.calls w)) as [e|]; cbn;
    [split; [reflexivity | eexists; split; reflexivity]|].
  destruct (Memory.faults w (Datatypes.S (Memory.calls w))) as [e|]; cbn;
    split; try reflexivity; eexists; split; reflexivity.
Qed.

(** X25. The health route over the store always answers 200 with the
    top-level status 'healthy', also when the store cannot be reached: an
    outage shows only in [services.firebase.status], which is 'healthy' when
    both calls of the health check went through and 'unhealthy' otherwise.
    The 500 answer of the route is never given. *)
Theorem health_route_always_healthy (env : environment) (uptime memory : value)
  (w : Memory.world) :
  exists payload,
    result (run Memory.handle
              (Health.get_api_health env uptime memory FirebaseMemoryService.healthCheck) w)
    = Ok (Response 200 payload) /\
    get payload "status" = VStr "healthy" /\
    get (get (get payload "services") "firebase") "status"
    = VStr (match Memory.faults w (Memory.calls w),
                  Memory.faults w (Datatypes.S (Memory.calls w)) with
            | None, None => "healthy"
            | _, _ => "unhealthy"
            end).
Proof.
  destruct (healthCheck_over_store w) as [_ [health [Hr Hstatus]]].
  cbv zeta in Hr, Hstatus.
  unfold Health.get_api_health. rewrite run_try_catch, run_bind, Hr.
  cbn [run bind call Memory.handle Memory.is_clock Memory.perform result final trace].
  eexists. split; [reflexivity|]. split; [reflexivity|]. exact Hstatus.
Qed.

End OverTheStore.

(** ** The memory manager *)

Section Manager.

Import Js Eff Gateway.

Lemma default_twice (limit d d' : value) :
  d <> VUndefined -> default_arg (default_arg limit d) d' = default_arg limit d.
Proof. intros Hd. destruct limit; try reflexivity. destruct d; try reflexivity. congruence. Qed.

(** X26. The memory manager.  Without a service each of its methods throws
    'Firebase service not initialized' and calls nothing.  With the gateway
    as its service, a read that takes a limit returns the entries most
    recent first and no more of them than the limit, which is 50 for the
    conversation history and 20 for stage progressions and context entries
    when the caller gives none: the manager's default of 20 for stage
    progressions replaces the gateway's own 50. *)
Theorem manager_forwards_with_defaults (m : method) (userUUID limit : value) :
  MemoryManager.forwards m = true ->
  (forall (S : Type) (h : handler op S) (s : S) (args : list value),
      run h (MemoryManager.manager false m args) s
      = Run (Err (mkError "Error" "Firebase service not initialized")) s []) /\
  (limited_read m = true ->
   forall w : Memory.world,
   exists entries,
     result (run Backend.firebase (MemoryManager.manager true m [userUUID; limit]) w)
     = Ok (VArr entries) /\
     Sorted Memory.newest_first entries /\
     (forall n,
         default_arg limit (match m with
                            | GetConversationHistory => VNum 50
                            | _ => VNum 20
                            end) = VNum n ->
         (List.length entries <= Z.to_nat n)%nat)).
Proof.
  intros Hm. split.
  - intros S h s args. destruct m; try discriminate Hm; reflexivity.
  - intros Hread w.
    destruct m; try discriminate Hm; try discriminate Hread;
      cbn [MemoryManager.manager MemoryManager.getConversationHistory
           MemoryManager.getUserStageProgressions MemoryManager.getUserContext
           MemoryManager.guarded negb arg nth];
      match goal with
      | |- context [call (Invoke ?m0 ?args0)] =>
          destruct (limited_read_entries m0 args0 w eq_refl)
            as [entries [Hr [Hsorted Hlen]]]
      end;
      exists entries;
      (split; [cbn [run call Backend.firebase serve Backend.firebase_service answer
                    result final]; rewrite Hr; reflexivity|]);
      (split; [exact Hsorted|]);
      intros n Hn; apply Hlen; unfold limit_used; cbn [arg nth];
      rewrite default_twice by discriminate; exact Hn.
Qed.

End Manager.

(** ** The reading routes leave the store alone *)

Section ReadingRoutes.

Import Js Eff Gateway Server.

Lemma reading_route_reads (env : environment) (rt : Routes.route) (req : request) :
  Routes.reading_route rt = true ->
  all_calls reads_gateway (Routes.handle env rt req).
Proof.
  destruct rt as [r | | | query | | | st]; try discriminate; intros _;
    cbn [Routes.handle].
  - unfold get_memory_profile, invoke, respond.
    every_call; apply all_calls_call; reflexivity.
  - unfold get_memory_session, invoke, respond.
    every_call; apply all_calls_call; reflexivity.
  - unfold get_current_session, invoke, respond.
    every_call; apply all_calls_call; reflexivity.
  - unfold Tools.post_context, checked, respond.
    apply all_calls_try_catch; [|intros e; constructor].
    destruct (negb (Tools.firebaseService st)); [constructor|].
    destruct (Tools.getTools st) as [t|]; [|constructor].
    apply all_calls_bind; [apply all_calls_lift|]. intros user_id.
    destruct (negb (truthy user_id)); [constructor|].
    apply all_calls_bind; [apply execute_reads_gateway|]. intros v. constructor.
Qed.

(** X27. The reading routes and the tools route change nothing: over the
    gateway a request to the profile route, the session route, the
    current-session route or the tools route leaves every document of the
    store as it was, whatever the request holds. *)
Theorem reading_routes_leave_store (env : environment) (rt : Routes.route)
  (req : request) (w : Memory.world) :
  Routes.reading_route rt = true ->
  Memory.docs (final (run Backend.firebase (Routes.handle env rt req) w)) = Memory.docs w.
Proof.
  intros Hrt. apply gateway_reads_leave_docs, reading_route_reads, Hrt.
Qed.

End ReadingRoutes.

(** ** The themes of the conversation summary *)

Section Themes.

Import Js Eff ContextTool.
Local Open Scope string_scope.

Lemma includes_unfold (s p : string) :
  includes s p
  = (String.prefix p s
     || match s with
        | EmptyString => false
        | String _ rest => includes rest p
        end)%bool.
Proof. destruct s; reflexivity. Qed.


Lemma prefix_refl (p : string) : String.prefix p p = true.
Proof.
  induction p as [|x p IH]; simpl; [reflexivity|].
  destruct (ascii_dec x x); [exact IH | contradiction].
Qed.



Lemma includes_refl (p : string) : includes p p = true.
Proof. rewrite includes_unfold, prefix_refl. reflexivity. Qed.






End Themes.

(** ** The further properties at sample inputs *)

Section FurtherWitnesses.

Import Js Eff.

(** A context entry written to the empty store. *)
Lemma stamping_write_once_witness :
  let m := Gateway.StoreUserContext in
  let args := [VStr "u1"; VObj [("note", VStr "prefers mornings")]] in
  let r := run Memory.handle (Gateway.firebase m args) Sample.world in
  Gateway.stamping m = true /\
  (List.length (Firestore.written (trace r)) <= 1)%nat /\
  (some_call_failed (trace r) = false ->
   nullish (Gateway.data_arg m args) = false ->
   exists ref record,
     result r = Ok (VObj [("success", VBool true); ("id", VStr (Firestore.doc_id ref))]) /\
     Firestore.written (trace r) = [(ref, record)]) /\
  (nullish (Gateway.data_arg m args) = true ->
   Firestore.written (trace r) = [] /\
   exists msg, result r = Ok (VObj [("success", VBool false); ("error", VStr msg)])).
Proof.
  cbv zeta. split; [reflexivity|].
  apply (stamping_write_once Gateway.StoreUserContext
           [VStr "u1"; VObj [("note", VStr "prefers mornings")]]
           Memory.world Memory.handle Sample.world eq_refl).
Defined.

(** A breakthrough whose data names another session. *)
Lemma session_record_keeps_session_witness :
  let m := Gateway.StoreBreakthroughMoment in
  let args := [VStr "u1"; VStr "s1"; VObj [("sessionId", VStr "other"); ("note", VStr "x")]] in
  let r := Firestore.DocRef ["users"; "u1"; "sessions"; "s1"; "breakthroughs"] "doc0" in
  let record := VObj [("sessionId", VStr "s1"); ("note", VStr "x");
                      ("timestamp", VStr "2024-05-01T10:00:00.000Z");
                      ("createdAt", VStr "2024-05-01T10:00:00.000Z")] in
  Gateway.session_write m = true /\
  In (r, record)
     (Firestore.written (trace (run Memory.handle (Gateway.firebase m args) Sample.world))) /\
  get record "sessionId" = VStr "s1".
Proof.
  cbv zeta. split; [reflexivity|].
  refine ((fun Hin => conj Hin _) (or_introl eq_refl)).
  exact (session_record_keeps_session Gateway.StoreBreakthroughMoment
           [VStr "u1"; VStr "s1"; VObj [("sessionId", VStr "other"); ("note", VStr "x")]]
           Memory.world Memory.handle Sample.world _ _ eq_refl Hin).
Defined.

Lemma record_keeps_caller_fields_witness :
  let m := Gateway.StoreBreakthroughMoment in
  let fields := [("sessionId", VStr "other"); ("note", VStr "x")] in
  let args := [VStr "u1"; VStr "s1"; VObj fields] in
  let r := Firestore.DocRef ["users"; "u1"; "sessions"; "s1"; "breakthroughs"] "doc0" in
  let record := VObj [("sessionId", VStr "s1"); ("note", VStr "x");
                      ("timestamp", VStr "2024-05-01T10:00:00.000Z");
                      ("createdAt", VStr "2024-05-01T10:00:00.000Z")] in
  Gateway.stamping m = true /\
  In (r, record)
     (Firestore.written (trace (run Memory.handle (Gateway.firebase m args) Sample.world))) /\
  Gateway.data_arg m args = VObj fields /\
  "note" <> "timestamp" /\ "note" <> "createdAt" /\ "note" <> "sessionId" /\
  get record "note" = get (VObj fields) "note".
Proof.
  cbv zeta. split; [reflexivity|].
  refine ((fun Hin => conj Hin _) (or_introl eq_refl)).
  split; [reflexivity|].
  split; [discriminate|]. split; [discriminate|]. split; [discriminate|].
  apply (record_keeps_caller_fields Gateway.StoreBreakthroughMoment
           [VStr "u1"; VStr "s1"; VObj [("sessionId", VStr "other"); ("note", VStr "x")]]
           Memory.world Memory.handle Sample.world _ _
           [("sessionId", VStr "other"); ("note", VStr "x")] "note" eq_refl Hin eq_refl);
    discriminate.
Defined.

(** The profile write merges. *)
Lemma only_profile_write_merges_witness :
  let m := Gateway.StoreUserProfile in
  let args := [VStr "u1"; VObj [("symbolicName", VStr "Ada")]] in
  Gateway.kind_of m = Gateway.Write /\
  In true (Firestore.merges
             (trace (run Memory.handle (Gateway.firebase m args) Sample.world))) /\
  true = Gateway.merging m.
Proof.
  cbv zeta. split; [reflexivity|].
  refine ((fun Hin => conj Hin _) (or_introl eq_refl)).
  exact (only_profile_write_merges Gateway.StoreUserProfile
           [VStr "u1"; VObj [("symbolicName", VStr "Ada")]]
           Memory.world Memory.handle Sample.world true eq_refl Hin).
Defined.

(** The first call of a profile read. *)
Lemma reads_never_write_witness :
  let m := Gateway.GetUserProfile in
  let e := Entry (Firestore.Doc [VStr "users"; VStr "u1"])
                 (Ok (Firestore.DocRef ["users"] "u1")) in
  Gateway.reading m = true /\
  In e (trace (run Memory.handle (Gateway.firebase m [VStr "u1"]) Sample.populated)) /\
  Firestore.reads_only _ (ent_call e).
Proof.
  cbv zeta. split; [reflexivity|].
  refine ((fun Hin => conj Hin _) (or_introl eq_refl)).
  exact (reads_never_write Gateway.GetUserProfile [VStr "u1"]
           Memory.world Memory.handle Sample.populated _ eq_refl Hin).
Defined.

(** The themes of a session, asked for alone. *)
Lemma session_data_selects_witness :
  let r := run Memory.handle
               (FirebaseMemoryService.getSessionData (VStr "u1") (VStr "s1") (VStr "themes"))
               Sample.populated in
  some_call_failed (trace r) = false /\
  exists fields,
    result r = Ok (VObj fields) /\
    (forall k, has_key k fields
               = (existsb (String.eqb k) FirebaseMemoryService.session_parts
                  && FirebaseMemoryService.selects (VStr "themes") k)%bool) /\
    (forallb (fun sub => negb (FirebaseMemoryService.selects (VStr "themes") sub))
             FirebaseMemoryService.session_parts = true ->
     trace r = []).
Proof.
  cbv zeta. split; [reflexivity|].
  apply (session_data_selects Memory.handle (VStr "u1") (VStr "s1") (VStr "themes")
           Sample.populated).
  reflexivity.
Defined.

(** The stage of session s1 is still there after the data of u1 is cleared. *)
Lemma clearUserData_scope_witness :
  let d := (Firestore.DocRef ["users"; "u1"; "sessions"; "s1"; "stages"] "q1",
            [("stage", VStr "alpha"); ("sessionId", VStr "s1");
             ("timestamp", VStr "2024-04-01T09:03:00.000Z")]) in
  In d (Memory.docs Sample.populated) /\
  Memory.doc [VStr "users"; VStr "u1"] = Ok (Firestore.DocRef ["users"] "u1") /\
  Memory.collection [VStr "users"; VStr "u1"; VStr "conversations"]
  = Ok (Firestore.CollRef ["users"; "u1"; "conversations"]) /\
  Memory.collection [VStr "users"; VStr "u1"; VStr "stages"]
  = Ok (Firestore.CollRef ["users"; "u1"; "stages"]) /\
  In d (Memory.docs
          (final (run Memory.handle (FirebaseMemoryService.clearUserData (VStr "u1"))
                      Sample.populated))).
Proof.
  cbv zeta. split; [simpl; tauto|]. repeat (split; [reflexivity|]).
  apply (clearUserData_scope (VStr "u1") Sample.populated).
  - simpl; tauto.
  - vm_compute. discriminate.
  - intros conversationsRef H. vm_compute in H. injection H as <-. discriminate.
  - intros stagesRef H. vm_compute in H. injection H as <-. discriminate.
Defined.

(** A call for the profile alone, with the session named. *)
Lemma lookups_follow_context_type_witness :
  let parameters := VObj [("user_id", VStr "u1"); ("context_type", VStr "profile");
                          ("session_id", VStr "s1")] in
  In (Gateway.GetUserProfile, [VStr "u1"])
     (Gateway.invocations
        (trace (run Backend.firebase (ContextTool.execute true parameters)
                    Sample.populated))) /\
  Gateway.arg 0 [VStr "u1"] = get parameters "user_id" /\
  ContextTool.wants (default_arg (get parameters "context_type") (VStr "all")) "profile"
  = true.
Proof.
  cbv zeta.
  refine ((fun Hin => conj Hin _) (or_introl eq_refl)).
  exact (lookups_follow_context_type true
           (VObj [("user_id", VStr "u1"); ("context_type", VStr "profile");
                  ("session_id", VStr "s1")])
           Memory.world Backend.firebase Sample.populated
           Gateway.GetUserProfile [VStr "u1"] Hin).
Defined.

(** Six entries: five are shown. *)
Lemma recent_messages_bounded_witness :
  let conversations :=
    map (fun s => VObj [("type", VStr "user"); ("content", VStr s)])
        ["a"; "b"; "c"; "d"; "e"; "f"]%string in
  exists section,
    ContextTool.conversation_section (VArr conversations) = Some section /\
    get section "total" = VNum 6 /\
    exists recent_messages,
      get section "recent_messages" = VArr recent_messages /\
      List.length recent_messages = 5%nat /\
      Forall (fun item => exists content,
                  get item "content" = VStr content /\
                  (String.length content <= 203)%nat)
             recent_messages.
Proof.
  cbv zeta. eexists. split; [reflexivity|].
  exact (recent_messages_bounded
           (map (fun s => VObj [("type", VStr "user"); ("content", VStr s)])
                ["a"; "b"; "c"; "d"; "e"; "f"]%string)
           _ eq_refl).
Defined.

(** A stage written through the route while the stand-in service is in
    place. *)
Lemma write_route_reports_witness :
  let env := Server.Environment (Some "production"%string) None in
  let req := Server.Request [] [] (VObj [("userUUID", VStr "u1"); ("stage", VStr "alpha")]) in
  Server.reaches Server.Stage env req = true /\
  nullish (Server.body req) = false /\
  truthy (get (Server.body req) "userUUID") = true /\
  result (run (Gateway.serve Sample.stand_in) (Server.post Server.Stage env req) tt)
  = Ok (Server.Response 200 (VObj [("success", VBool false);
                                   ("error", VStr "Service unavailable")])).
Proof.
  cbv zeta. repeat (split; [reflexivity|]).
  exact (write_route_reports Server.Stage
           (Server.Environment (Some "production"%string) None)
           (Server.Request [] [] (VObj [("userUUID", VStr "u1"); ("stage", VStr "alpha")]))
           unit Sample.stand_in tt eq_refl eq_refl eq_refl).
Defined.

Lemma write_route_data_excludes_user_witness :
  let env := Server.Environment (Some "production"%string) None in
  let fields := [("userUUID", VStr "u1"); ("stage", VStr "alpha")] in
  let req := Server.Request [] [] (VObj fields) in
  let args := [VStr "u1"; VObj [("stage", VStr "alpha")]] in
  Server.body req = VObj fields /\
  In (Gateway.StoreStageProgression, args)
     (Gateway.invocations
        (trace (run (Gateway.serve Sample.stand_in) (Server.post Server.Stage env req) tt))) /\
  Gateway.arg 0 args = get (Server.body req) "userUUID" /\
  get (Gateway.data_arg Gateway.StoreStageProgression args) "userUUID" = VUndefined /\
  (forall k, k <> "userUUID"%string ->
             get (Gateway.data_arg Gateway.StoreStageProgression args) k
             = get (Server.body req) k).
Proof.
  cbv zeta. split; [reflexivity|].
  refine ((fun Hin => conj Hin _) (or_introl eq_refl)).
  exact (write_route_data_excludes_user Server.Stage
           (Server.Environment (Some "production"%string) None)
           (Server.Request [] [] (VObj [("userUUID", VStr "u1"); ("stage", VStr "alpha")]))
           [("userUUID", VStr "u1"); ("stage", VStr "alpha")]
           unit (Gateway.serve Sample.stand_in) tt
           Gateway.StoreStageProgression [VStr "u1"; VObj [("stage", VStr "alpha")]]
           eq_refl Hin).
Defined.

(** A message of the agent: its type is not 'user_message'. *)
Lemma webhook_entry_witness :
  let env := Server.Environment None None in
  let req := Server.Request [] []
               (VObj [("user_id", VStr "u1"); ("message", VStr "Welcome back");
                      ("message_type", VStr "agent_response")]) in
  Server.unauthorized env req = false /\
  truthy (get (Server.body req) "user_id") = true /\
  truthy (get (Server.body req) "message") = true /\
  exists entry,
    Gateway.invocations
      (trace (run (Gateway.serve Sample.stand_in)
                  (Server.post_elevenlabs_webhook env req) tt))
    = [(Gateway.StoreConversation, [get (Server.body req) "user_id"; entry])] /\
    get entry "content" = get (Server.body req) "message" /\
    get entry "type" = VStr "assistant" /\
    (truthy (get (Server.body req) "timestamp") = true ->
     get entry "timestamp" = get (Server.body req) "timestamp") /\
    get (get entry "metadata") "source" = VStr "elevenlabs_webhook".
Proof.
  cbv zeta. repeat (split; [reflexivity|]).
  exact (webhook_entry (Server.Environment None None)
           (Server.Request [] []
              (VObj [("user_id", VStr "u1"); ("message", VStr "Welcome back");
                     ("message_type", VStr "agent_response")]))
           unit Sample.stand_in tt eq_refl eq_refl eq_refl).
Defined.

(** Two requests that differ in [session_id] only. *)
Lemma tools_route_reads_three_fields_witness :
  let st := Tools.after [true] in
  let req1 := Server.Request [] [] (VObj [("user_id", VStr "u1"); ("session_id", VStr "s9")]) in
  let req2 := Server.Request [] [] (VObj [("user_id", VStr "u1")]) in
  nullish (Server.body req1) = false /\
  nullish (Server.body req2) = false /\
  get (Server.body req1) "user_id" = get (Server.body req2) "user_id" /\
  get (Server.body req1) "context_type" = get (Server.body req2) "context_type" /\
  get (Server.body req1) "limit" = get (Server.body req2) "limit" /\
  Tools.post_context st req1 = Tools.post_context st req2.
Proof.
  cbv zeta. repeat (split; [reflexivity|]).
  exact (proj1 (tools_route_reads_three_fields (Tools.after [true])
                  (Server.Request [] []
                     (VObj [("user_id", VStr "u1"); ("session_id", VStr "s9")]))
                  (Server.Request [] [] (VObj [("user_id", VStr "u1")]))
                  eq_refl eq_refl eq_refl eq_refl eq_refl)).
Defined.

(** Stage progressions read through the manager without a limit. *)
Lemma manager_forwards_with_defaults_witness :
  MemoryManager.forwards Gateway.GetUserStageProgressions = true /\
  Gateway.limited_read Gateway.GetUserStageProgressions = true /\
  exists entries,
    result (run Backend.firebase
              (MemoryManager.manager true Gateway.GetUserStageProgressions
                 [VStr "u1"; VUndefined])
              Sample.populated)
    = Ok (VArr entries) /\
    Sorted Memory.newest_first entries /\
    (forall n, default_arg VUndefined (VNum 20) = VNum n ->
               (List.length entries <= Z.to_nat n)%nat).
Proof.
  split; [reflexivity|]. split; [reflexivity|].
  exact (proj2 (manager_forwards_with_defaults Gateway.GetUserStageProgressions
                  (VStr "u1") VUndefined eq_refl)
               eq_refl Sample.populated).
Defined.

(** The profile route on the populated store. *)
Lemma reading_routes_leave_store_witness :
  let env := Server.Environment (Some "production"%string) None in
  let req := Server.Request [] [("userUUID", "u1")]%string VUndefined in
  Routes.reading_route Routes.GetProfile = true /\
  Memory.docs (final (run Backend.firebase (Routes.handle env Routes.GetProfile req)
                          Sample.populated))
  = Memory.docs Sample.populated.
Proof.
  cbv zeta. split; [reflexivity|].
  exact (reading_routes_leave_store (Server.Environment (Some "production"%string) None)
           Routes.GetProfile (Server.Request [] [("userUUID", "u1")]%string VUndefined)
           Sample.populated eq_refl).
Defined.


End FurtherWitnesses.

(** ** Identifiers that hold a slash *)

Section SlashedIdentifiers.

Import Js Eff.

(** The client splits an identifier on its slashes: 'u2/conversations/m1'
    given as the user addresses the conversation entry m1 of user u2.
    Clearing the data of that "user" deletes the entry, and the profile
    route answers with it. *)
Example slashed_identifier_addresses_deeper_path :
  let entry := Firestore.DocRef ["users"; "u2"; "conversations"] "m1" in
  Memory.split_slash "/a//b/" = [""; "a"; ""; "b"; ""]%string /\
  Memory.doc [VStr "users"; VStr "u2/conversations/m1"] = Ok entry /\
  Memory.find_doc entry Sample.populated
  = Some [("type", VStr "user"); ("content", VStr "hello");
          ("timestamp", VStr "2024-04-02T09:00:00.000Z")] /\
  result (run Backend.firebase
            (Server.get_memory_profile
               (Server.Request [] [("userUUID", "u2/conversations/m1")]%string VUndefined))
            Sample.populated)
  = Ok (Server.Response 200
          (VObj [("type", VStr "user"); ("content", VStr "hello");
                 ("timestamp", VStr "2024-04-02T09:00:00.000Z")])) /\
  result (run Memory.handle
            (FirebaseMemoryService.clearUserData (VStr "u2/conversations/m1"))
            Sample.populated)
  = Ok (VObj [("success", VBool true)]) /\
  Memory.find_doc entry
    (final (run Memory.handle
              (FirebaseMemoryService.clearUserData (VStr "u2/conversations/m1"))
              Sample.populated))
  = None /\
  result (run Memory.handle (FirebaseMemoryService.clearUserData (VStr ""))
              Sample.populated)
  = Ok (VObj [("success", VBool false); ("error", VStr "Invalid document reference")]).
Proof. cbv zeta. repeat split; vm_compute; reflexivity. Qed.

End SlashedIdentifiers.
